(** * Two-State Thermodynamic Calculator: a shallow embedding

    The program is [ThermoStateCalc_TwoStates_app.py]: a PyQt5 form whose
    class [main_window] reads two property selectors and two values for each
    of two states, asks [thermoState.setState] for every property of each
    state and displays both states and their differences.

    Python's [str] is modelled by [string], read as a sequence of code points
    below 256; Python's [float] is the IEEE 754 binary64 format, modelled by
    Rocq's primitive [float]. A method of the form is a block of statements
    over the form object; the exceptions it can meet are those derived from
    [Exception], which its two handlers catch. The module
    [ThermoStateCalc_app] that the program imports is a parameter: the
    constants of [UC], the object built by [thermoState()] and the method
    [setState], whose calls are recorded in order. *)

From Stdlib Require Import Reals Lra.
From Stdlib Require Import ZArith List String Ascii Bool Lia.
From Stdlib Require Import PrimFloat SpecFloat FloatOps FloatAxioms.
Import ListNotations.

Local Open Scope string_scope.
Local Open Scope Z_scope.

(** ** Python strings *)

Module PyStr.

Definition code (c : ascii) : Z := Z.of_nat (nat_of_ascii c).

Definition chr (n : Z) : ascii := ascii_of_nat (Z.to_nat n).

(** [str.lower()] on one code point below 256: the capitals A-Z and the
    Latin-1 capitals U+00C0-U+00DE (U+00D7, the multiplication sign, has no
    case) move down by 32. *)
Definition lower_char (c : ascii) : ascii :=
  let n := code c in
  if ((65 <=? n) && (n <=? 90)) || ((192 <=? n) && (n <=? 222) && negb (n =? 215))
  then chr (n + 32) else c.

Fixpoint lower (s : string) : string :=
  match s with
  | EmptyString => EmptyString
  | String c r => String (lower_char c) (lower r)
  end.

(** An index of a slice, as Python normalises it: a negative index counts
    from the end, and the result is clipped to [0, len]. *)
Definition slice_index (len i : Z) : Z :=
  let j := if i <? 0 then i + len else i in
  Z.max 0 (Z.min len j).

(** [s[i:j]] *)
Definition slice (s : string) (i j : Z) : string :=
  let len := Z.of_nat (String.length s) in
  let a := slice_index len i in
  let b := slice_index len j in
  substring (Z.to_nat a) (Z.to_nat (b - a)) s.

(** [sub in s] *)
Fixpoint contains (sub s : string) : bool :=
  prefix sub s ||
  match s with
  | EmptyString => false
  | String _ r => contains sub r
  end.

Definition is_digit (c : ascii) : bool := (48 <=? code c) && (code c <=? 57).

Definition digit_char (d : Z) : ascii := chr (48 + d).

(** The decimal digits of a natural number, least significant first. *)
Fixpoint digits_rev (fuel : nat) (n : Z) : list ascii :=
  match fuel with
  | O => [digit_char (n mod 10)]
  | S f => if n <? 10 then [digit_char n]
           else digit_char (n mod 10) :: digits_rev f (n / 10)
  end.

(** [str(n)] for an integer [n >= 0]. *)
Definition of_Z (n : Z) : string :=
  string_of_list_ascii (rev (digits_rev (Z.to_nat (Z.log2 n)) n)).

End PyStr.

(** ** Python floats *)

Module PyFloat.

Import PyStr.

(** *** [float(text)]

    CPython strips white space at both ends, accepts an underscore between
    two digits, then reads either a signed [inf], [infinity] or [nan] in any
    letter case, or a signed decimal number with an optional fraction and an
    optional exponent. The value is the binary64 number nearest to the
    decimal one (ties to even); a number too large becomes an infinity.
    Any other text raises [ValueError]: [None] here. *)

(** White space among the code points below 256 (the ASCII ones, U+0085 and
    U+00A0). *)
Definition is_space (c : ascii) : bool :=
  let n := code c in
  ((9 <=? n) && (n <=? 13)) || (n =? 32) || (n =? 133) || (n =? 160).

Fixpoint lstrip (l : list ascii) : list ascii :=
  match l with
  | c :: r => if is_space c then lstrip r else l
  | [] => []
  end.

Definition strip (l : list ascii) : list ascii := rev (lstrip (rev (lstrip l))).

Definition is_underscore (c : ascii) : bool := code c =? 95.

(** Underscores are removed; one that does not stand between two digits
    makes the text invalid. [prev] is the character before [l]. *)
Fixpoint drop_underscores (prev : option ascii) (l : list ascii) : option (list ascii) :=
  match l with
  | [] => match prev with
          | Some p => if is_underscore p then None else Some []
          | None => Some []
          end
  | c :: r =>
      if is_underscore c then
        match prev with
        | Some p => if is_digit p then drop_underscores (Some c) r else None
        | None => None
        end
      else
        let after_underscore := match prev with Some p => is_underscore p | None => false end in
        if after_underscore && negb (is_digit c) then None
        else option_map (cons c) (drop_underscores (Some c) r)
  end.

(** The longest run of digits at the head of [l], as a number, with the
    count of digits read and the rest. *)
Fixpoint read_digits (acc : Z) (n : Z) (l : list ascii) : Z * Z * list ascii :=
  match l with
  | c :: r => if is_digit c then read_digits (10 * acc + (code c - 48)) (n + 1) r
              else (acc, n, l)
  | [] => (acc, n, [])
  end.

Definition read_sign (l : list ascii) : bool * list ascii :=
  match l with
  | c :: r => if code c =? 45 then (true, r)
              else if code c =? 43 then (false, r)
              else (false, l)
  | [] => (false, [])
  end.

Definition matches_nocase (word : string) (l : list ascii) : bool :=
  String.eqb (lower (string_of_list_ascii l)) word.

(** The number of decimal digits of [m > 0]. *)
Definition decimal_length (m : Z) : Z := Z.of_nat (String.length (of_Z m)).

(** The binary64 number nearest to [m * 10^e], for [m >= 0]. *)
Definition of_decimal (neg : bool) (m e : Z) : spec_float :=
  if m =? 0 then S754_zero neg
  else
    let k := decimal_length m in
    if 310 <=? k + e then S754_infinity neg
    else if k + e <? -330 then S754_zero neg
    else if 0 <=? e then
      binary_normalize prec emax (if neg then - (m * 10 ^ e) else m * 10 ^ e) 0 neg
    else
      let '(q, e2, loc) := SFdiv_core_binary prec emax m 0 (10 ^ (- e)) 0 in
      binary_round_aux prec emax neg q e2 loc.

(** The exponent part: [e] or [E], an optional sign and at least one digit,
    up to the end of the text. *)
Definition read_exponent (l : list ascii) : option Z :=
  match l with
  | [] => Some 0
  | c :: r =>
      if (code c =? 101) || (code c =? 69) then
        let '(neg, r1) := read_sign r in
        let '(e, n, r2) := read_digits 0 0 r1 in
        match r2 with
        | [] => if 0 <? n then Some (if neg then - e else e) else None
        | _ :: _ => None
        end
      else None
  end.

Definition read_number (neg : bool) (l : list ascii) : option spec_float :=
  let '(ip, ni, r1) := read_digits 0 0 l in
  let '(m, nf, r2) :=
    match r1 with
    | c :: r => if code c =? 46 then
                  let '(m, nf, r2) := read_digits ip 0 r in (m, nf, r2)
                else (ip, 0, r1)
    | [] => (ip, 0, r1)
    end in
  if 0 <? ni + nf then
    match read_exponent r2 with
    | Some e => Some (of_decimal neg m (e - nf))
    | None => None
    end
  else None.

Definition parse (text : string) : option spec_float :=
  match drop_underscores None (list_ascii_of_string text) with
  | None => None
  | Some l =>
      let '(neg, r) := read_sign (strip l) in
      if matches_nocase "inf" r || matches_nocase "infinity" r then Some (S754_infinity neg)
      else if matches_nocase "nan" r then Some S754_nan
      else read_number neg r
  end.

(** [float(text)]; [None] stands for the [ValueError] it raises. *)
Definition float_of_str (text : string) : option float :=
  option_map SF2Prim (parse text).

(** *** [format(x, "0.3f")]

    The zero before the point is the zero-padding flag of a field without a
    width, so the format is [".3f"]: the exact value of the float rounded to
    three decimals (ties to even), after the sign of the float. Infinities
    and NaN have no digits. *)

Definition round_half_even (num den : Z) : Z :=
  let q := num / den in
  let r := num mod den in
  match 2 * r ?= den with
  | Lt => q
  | Eq => if Z.even q then q else q + 1
  | Gt => q + 1
  end.

(** The value [m * 2^e] in thousandths, rounded. *)
Definition thousandths (m : positive) (e : Z) : Z :=
  if 0 <=? e then Zpos m * 1000 * 2 ^ e
  else round_half_even (Zpos m * 1000) (2 ^ (- e)).

Definition sign_text (neg : bool) : string := if neg then "-" else "".

Definition fixed3 (neg : bool) (q : Z) : string :=
  sign_text neg ++ of_Z (q / 1000) ++ "." ++
  string_of_list_ascii [digit_char (q / 100 mod 10); digit_char (q / 10 mod 10); digit_char (q mod 10)].

Definition format_3f_SF (x : spec_float) : string :=
  match x with
  | S754_nan => "nan"
  | S754_infinity neg => sign_text neg ++ "inf"
  | S754_zero neg => fixed3 neg 0
  | S754_finite neg m e => fixed3 neg (thousandths m e)
  end.

Definition format_3f (x : float) : string := format_3f_SF (Prim2SF x).

Definition is_finite (x : float) : bool :=
  match Prim2SF x with
  | S754_zero _ | S754_finite _ _ _ => true
  | S754_infinity _ | S754_nan => false
  end.

End PyFloat.

(** ** Python control flow *)

Module Py.

(** The exceptions the program distinguishes: its handlers catch
    [ValueError] (an instance of it or of a subclass) first and any other
    [Exception] second. Each carries [str(e)]. *)
Inductive exn : Type :=
| ValueError (msg : string)
| Exception (msg : string).

Definition str (e : exn) : string :=
  match e with
  | ValueError msg => msg
  | Exception msg => msg
  end.

(** How a block of statements ends: it runs to its end with a value, it
    executes [return], or it raises. *)
Inductive completion (A : Type) : Type :=
| Normal (a : A)
| Return
| Raise (e : exn).

Arguments Normal {A} a.
Arguments Return {A}.
Arguments Raise {A} e.

Section Monad.
Variable W : Type.

(** A block of statements over a store [W]. *)
Definition M (A : Type) : Type := W -> completion A * W.

Definition ret {A : Type} (a : A) : M A := fun w => (Normal a, w).

Definition bind {A B : Type} (m : M A) (k : A -> M B) : M B :=
  fun w =>
    match m w with
    | (Normal a, w') => k a w'
    | (Return, w') => (Return, w')
    | (Raise e, w') => (Raise e, w')
    end.

Definition return_ {A : Type} : M A := fun w => (Return, w).

Definition raise {A : Type} (e : exn) : M A := fun w => (Raise e, w).

Definition get : M W := fun w => (Normal w, w).

Definition modify (f : W -> W) : M unit := fun w => (Normal tt, f w).

(** [try: body except ValueError: h1 except Exception as e: h2 e], as the
    last statement of a function: a [return] in [body] ends the function. *)
Definition try_except (body : M unit) (on_ValueError : M unit)
           (on_Exception : exn -> M unit) : M unit :=
  fun w =>
    match body w with
    | (Normal tt, w') => (Normal tt, w')
    | (Return, w') => (Return, w')
    | (Raise (ValueError msg), w') => on_ValueError w'
    | (Raise (Exception msg), w') => on_Exception (Exception msg) w'
    end.
End Monad.

Arguments ret {W A} a.
Arguments bind {W A B} m k.
Arguments return_ {W A}.
Arguments raise {W A} e.
Arguments get {W}.
Arguments modify {W} f.
Arguments try_except {W} body on_ValueError on_Exception.

End Py.

Declare Scope py_scope.
Delimit Scope py_scope with py.
Notation "x <- m ;; k" := (Py.bind m (fun x => k))
  (at level 61, m at next level, right associativity) : py_scope.
Notation "m ;; k" := (Py.bind m (fun _ => k))
  (at level 61, right associativity) : py_scope.

(** ** The imported module [ThermoStateCalc_app]

    The program imports the classes [thermoState] and [UC] from a module that
    is not part of it. What the program reads of a [thermoState] object are the
    eight attributes below; the seven numeric ones are formatted with a float
    format. Of [UC] it reads eight factors and calls two functions. *)

Module ThermoStateCalc_app.

Record thermoState : Type := mk_thermoState {
  region : string;
  p : float;
  t : float;
  u : float;
  h : float;
  s : float;
  v : float;
  x : float
}.

Record UC : Type := mk_UC {
  psi_to_bar : float;
  bar_to_psi : float;
  F_to_C : float -> float;
  C_to_F : float -> float;
  btuperlb_to_kJperkg : float;
  kJperkg_to_btuperlb : float;
  btuperlbF_to_kJperkgC : float;
  kJperkgc_to_btuperlbF : float;
  ft3perlb_to_m3perkg : float;
  m3perkg_to_ft3perlb : float
}.

(** The module as the program sees it: the class [UC], the object that
    [thermoState()] builds, and the method [setState], which mutates the
    object it is called on and may raise. *)
Record module : Type := mk_module {
  uc : UC;
  new_thermoState : thermoState;
  setState : thermoState -> string -> string -> float -> float -> bool ->
             thermoState * option Py.exn
}.

End ThermoStateCalc_app.

(** ** The form *)

Module XSteam.
Inductive unit_system : Type := UNIT_SYSTEM_MKS | UNIT_SYSTEM_FLS.
End XSteam.

Import ThermoStateCalc_app.

(** One input of a state: the property selector (a combo box), the value
    field (a line edit) and the units label next to it. *)
Record input_row : Type := mk_input_row {
  combo : string;      (* combo.currentText() *)
  lineEdit : string;   (* lineEdit.text() *)
  label : string       (* label.text() *)
}.

Record main_window : Type := mk_main_window {
  _rdo_SI : bool;                        (* _rdo_SI.isChecked() *)
  State1_Property1 : input_row;
  State1_Property2 : input_row;
  State2_Property1 : input_row;
  State2_Property2 : input_row;
  _lbl_Warning : string;
  _lbl_State1_Properties : string;
  _lbl_State2_Properties : string;
  _lbl_StateChange_Properties : string;
  steamTable : XSteam.unit_system;
  currentUnits : string;
  p_Units : string;
  t_Units : string;
  u_Units : string;
  h_Units : string;
  s_Units : string;
  v_Units : string;
  state1 : option thermoState;           (* None: the attribute is not set yet *)
  state2 : option thermoState
}.

(** What the form asks of the imported module, in order. *)
Inductive call : Type :=
| NewThermoState                                              (* thermoState() *)
| SetState (p1 p2 : string) (v1 v2 : float) (SI : bool).      (* .setState(...) *)

(** The store of a run: the form and the calls made so far. *)
Record world : Type := mk_world {
  self : main_window;
  calls : list call
}.

(** Widget and attribute writes. *)

Definition with_lineEdit (r : input_row) (text : string) : input_row :=
  mk_input_row (combo r) text (label r).

Definition with_label (r : input_row) (text : string) : input_row :=
  mk_input_row (combo r) (lineEdit r) text.

Definition with_lbl_Warning (w : main_window) (text : string) : main_window :=
  mk_main_window (_rdo_SI w) (State1_Property1 w) (State1_Property2 w)
    (State2_Property1 w) (State2_Property2 w) text (_lbl_State1_Properties w)
    (_lbl_State2_Properties w) (_lbl_StateChange_Properties w) (steamTable w)
    (currentUnits w) (p_Units w) (t_Units w) (u_Units w) (h_Units w) (s_Units w)
    (v_Units w) (state1 w) (state2 w).

Definition with_lbl_State1_Properties (w : main_window) (text : string) : main_window :=
  mk_main_window (_rdo_SI w) (State1_Property1 w) (State1_Property2 w)
    (State2_Property1 w) (State2_Property2 w) (_lbl_Warning w) text
    (_lbl_State2_Properties w) (_lbl_StateChange_Properties w) (steamTable w)
    (currentUnits w) (p_Units w) (t_Units w) (u_Units w) (h_Units w) (s_Units w)
    (v_Units w) (state1 w) (state2 w).

Definition with_lbl_State2_Properties (w : main_window) (text : string) : main_window :=
  mk_main_window (_rdo_SI w) (State1_Property1 w) (State1_Property2 w)
    (State2_Property1 w) (State2_Property2 w) (_lbl_Warning w) (_lbl_State1_Properties w)
    text (_lbl_StateChange_Properties w) (steamTable w)
    (currentUnits w) (p_Units w) (t_Units w) (u_Units w) (h_Units w) (s_Units w)
    (v_Units w) (state1 w) (state2 w).

Definition with_lbl_StateChange_Properties (w : main_window) (text : string) : main_window :=
  mk_main_window (_rdo_SI w) (State1_Property1 w) (State1_Property2 w)
    (State2_Property1 w) (State2_Property2 w) (_lbl_Warning w) (_lbl_State1_Properties w)
    (_lbl_State2_Properties w) text (steamTable w)
    (currentUnits w) (p_Units w) (t_Units w) (u_Units w) (h_Units w) (s_Units w)
    (v_Units w) (state1 w) (state2 w).

Definition with_state1 (w : main_window) (st : thermoState) : main_window :=
  mk_main_window (_rdo_SI w) (State1_Property1 w) (State1_Property2 w)
    (State2_Property1 w) (State2_Property2 w) (_lbl_Warning w) (_lbl_State1_Properties w)
    (_lbl_State2_Properties w) (_lbl_StateChange_Properties w) (steamTable w)
    (currentUnits w) (p_Units w) (t_Units w) (u_Units w) (h_Units w) (s_Units w)
    (v_Units w) (Some st) (state2 w).

Definition with_state2 (w : main_window) (st : thermoState) : main_window :=
  mk_main_window (_rdo_SI w) (State1_Property1 w) (State1_Property2 w)
    (State2_Property1 w) (State2_Property2 w) (_lbl_Warning w) (_lbl_State1_Properties w)
    (_lbl_State2_Properties w) (_lbl_StateChange_Properties w) (steamTable w)
    (currentUnits w) (p_Units w) (t_Units w) (u_Units w) (h_Units w) (s_Units w)
    (v_Units w) (state1 w) (Some st).

Definition with_rows (w : main_window) (r11 r12 r21 r22 : input_row) : main_window :=
  mk_main_window (_rdo_SI w) r11 r12 r21 r22 (_lbl_Warning w) (_lbl_State1_Properties w)
    (_lbl_State2_Properties w) (_lbl_StateChange_Properties w) (steamTable w)
    (currentUnits w) (p_Units w) (t_Units w) (u_Units w) (h_Units w) (s_Units w)
    (v_Units w) (state1 w) (state2 w).

(** The unit attributes, written together by [setUnits]. *)
Definition with_units (w : main_window) (table : XSteam.unit_system)
           (current pU tU uU hU sU vU : string) : main_window :=
  mk_main_window (_rdo_SI w) (State1_Property1 w) (State1_Property2 w)
    (State2_Property1 w) (State2_Property2 w) (_lbl_Warning w) (_lbl_State1_Properties w)
    (_lbl_State2_Properties w) (_lbl_StateChange_Properties w) table
    current pU tU uU hU sU vU (state1 w) (state2 w).

(** *** [updatePropertyUnits]

    The three widgets it receives are always those of one input. *)

Section Form.

Variable app : ThermoStateCalc_app.module.

Local Open Scope float_scope.

Definition updatePropertyUnits (w : main_window) (row : input_row)
           (UnitChange SI : bool) : input_row :=
  let prop := combo row in
  let val :=
    match PyFloat.float_of_str (lineEdit row) with
    | Some f => f
    | None => 0
    end in
  let '(row, val) :=
    if PyStr.contains "Pressure" prop then
      (with_label row (p_Units w),
       if UnitChange then
         if SI then val * psi_to_bar (uc app) else val * bar_to_psi (uc app)
       else val)
    else if PyStr.contains "Temperature" prop then
      (with_label row (t_Units w),
       if UnitChange then
         if SI then F_to_C (uc app) val else C_to_F (uc app) val
       else val)
    else if PyStr.contains "Energy" prop then
      (with_label row (u_Units w),
       if UnitChange then
         if SI then val * btuperlb_to_kJperkg (uc app)
         else val * kJperkg_to_btuperlb (uc app)
       else val)
    else if PyStr.contains "Enthalpy" prop then
      (with_label row (h_Units w),
       if UnitChange then
         if SI then val * btuperlb_to_kJperkg (uc app)
         else val * kJperkg_to_btuperlb (uc app)
       else val)
    else if PyStr.contains "Entropy" prop then
      (with_label row (s_Units w),
       if UnitChange then
         if SI then val * btuperlbF_to_kJperkgC (uc app)
         else val * kJperkgc_to_btuperlbF (uc app)
       else val)
    else if PyStr.contains "Volume" prop then
      (with_label row (v_Units w),
       if UnitChange then
         if SI then val * ft3perlb_to_m3perkg (uc app)
         else val * m3perkg_to_ft3perlb (uc app)
       else val)
    else if PyStr.contains "Quality" prop then
      (with_label row "", val)
    else (row, val) in
  with_lineEdit row (PyFloat.format_3f val).

(** *** [setUnits] *)

Definition setUnits (w : main_window) : main_window :=
  let SI := _rdo_SI w in
  let newUnits := if SI then "SI" else "EN" in
  let UnitChange := negb (currentUnits w =? newUnits)%string in
  let w :=
    if SI then
      with_units w XSteam.UNIT_SYSTEM_MKS newUnits
                 "bar" "C" "kJ/kg" "kJ/kg" "kJ/kg*C" "m^3/kg"
    else
      with_units w XSteam.UNIT_SYSTEM_FLS newUnits
                 "psi" "F" "btu/lb" "btu/lb" "btu/lb*F" "ft^3/lb" in
  with_rows w
    (updatePropertyUnits w (State1_Property1 w) UnitChange SI)
    (updatePropertyUnits w (State1_Property2 w) UnitChange SI)
    (updatePropertyUnits w (State2_Property1 w) UnitChange SI)
    (updatePropertyUnits w (State2_Property2 w) UnitChange SI).

(** *** [makeLabel] and [makeDeltaLabel] *)

Definition nl : string := String (ascii_of_nat 10) EmptyString.

(** [region_colors.get(region, "black")] *)
Definition region_colors_get (region : string) : string :=
  if (region =? "two-phase")%string then "blue"
  else if (region =? "super-heated vapor")%string then "green"
  else if (region =? "sub-cooled liquid")%string then "red"
  else if (region =? "saturated")%string then "black"
  else "black".

Definition makeLabel (w : main_window) (state : thermoState) : string :=
  let color := region_colors_get (region state) in
  let stProps := "<span style='color:" ++ color ++ ";'><b>Region = "
                 ++ region state ++ "</b></span>" in
  let stProps := stProps ++ "<br>Pressure = " ++ PyFloat.format_3f (p state)
                 ++ " " ++ p_Units w in
  let stProps := stProps ++ "<br>Temperature = " ++ PyFloat.format_3f (t state)
                 ++ " " ++ t_Units w in
  let stProps := stProps ++ "<br>Internal Energy = " ++ PyFloat.format_3f (u state)
                 ++ " " ++ u_Units w in
  let stProps := stProps ++ "<br>Enthalpy = " ++ PyFloat.format_3f (h state)
                 ++ " " ++ h_Units w in
  let stProps := stProps ++ "<br>Entropy = " ++ PyFloat.format_3f (s state)
                 ++ " " ++ s_Units w in
  let stProps := stProps ++ "<br>Specific Volume = " ++ PyFloat.format_3f (v state)
                 ++ " " ++ v_Units w in
  let stProps := stProps ++ "<br>Quality = " ++ PyFloat.format_3f (x state) in
  stProps.

Definition makeDeltaLabel (w : main_window) (state1 state2 : thermoState) : string :=
  let stDelta := "Property change:" in
  let stDelta := stDelta ++ nl ++ "P2-P1 = " ++ PyFloat.format_3f (p state2 - p state1)
                 ++ " " ++ p_Units w in
  let stDelta := stDelta ++ nl ++ "T2-T1 = " ++ PyFloat.format_3f (t state2 - t state1)
                 ++ " " ++ t_Units w in
  let stDelta := stDelta ++ nl ++ "u2-u1 = " ++ PyFloat.format_3f (u state2 - u state1)
                 ++ " " ++ u_Units w in
  let stDelta := stDelta ++ nl ++ "h2-h1 = " ++ PyFloat.format_3f (h state2 - h state1)
                 ++ " " ++ h_Units w in
  let stDelta := stDelta ++ nl ++ "s2-s1 = " ++ PyFloat.format_3f (s state2 - s state1)
                 ++ " " ++ s_Units w in
  let stDelta := stDelta ++ nl ++ "v2-v1 = " ++ PyFloat.format_3f (v state2 - v state1)
                 ++ " " ++ v_Units w in
  let stDelta := stDelta ++ nl ++ "x2-x1 = " ++ PyFloat.format_3f (x state2 - x state1) in
  stDelta.

End Form.

(** *** [calculateProperties] *)

Section Calculate.

Variable app : ThermoStateCalc_app.module.

Local Open Scope py_scope.

Definition M : Type -> Type := Py.M world.

(** A write to an attribute or a widget of the form. *)
Definition assign (f : main_window -> main_window) : M unit :=
  Py.modify (fun st => mk_world (f (self st)) (calls st)).

Definition emit (c : call) : M unit :=
  Py.modify (fun st => mk_world (self st) (calls st ++ [c])).

(** [float(text)] *)
Definition float_ (text : string) : M float :=
  match PyFloat.float_of_str text with
  | Some f => Py.ret f
  | None => Py.raise (Py.ValueError "could not convert string to float")
  end.

(** [thermoState()] *)
Definition thermoState_ : M thermoState :=
  emit NewThermoState ;; Py.ret (new_thermoState app).

(** [obj.setState(p1, p2, v1, v2, SI)], where [obj] is the object an
    attribute of the form holds: [store] writes the mutated object back. *)
Definition setState_ (obj : thermoState) (store : main_window -> thermoState -> main_window)
           (p1 p2 : string) (v1 v2 : float) (SI : bool) : M thermoState :=
  emit (SetState p1 p2 v1 v2 SI) ;;
  let '(obj', raised) := setState app obj p1 p2 v1 v2 SI in
  assign (fun w => store w obj') ;;
  match raised with
  | Some e => Py.raise e
  | None => Py.ret obj'
  end.

Definition State1_duplicate_warning : string :=
  "Warning: You cannot specify the same property twice for State 1.".

Definition State2_duplicate_warning : string :=
  "Warning: You cannot specify the same property twice for State 2.".

Definition invalid_value_error : string :=
  "Error: Please enter valid numerical values.".

Definition unexpected_error (e : Py.exn) : string :=
  "Unexpected error: " ++ Py.str e.

(** The body of the [try] statement. *)
Definition calculateProperties_try : M unit :=
  w <- Py.get ;;
  let w := self w in
  (* State 1 inputs *)
  let SP1 := (PyStr.lower (PyStr.slice (combo (State1_Property1 w)) (-2) (-1)),
              PyStr.lower (PyStr.slice (combo (State1_Property2 w)) (-2) (-1))) in
  if (fst SP1 =? snd SP1)%string then
    assign (fun w => with_lbl_Warning w State1_duplicate_warning) ;;
    Py.return_
  else
  f1_0 <- float_ (lineEdit (State1_Property1 w)) ;;
  f1_1 <- float_ (lineEdit (State1_Property2 w)) ;;
  (* State 2 inputs *)
  let SP2 := (PyStr.lower (PyStr.slice (combo (State2_Property1 w)) (-2) (-1)),
              PyStr.lower (PyStr.slice (combo (State2_Property2 w)) (-2) (-1))) in
  if (fst SP2 =? snd SP2)%string then
    assign (fun w => with_lbl_Warning w State2_duplicate_warning) ;;
    Py.return_
  else
  f2_0 <- float_ (lineEdit (State2_Property1 w)) ;;
  f2_1 <- float_ (lineEdit (State2_Property2 w)) ;;
  let SI := _rdo_SI w in
  (* Set states *)
  st1 <- thermoState_ ;;
  assign (fun w => with_state1 w st1) ;;
  st1 <- setState_ st1 with_state1 (fst SP1) (snd SP1) f1_0 f1_1 SI ;;
  st2 <- thermoState_ ;;
  assign (fun w => with_state2 w st2) ;;
  st2 <- setState_ st2 with_state2 (fst SP2) (snd SP2) f2_0 f2_1 SI ;;
  (* Display results *)
  assign (fun w => with_lbl_State1_Properties w (makeLabel w st1)) ;;
  assign (fun w => with_lbl_State2_Properties w (makeLabel w st2)) ;;
  assign (fun w => with_lbl_StateChange_Properties w (makeDeltaLabel w st1 st2)) ;;
  assign (fun w => with_lbl_Warning w "").

Definition calculateProperties : M unit :=
  Py.try_except calculateProperties_try
    (assign (fun w => with_lbl_Warning w invalid_value_error))
    (fun e => assign (fun w => with_lbl_Warning w (unexpected_error e))).

(** One click on Calculate: the form afterwards and the calls made. *)
Definition click_Calculate (w : main_window) : main_window * list call :=
  let '(_, st) := calculateProperties (mk_world w []) in
  (self st, calls st).

End Calculate.

(** ** The state resolver of the specification

    [thermoState.setState] belongs to the imported module. The resolution
    logic is therefore taken from the specification's description of the
    StateResolver and of the UnitConverter. *)

Module StateResolver.

Local Open Scope float_scope.

(** Modelled from the spec: the PropertyIdentifier tags (the resolver is
    missing from the sources). *)
Inductive PropertyIdentifier : Type :=
| Pressure | Temperature | SpecificVolume | Quality | Enthalpy | Entropy.

(** Modelled from the spec: the UnitSystem selector (the resolver is missing
    from the sources). *)
Inductive UnitSystem : Type := SI | English.

(** Modelled from the spec: the regions of a ThermoState (the class is
    missing from the sources). *)
Inductive Region : Type :=
| SubCooledLiquid | Saturated | TwoPhase | SuperHeatedVapor.

(** Modelled from the spec: the seven numeric fields of a ThermoState (the
    class is missing from the sources). *)
Record Fields : Type := mk_Fields {
  p : float; t : float; u : float; h : float; s : float; v : float; x : float
}.

(** Modelled from the spec: a resolved ThermoState, seven populated fields
    and exactly one region. *)
Record ThermoState : Type := mk_ThermoState {
  fields : Fields;
  region : Region
}.

(** Modelled from the spec: the error taxonomy of the resolver (the
    resolver is missing from the sources). *)
Inductive Error : Type :=
| DuplicatePropertyError
| InvalidInputError
| UnsupportedPropertyPairError (a b : PropertyIdentifier)
| PropertyResolutionError (a : PropertyIdentifier) (va : float)
                          (b : PropertyIdentifier) (vb : float).

(** Modelled from the spec: the UnitConverter, a linear scale factor for
    each quantity but temperature, whose conversion is affine (the class UC
    is missing from the sources, and the specification gives no factor). *)
Record UnitConverter : Type := mk_UnitConverter {
  psi_per_bar : float;
  btuperlb_per_kJperkg : float;
  btuperlbF_per_kJperkgK : float;
  ft3perlb_per_m3perkg : float
}.

(** Modelled from the spec: the property backend, working in SI (the steam
    tables are an external library). Both saturation lookups give the
    saturation pressure and temperature in the fields [p] and [t] of the
    saturated liquid and of the saturated vapor. *)
Record Backend : Type := mk_Backend {
  saturation_temperature : float -> option float;
  saturation_by_pressure : float -> option (Fields * Fields);
  saturation_by_temperature : float -> option (Fields * Fields);
  properties_pT : Region -> float -> float -> option Fields;
  inversion : Region -> PropertyIdentifier -> float ->
              PropertyIdentifier -> float -> option Fields
}.

(** Modelled from the spec: equality of identifiers, for the precondition
    that the two of a state differ (the resolver is missing from the
    sources). *)
Definition PropertyIdentifier_eqb (a b : PropertyIdentifier) : bool :=
  match a, b with
  | Pressure, Pressure | Temperature, Temperature
  | SpecificVolume, SpecificVolume | Quality, Quality
  | Enthalpy, Enthalpy | Entropy, Entropy => true
  | _, _ => false
  end.

(** Modelled from the spec: the resolution strategies of the dispatch on
    the unordered pair of identifiers. *)
Inductive Strategy : Type :=
| PressureTemperature
| SaturationQuality
| Inversion.

(** Modelled from the spec: the dispatch; the pairs without pressure or
    temperature are the unsupported ones. *)
Definition dispatch (a b : PropertyIdentifier) : option Strategy :=
  match a, b with
  | Pressure, Temperature | Temperature, Pressure => Some PressureTemperature
  | Pressure, Quality | Quality, Pressure
  | Temperature, Quality | Quality, Temperature => Some SaturationQuality
  | Pressure, Enthalpy | Enthalpy, Pressure
  | Pressure, Entropy | Entropy, Pressure
  | Pressure, SpecificVolume | SpecificVolume, Pressure
  | Temperature, Enthalpy | Enthalpy, Temperature
  | Temperature, Entropy | Entropy, Temperature
  | Temperature, SpecificVolume | SpecificVolume, Temperature => Some Inversion
  | _, _ => None
  end.

Section Resolver.

Variable converter : UnitConverter.
Variable backend : Backend.
(** The tolerance within which a temperature equals the saturation
    temperature. *)
Variable tolerance : float.

(** Modelled from the spec: the conversion of one value between the
    unit systems, by quantity (the class UC is missing from the
    sources). *)
Definition toEnglish (q : PropertyIdentifier) (val : float) : float :=
  match q with
  | Pressure => val * psi_per_bar converter
  | Temperature => val * 9 / 5 + 32
  | Enthalpy => val * btuperlb_per_kJperkg converter
  | Entropy => val * btuperlbF_per_kJperkgK converter
  | SpecificVolume => val * ft3perlb_per_m3perkg converter
  | Quality => val
  end.

(** Modelled from the spec: the inverse conversion (the class UC is
    missing from the sources). *)
Definition toSI (q : PropertyIdentifier) (val : float) : float :=
  match q with
  | Pressure => val / psi_per_bar converter
  | Temperature => (val - 32) * 5 / 9
  | Enthalpy => val / btuperlb_per_kJperkg converter
  | Entropy => val / btuperlbF_per_kJperkgK converter
  | SpecificVolume => val / ft3perlb_per_m3perkg converter
  | Quality => val
  end.

(** Modelled from the spec: step 1, the input value in the unit system
    of the backend (the resolver is missing from the sources). *)
Definition normalize (us : UnitSystem) (q : PropertyIdentifier) (val : float) : float :=
  match us with
  | SI => val
  | English => toSI q val
  end.

(** Modelled from the spec: step 3, the fields in the unit system of the
    caller; internal energy converts as enthalpy does (the resolver is
    missing from the sources). *)
Definition denormalize (us : UnitSystem) (f : Fields) : Fields :=
  match us with
  | SI => f
  | English =>
      mk_Fields (toEnglish Pressure (p f)) (toEnglish Temperature (t f))
                (toEnglish Enthalpy (u f)) (toEnglish Enthalpy (h f))
                (toEnglish Entropy (s f)) (toEnglish SpecificVolume (v f))
                (x f)
  end.

(** Modelled from the spec: the classification of a (p, T) input against
    the saturation temperature at p (the resolver is missing from the
    sources). *)
Definition classify_pT (T tsat : float) : Region :=
  if abs (T - tsat) <=? tolerance then Saturated
  else if T <? tsat then SubCooledLiquid
  else SuperHeatedVapor.

(** Modelled from the spec: the strategy for {Pressure, Temperature}
    (the resolver is missing from the sources). *)
Definition resolve_pT (P T : float) : option ThermoState :=
  match saturation_temperature backend P with
  | None => None
  | Some tsat =>
      let r := classify_pT T tsat in
      match properties_pT backend r P T with
      | None => None
      | Some f => Some (mk_ThermoState f r)
      end
  end.

(** Modelled from the spec: linear interpolation between the saturated-liquid
    and the saturated-vapor value, weighted by quality (the resolver is
    missing from the sources). *)
Definition interpolate (q liquid vapor : float) : float :=
  liquid + q * (vapor - liquid).

(** Modelled from the spec: the state of quality [q] between a saturated
    liquid and a saturated vapor, saturated when [q] is exactly 0 or 1 (the
    resolver is missing from the sources). *)
Definition mixture (q : float) (f g : Fields) : ThermoState :=
  mk_ThermoState
    (mk_Fields (p f) (t f) (interpolate q (u f) (u g)) (interpolate q (h f) (h g))
               (interpolate q (s f) (s g)) (interpolate q (v f) (v g)) q)
    (if (q =? 0) || (q =? 1) then Saturated else TwoPhase).

(** Modelled from the spec: the saturation properties at the given pressure
    or temperature (the resolver is missing from the sources). *)
Definition saturation (anchor : PropertyIdentifier) (val : float)
  : option (Fields * Fields) :=
  match anchor with
  | Pressure => saturation_by_pressure backend val
  | Temperature => saturation_by_temperature backend val
  | _ => None
  end.

(** Modelled from the spec: the strategy for {Pressure, Quality} and
    {Temperature, Quality} (the resolver is missing from the sources). *)
Definition resolve_quality (anchor : PropertyIdentifier) (val q : float)
  : option ThermoState :=
  match saturation anchor val with
  | None => None
  | Some (f, g) => Some (mixture q f g)
  end.

(** Modelled from the spec: the field of a property set an identifier
    names (the class is missing from the sources). *)
Definition field_of (q : PropertyIdentifier) (f : Fields) : float :=
  match q with
  | Pressure => p f
  | Temperature => t f
  | SpecificVolume => v f
  | Quality => x f
  | Enthalpy => h f
  | Entropy => s f
  end.

(** Modelled from the spec: the strategy for pressure or temperature
    paired with enthalpy, entropy or specific volume: the second value is
    compared with its saturated-liquid and saturated-vapor bounds (the
    resolver is missing from the sources). *)
Definition resolve_inversion (anchor : PropertyIdentifier) (val : float)
           (other : PropertyIdentifier) (oval : float) : option ThermoState :=
  match saturation anchor val with
  | None => None
  | Some (f, g) =>
      let lo := field_of other f in
      let hi := field_of other g in
      if oval <? lo then
        option_map (fun r => mk_ThermoState r SubCooledLiquid)
                   (inversion backend SubCooledLiquid anchor val other oval)
      else if hi <? oval then
        option_map (fun r => mk_ThermoState r SuperHeatedVapor)
                   (inversion backend SuperHeatedVapor anchor val other oval)
      else
        let q := (oval - lo) / (hi - lo) in
        Some (mk_ThermoState (fields (mixture q f g)) TwoPhase)
  end.

(** Modelled from the spec: the pair is unordered; here it is put with
    pressure or temperature first, pressure when both are given (the
    resolver is missing from the sources). *)
Definition anchor_first (a : PropertyIdentifier) (va : float)
           (b : PropertyIdentifier) (vb : float)
  : PropertyIdentifier * float * PropertyIdentifier * float :=
  match a, b with
  | Pressure, _ => (a, va, b, vb)
  | _, Pressure => (b, vb, a, va)
  | Temperature, _ => (a, va, b, vb)
  | _, _ => (b, vb, a, va)
  end.

(** Modelled from the spec: the StateResolver's contract: the two
    preconditions, then normalisation, dispatch and conversion back (the
    resolver is missing from the sources). *)
Definition resolve (a : PropertyIdentifier) (va : float)
           (b : PropertyIdentifier) (vb : float) (us : UnitSystem)
  : Error + ThermoState :=
  if PropertyIdentifier_eqb a b then inl DuplicatePropertyError
  else if negb (PyFloat.is_finite va && PyFloat.is_finite vb) then inl InvalidInputError
  else
    match dispatch a b with
    | None => inl (UnsupportedPropertyPairError a b)
    | Some strategy =>
        let '(a1, v1, b1, w1) :=
          anchor_first a (normalize us a va) b (normalize us b vb) in
        let found :=
          match strategy with
          | PressureTemperature => resolve_pT v1 w1
          | SaturationQuality => resolve_quality a1 v1 w1
          | Inversion => resolve_inversion a1 v1 b1 w1
          end in
        match found with
        | None => inl (PropertyResolutionError a va b vb)
        | Some st => inr (mk_ThermoState (denormalize us (fields st)) (region st))
        end
    end.

End Resolver.

End StateResolver.

(** ** Vocabulary of the statements *)

(** The identifier the form derives from the text of a selector. *)
Definition identifier (text : string) : string :=
  PyStr.lower (PyStr.slice text (-2) (-1)).

Definition SP1 (w : main_window) : string * string :=
  (identifier (combo (State1_Property1 w)), identifier (combo (State1_Property2 w))).

Definition SP2 (w : main_window) : string * string :=
  (identifier (combo (State2_Property1 w)), identifier (combo (State2_Property2 w))).

(** Two value fields read with [float]: [None] when either raises. *)
Definition floats (r0 r1 : input_row) : option (float * float) :=
  match PyFloat.float_of_str (lineEdit r0), PyFloat.float_of_str (lineEdit r1) with
  | Some a, Some b => Some (a, b)
  | _, _ => None
  end.

Definition f1 (w : main_window) : option (float * float) :=
  floats (State1_Property1 w) (State1_Property2 w).

Definition f2 (w : main_window) : option (float * float) :=
  floats (State2_Property1 w) (State2_Property2 w).

(** The message a handler of [calculateProperties] writes for an exception. *)
Definition report (e : Py.exn) : string :=
  match e with
  | Py.ValueError _ => invalid_value_error
  | Py.Exception _ => unexpected_error e
  end.

(** The text ends in a point and three digits, and has no other point. *)
Definition three_decimals (text : string) : bool :=
  match rev (list_ascii_of_string text) with
  | d3 :: d2 :: d1 :: dot :: body =>
      PyStr.is_digit d1 && PyStr.is_digit d2 && PyStr.is_digit d3
      && (PyStr.code dot =? 46)
      && forallb (fun c => negb (PyStr.code c =? 46)) body
  | _ => false
  end.

(** The value [updatePropertyUnits] starts from. *)
Definition value_of (text : string) : float :=
  match PyFloat.float_of_str text with
  | Some f => f
  | None => 0%float
  end.

(** The three result displays of the form. *)
Definition displays (w : main_window) : string * string * string :=
  (_lbl_State1_Properties w, _lbl_State2_Properties w, _lbl_StateChange_Properties w).

(** Everything on the form but the warning label and the attributes
    [state1] and [state2]. *)
Definition same_widgets (w w' : main_window) : Prop :=
  _rdo_SI w' = _rdo_SI w /\
  State1_Property1 w' = State1_Property1 w /\
  State1_Property2 w' = State1_Property2 w /\
  State2_Property1 w' = State2_Property1 w /\
  State2_Property2 w' = State2_Property2 w /\
  displays w' = displays w /\
  steamTable w' = steamTable w /\
  currentUnits w' = currentUnits w /\
  (p_Units w', t_Units w', u_Units w') = (p_Units w, t_Units w, u_Units w) /\
  (h_Units w', s_Units w', v_Units w') = (h_Units w, s_Units w, v_Units w).

(** ** Stand-ins for the imported module, to run the form on examples *)

#[local] Set Warnings "-inexact-float".

Definition sample_UC : UC :=
  mk_UC (1 / 14.5038)%float 14.5038%float
        (fun f => (f - 32) * 5 / 9)%float (fun c => c * 9 / 5 + 32)%float
        2.326%float (1 / 2.326)%float 4.1868%float (1 / 4.1868)%float
        (1 / 16.0185)%float 16.0185%float.

Definition blank_thermoState : thermoState :=
  mk_thermoState "saturated" 0 0 0 0 0 0 0.

(** A [setState] that stores its two values as pressure and temperature, and
    raises when the first value is negative. *)
Definition sample_module : ThermoStateCalc_app.module :=
  mk_module sample_UC blank_thermoState
    (fun obj p1 p2 v1 v2 SI =>
       if (v1 <? 0)%float then (obj, Some (Py.Exception "no such state"))
       else (mk_thermoState "saturated" v1 v2 0 0 0 0 0, None)).

Definition sample_row (prop value units : string) : input_row :=
  mk_input_row prop value units.

(** The form in SI with the four inputs given and nothing displayed yet. *)
Definition sample_window (r11 r12 r21 r22 : input_row) : main_window :=
  mk_main_window true r11 r12 r21 r22 "" "" "" "" XSteam.UNIT_SYSTEM_MKS "SI"
    "bar" "C" "kJ/kg" "kJ/kg" "kJ/kg*C" "m^3/kg" None None.

Definition p_row (value : string) : input_row := sample_row "Pressure (p)" value "bar".
Definition T_row (value : string) : input_row := sample_row "Temperature (T)" value "C".
Definition x_row (value : string) : input_row := sample_row "Quality (x)" value "".

(** State 1 fails: its identifiers are equal, one of its values is not a
    float, or [setState] raises on it. *)
Definition State1_fails (app : ThermoStateCalc_app.module) (w : main_window) : Prop :=
  fst (SP1 w) = snd (SP1 w) \/
  f1 w = None \/
  exists a b o e,
    f1 w = Some (a, b) /\
    setState app (new_thermoState app) (fst (SP1 w)) (snd (SP1 w)) a b (_rdo_SI w)
    = (o, Some e).

(** The two states of a request that passes every check and on which
    [setState] returns twice. *)
Definition resolved (app : ThermoStateCalc_app.module) (w : main_window)
  : option (thermoState * thermoState) :=
  if (fst (SP1 w) =? snd (SP1 w))%string then None
  else match f1 w with
  | None => None
  | Some (a, b) =>
    if (fst (SP2 w) =? snd (SP2 w))%string then None
    else match f2 w with
    | None => None
    | Some (c, d) =>
      match setState app (new_thermoState app) (fst (SP1 w)) (snd (SP1 w)) a b (_rdo_SI w) with
      | (_, Some _) => None
      | (st1, None) =>
        match setState app (new_thermoState app) (fst (SP2 w)) (snd (SP2 w)) c d (_rdo_SI w) with
        | (_, Some _) => None
        | (st2, None) => Some (st1, st2)
        end
      end
    end
  end.

(** One line of the display of the differences. *)
Definition delta_line (name : string) (difference : float) (units : string) : string :=
  nl ++ name ++ " = " ++ PyFloat.format_3f difference ++ units.

(** The unit system the form has recorded is the one its radio button shows:
    [setUnits] runs on every click on a radio button. *)
Definition units_current (w : main_window) : Prop :=
  currentUnits w = if _rdo_SI w then "SI" else "EN".

(** Example requests. *)

Definition request_ok : main_window :=
  sample_window (p_row "1.0") (T_row "25") (p_row "1") (x_row "1.0").

Definition request_duplicate1 : main_window :=
  sample_window (p_row "1.0") (p_row "25") (p_row "1") (x_row "1.0").

Definition request_duplicate2_invalid1 : main_window :=
  sample_window (p_row "abc") (T_row "25") (p_row "1") (p_row "2").

Definition request_invalid1 : main_window :=
  sample_window (p_row "abc") (T_row "25") (p_row "1") (x_row "1.0").

Definition request_inf : main_window :=
  sample_window (p_row "inf") (T_row "25") (p_row "1") (x_row "1.0").

Definition request_raise1 : main_window :=
  sample_window (p_row "-1") (T_row "25") (p_row "1") (x_row "1.0").

(** A backend for examples: water boils at 100 whatever the pressure, and
    every lookup answers with the pressure and the temperature asked. *)
Definition sample_backend : StateResolver.Backend :=
  StateResolver.mk_Backend
    (fun _ => Some 100%float)
    (fun P => Some (StateResolver.mk_Fields P 100 0 0 0 0 0,
                    StateResolver.mk_Fields P 100 1 1 1 1 1))
    (fun T => Some (StateResolver.mk_Fields 1 T 0 0 0 0 0,
                    StateResolver.mk_Fields 1 T 1 1 1 1 1))
    (fun _ P T => Some (StateResolver.mk_Fields P T 0 0 0 0 0))
    (fun _ _ _ _ _ => None).

Definition sample_converter : StateResolver.UnitConverter :=
  StateResolver.mk_UnitConverter 14.5038%float 0.429923%float 0.238846%float
                                 16.0185%float.

(** ** Construction of the form and its events

    [__init__] runs after [setupUi] has built the widgets: the form it starts
    from is a parameter. [SetupSlotsAndSignals] connects the two radio
    buttons and the four selectors to [setUnits] and the button to
    [calculateProperties]; typing in a value field is connected to nothing. *)

Definition with_rdo_SI (w : main_window) (checked : bool) : main_window :=
  mk_main_window checked (State1_Property1 w) (State1_Property2 w)
    (State2_Property1 w) (State2_Property2 w) (_lbl_Warning w) (_lbl_State1_Properties w)
    (_lbl_State2_Properties w) (_lbl_StateChange_Properties w) (steamTable w)
    (currentUnits w) (p_Units w) (t_Units w) (u_Units w) (h_Units w) (s_Units w)
    (v_Units w) (state1 w) (state2 w).

Definition with_combo (r : input_row) (text : string) : input_row :=
  mk_input_row text (lineEdit r) (label r).

(** The four inputs of the form. *)
Inductive input : Type := Input11 | Input12 | Input21 | Input22.

Definition row_of (w : main_window) (i : input) : input_row :=
  match i with
  | Input11 => State1_Property1 w
  | Input12 => State1_Property2 w
  | Input21 => State2_Property1 w
  | Input22 => State2_Property2 w
  end.

Definition with_row (w : main_window) (i : input) (r : input_row) : main_window :=
  match i with
  | Input11 => with_rows w r (State1_Property2 w) (State2_Property1 w) (State2_Property2 w)
  | Input12 => with_rows w (State1_Property1 w) r (State2_Property1 w) (State2_Property2 w)
  | Input21 => with_rows w (State1_Property1 w) (State1_Property2 w) r (State2_Property2 w)
  | Input22 => with_rows w (State1_Property1 w) (State1_Property2 w) (State2_Property1 w) r
  end.

(** [__init__], from the form as [setupUi] leaves it: the steam table and
    the current units are set to SI, then [setUnits] runs. *)
Definition __init__ (app : ThermoStateCalc_app.module) (ui : main_window) : main_window :=
  let w := with_units ui XSteam.UNIT_SYSTEM_MKS "SI" (p_Units ui) (t_Units ui)
                      (u_Units ui) (h_Units ui) (s_Units ui) (v_Units ui) in
  setUnits app w.

(** What the user does to the form. A click on a radio button leaves
    [_rdo_SI] checked or not ([SI_checked]) and emits [clicked]; choosing
    another entry of a selector changes its text and emits
    [currentIndexChanged]; typing changes a value field; a click on the
    button emits [clicked]. *)
Inductive user_event : Type :=
| rdo_clicked (SI_checked : bool)
| cmb_currentIndexChanged (i : input) (text : string)
| le_edited (i : input) (text : string)
| pb_Calculate_clicked.

(** The slot each signal is connected to by [SetupSlotsAndSignals]. *)
Definition on_event (app : ThermoStateCalc_app.module) (w : main_window)
           (ev : user_event) : main_window :=
  match ev with
  | rdo_clicked checked => setUnits app (with_rdo_SI w checked)
  | cmb_currentIndexChanged i text =>
      setUnits app (with_row w i (with_combo (row_of w i) text))
  | le_edited i text => with_row w i (with_lineEdit (row_of w i) text)
  | pb_Calculate_clicked => fst (click_Calculate app w)
  end.

Definition run_events (app : ThermoStateCalc_app.module) (w : main_window)
           (evs : list user_event) : main_window :=
  fold_left (on_event app) evs w.

(** The unit attributes are those of the unit system the radio button
    shows. *)
Definition units_consistent (w : main_window) : Prop :=
  units_current w /\
  steamTable w = (if _rdo_SI w then XSteam.UNIT_SYSTEM_MKS else XSteam.UNIT_SYSTEM_FLS) /\
  (p_Units w, t_Units w, u_Units w) =
  (if _rdo_SI w then ("bar", "C", "kJ/kg") else ("psi", "F", "btu/lb")) /\
  (h_Units w, s_Units w, v_Units w) =
  (if _rdo_SI w then ("kJ/kg", "kJ/kg*C", "m^3/kg") else ("btu/lb", "btu/lb*F", "ft^3/lb")).

(** The unit name [setUnits] shows beside a selector: that of the first
    quantity its text names, [None] when it names none. *)
Definition unit_name (SI : bool) (prop : string) : option string :=
  if PyStr.contains "Pressure" prop then Some (if SI then "bar" else "psi")
  else if PyStr.contains "Temperature" prop then Some (if SI then "C" else "F")
  else if PyStr.contains "Energy" prop then Some (if SI then "kJ/kg" else "btu/lb")
  else if PyStr.contains "Enthalpy" prop then Some (if SI then "kJ/kg" else "btu/lb")
  else if PyStr.contains "Entropy" prop then Some (if SI then "kJ/kg*C" else "btu/lb*F")
  else if PyStr.contains "Volume" prop then Some (if SI then "m^3/kg" else "ft^3/lb")
  else if PyStr.contains "Quality" prop then Some ""
  else None.

(** A value field read and written back without conversion. *)
Definition reformatted (r : input_row) : input_row :=
  with_lineEdit r (PyFloat.format_3f (value_of (lineEdit r))).

(** The difference of a field with itself, as displayed. *)
Definition zero_or_nan (val : float) : string :=
  if PyFloat.is_finite val then "0.000" else "nan".

(** One line of the display of the differences of a state with itself. *)
Definition zero_line (name : string) (val : float) (units : string) : string :=
  nl ++ name ++ " = " ++ zero_or_nan val ++ units.

(** A module whose [setState] raises [ValueError] on a negative first value. *)
Definition sample_module_ValueError : ThermoStateCalc_app.module :=
  mk_module sample_UC blank_thermoState
    (fun obj p1 p2 v1 v2 SI =>
       if (v1 <? 0)%float then (obj, Some (Py.ValueError "math domain error"))
       else (mk_thermoState "saturated" v1 v2 0 0 0 0 0, None)).

Definition request_raise2 : main_window :=
  sample_window (p_row "1.0") (T_row "25") (p_row "-1") (x_row "1.0").

Definition request_unknown_property : input_row :=
  sample_row "Mass (m)" "2.5" "kg".

Definition request_empty_selectors : main_window :=
  sample_window (sample_row "" "1" "") (sample_row ")" "2" "") (p_row "1") (x_row "1.0").

(** ** The value of a float, and the values of the unit round trips

    The unit conversions are compared with the real numbers the floats stand
    for. *)

(** The sign of a float, as a factor. *)
Definition sign (s : bool) : R := if s then (-1)%R else 1%R.

(** The real number a float stands for; an infinity and not-a-number stand
    for none and are given 0. *)
Definition SF2R (x : spec_float) : R :=
  match x with
  | S754_finite s m e => (sign s * (IZR (Zpos m) * powerRZ 2 e))%R
  | _ => 0%R
  end.

Definition value (x : float) : R := SF2R (Prim2SF x).

(** Zero or finite: [PyFloat.is_finite], on the representation. *)
Definition SFfinite (x : spec_float) : bool :=
  match x with
  | S754_zero _ | S754_finite _ _ _ => true
  | S754_infinity _ | S754_nan => false
  end.

(** A mantissa and an exponent as a float: zero has no mantissa. *)
Definition SFmake (s : bool) (m e : Z) : spec_float :=
  match m with
  | Z0 => S754_zero s
  | Zpos p => S754_finite s p e
  | Zneg _ => S754_nan
  end.

(** The exponent at which [binary_round_aux] rounds. *)
Definition round_exponent (mx ex : Z) : Z :=
  Z.max ex (fexp prec emax (Zdigits2 mx + ex)).

(** A float that is not zero, between 2^-101 and 2^100 in magnitude. *)
Definition moderate (x : float) : bool :=
  match Prim2SF x with
  | S754_finite _ m e =>
      (-100 <=? Zpos (digits2_pos m) + e) && (Zpos (digits2_pos m) + e <=? 100)
  | _ => false
  end.

Definition zero_or_moderate (x : float) : bool :=
  match Prim2SF x with
  | S754_zero _ => true
  | _ => moderate x
  end.

(** The four scale factors of a converter are moderate. *)
Definition moderate_factors (converter : StateResolver.UnitConverter) : bool :=
  moderate (StateResolver.psi_per_bar converter)
  && moderate (StateResolver.btuperlb_per_kJperkg converter)
  && moderate (StateResolver.btuperlbF_per_kJperkgK converter)
  && moderate (StateResolver.ft3perlb_per_m3perkg converter).

(** Where the scale of a quantity starts: 0 C is 32 F. *)
Definition offset (q : StateResolver.PropertyIdentifier) : R :=
  match q with
  | StateResolver.Temperature => 32%R
  | _ => 0%R
  end.

(** A temperature of a ten-millionth of a degree Celsius. *)
Definition Celsius_near_zero : float := 1e-7%float.

(** * Properties *)

(** ** One click on Calculate, case by case *)

Section Click.

Variable app : ThermoStateCalc_app.module.

Lemma floats_Some r0 r1 a b :
  floats r0 r1 = Some (a, b) ->
  PyFloat.float_of_str (lineEdit r0) = Some a /\
  PyFloat.float_of_str (lineEdit r1) = Some b.
Proof.
  unfold floats.
  destruct (PyFloat.float_of_str (lineEdit r0)); [|discriminate].
  destruct (PyFloat.float_of_str (lineEdit r1)); [|discriminate].
  intros E; inversion E; auto.
Qed.

Lemma floats_None r0 r1 :
  floats r0 r1 = None ->
  PyFloat.float_of_str (lineEdit r0) = None \/
  (exists a, PyFloat.float_of_str (lineEdit r0) = Some a /\
             PyFloat.float_of_str (lineEdit r1) = None).
Proof.
  unfold floats.
  destruct (PyFloat.float_of_str (lineEdit r0)) as [a|]; [|auto].
  destruct (PyFloat.float_of_str (lineEdit r1)); [discriminate|].
  right; exists a; auto.
Qed.

(** Reading two value fields: both floats, or a [ValueError] that leaves
    the store as it is. *)
Lemma float_pair_run r0 r1 (k : float -> float -> M unit) st :
  Py.bind (float_ (lineEdit r0)) (fun a => Py.bind (float_ (lineEdit r1)) (k a)) st =
  match floats r0 r1 with
  | Some (a, b) => k a b st
  | None => (Py.Raise (Py.ValueError "could not convert string to float"), st)
  end.
Proof.
  unfold floats, float_, Py.bind.
  destruct (PyFloat.float_of_str (lineEdit r0)); cbn; [|reflexivity].
  destruct (PyFloat.float_of_str (lineEdit r1)); cbn; reflexivity.
Qed.

Lemma click_duplicate1 w :
  fst (SP1 w) = snd (SP1 w) ->
  click_Calculate app w = (with_lbl_Warning w State1_duplicate_warning, []).
Proof.
  intros D. apply String.eqb_eq in D. unfold SP1, identifier in D. cbn [fst snd] in D.
  unfold click_Calculate, calculateProperties, Py.try_except,
    calculateProperties_try, Py.bind, Py.get, assign, Py.modify, Py.return_.
  cbn [self calls fst snd]. rewrite D. reflexivity.
Qed.

Lemma click_invalid1 w :
  fst (SP1 w) <> snd (SP1 w) -> f1 w = None ->
  click_Calculate app w = (with_lbl_Warning w invalid_value_error, []).
Proof.
  intros D F. apply String.eqb_neq in D. unfold SP1, identifier in D. cbn [fst snd] in D.
  unfold click_Calculate, calculateProperties, Py.try_except, calculateProperties_try.
  unfold Py.bind at 1. unfold Py.get. cbn [self calls fst snd]. rewrite D.
  rewrite float_pair_run. fold (f1 w). rewrite F. reflexivity.
Qed.

Lemma click_duplicate2 w :
  fst (SP1 w) <> snd (SP1 w) -> f1 w <> None -> fst (SP2 w) = snd (SP2 w) ->
  click_Calculate app w = (with_lbl_Warning w State2_duplicate_warning, []).
Proof.
  intros D F D2. apply String.eqb_neq in D. apply String.eqb_eq in D2.
  unfold SP1, SP2, identifier in D, D2. cbn [fst snd] in D, D2.
  unfold click_Calculate, calculateProperties, Py.try_except, calculateProperties_try.
  unfold Py.bind at 1. unfold Py.get. cbn [self calls fst snd]. rewrite D.
  rewrite float_pair_run. fold (f1 w).
  destruct (f1 w) as [[a b]|]; [|congruence].
  rewrite D2. reflexivity.
Qed.

Lemma click_invalid2 w :
  fst (SP1 w) <> snd (SP1 w) -> f1 w <> None ->
  fst (SP2 w) <> snd (SP2 w) -> f2 w = None ->
  click_Calculate app w = (with_lbl_Warning w invalid_value_error, []).
Proof.
  intros D F D2 F2. apply String.eqb_neq in D. apply String.eqb_neq in D2.
  unfold SP1, SP2, identifier in D, D2. cbn [fst snd] in D, D2.
  unfold click_Calculate, calculateProperties, Py.try_except, calculateProperties_try.
  unfold Py.bind at 1. unfold Py.get. cbn [self calls fst snd]. rewrite D.
  rewrite float_pair_run. fold (f1 w).
  destruct (f1 w) as [[a b]|]; [|congruence].
  rewrite D2. rewrite float_pair_run. fold (f2 w). rewrite F2. reflexivity.
Qed.

(** Past the four checks, the click is the two resolutions and the display. *)
Lemma click_checked w a b c d :
  fst (SP1 w) <> snd (SP1 w) -> f1 w = Some (a, b) ->
  fst (SP2 w) <> snd (SP2 w) -> f2 w = Some (c, d) ->
  click_Calculate app w =
  match setState app (new_thermoState app) (fst (SP1 w)) (snd (SP1 w)) a b (_rdo_SI w) with
  | (o1, Some e) =>
      (with_lbl_Warning (with_state1 w o1) (report e),
       [NewThermoState; SetState (fst (SP1 w)) (snd (SP1 w)) a b (_rdo_SI w)])
  | (st1, None) =>
      let cs := [NewThermoState; SetState (fst (SP1 w)) (snd (SP1 w)) a b (_rdo_SI w);
                 NewThermoState; SetState (fst (SP2 w)) (snd (SP2 w)) c d (_rdo_SI w)] in
      match setState app (new_thermoState app) (fst (SP2 w)) (snd (SP2 w)) c d (_rdo_SI w) with
      | (o2, Some e) =>
          (with_lbl_Warning (with_state2 (with_state1 w st1) o2) (report e), cs)
      | (st2, None) =>
          (with_lbl_Warning
             (with_lbl_StateChange_Properties
                (with_lbl_State2_Properties
                   (with_lbl_State1_Properties
                      (with_state2 (with_state1 w st1) st2) (makeLabel w st1))
                   (makeLabel w st2))
                (makeDeltaLabel w st1 st2)) "", cs)
      end
  end.
Proof.
  intros D F D2 F2. apply String.eqb_neq in D. apply String.eqb_neq in D2.
  unfold SP1, SP2, identifier in *. cbn [fst snd] in *.
  unfold click_Calculate, calculateProperties, Py.try_except, calculateProperties_try.
  unfold Py.bind at 1. unfold Py.get. cbn [self calls fst snd]. rewrite D.
  rewrite float_pair_run. fold (f1 w). rewrite F.
  rewrite D2. rewrite float_pair_run. fold (f2 w). rewrite F2.
  unfold thermoState_, setState_, emit, assign, Py.bind, Py.modify, Py.ret, Py.raise.
  cbn [self calls fst snd app_nil_l].
  destruct (setState app (new_thermoState app) _ _ a b (_rdo_SI w)) as [o1 [e1|]];
    cbn [self calls fst snd].
  - destruct e1; reflexivity.
  - destruct (setState app (new_thermoState app) _ _ c d (_rdo_SI w)) as [o2 [e2|]];
      cbn [self calls fst snd].
    + destruct e2; reflexivity.
    + reflexivity.
Qed.

End Click.

(** ** Duplicate properties, invalid values and failures of state 1 *)

Section Requests.

Variable app : ThermoStateCalc_app.module.

Lemma report_not_empty e : report e <> "".
Proof. destruct e; discriminate. Qed.

Lemma report_not_duplicate e :
  report e <> State1_duplicate_warning /\ report e <> State2_duplicate_warning.
Proof. destruct e; split; discriminate. Qed.

(** C1 (as amended). A request in which the identifiers of State 1 are
    equal fails with the warning that names State 1; one in which those of
    State 2 are equal, while those of State 1 differ and both values of
    State 1 are floats, fails with the warning that names State 2. Whenever
    the identifiers of either state are equal, no thermoState is
    constructed, setState is not called, and nothing of the form changes
    but the warning label. *)
Theorem duplicate_property_rejected (w : main_window) :
  fst (SP1 w) = snd (SP1 w) \/ fst (SP2 w) = snd (SP2 w) ->
  exists msg,
    click_Calculate app w = (with_lbl_Warning w msg, []) /\
    (fst (SP1 w) = snd (SP1 w) -> msg = State1_duplicate_warning) /\
    (fst (SP1 w) <> snd (SP1 w) -> f1 w <> None -> msg = State2_duplicate_warning).
Proof.
  intros D.
  destruct (string_dec (fst (SP1 w)) (snd (SP1 w))) as [D1|N1].
  - exists State1_duplicate_warning. split; [|split].
    + now apply click_duplicate1.
    + reflexivity.
    + intros N; contradiction.
  - destruct D as [D1|D2]; [contradiction|].
    destruct (f1 w) as [[a b]|] eqn:F.
    + exists State2_duplicate_warning. split; [|split].
      * apply click_duplicate2; [assumption|congruence|assumption].
      * intros E; contradiction.
      * reflexivity.
    + exists invalid_value_error. split; [|split].
      * now apply click_invalid1.
      * intros E; contradiction.
      * intros _ N; congruence.
Qed.

(** C3 (as amended). A failure of State 1 ends the request: no second
    thermoState is constructed and setState is not called for State 2, the
    result displays stay as they were and one message is written to the
    warning label. When the failure is a duplicate property or an invalid
    value, the outcome does not depend on the inputs of State 2. *)
Theorem State1_failure_ends_request (w : main_window) :
  State1_fails app w ->
  (snd (click_Calculate app w) = [] \/
   exists a b, snd (click_Calculate app w) =
               [NewThermoState; SetState (fst (SP1 w)) (snd (SP1 w)) a b (_rdo_SI w)]) /\
  displays (fst (click_Calculate app w)) = displays w /\
  _lbl_Warning (fst (click_Calculate app w)) <> "" /\
  (fst (SP1 w) = snd (SP1 w) \/ f1 w = None ->
   forall r21 r22,
     click_Calculate app (with_rows w (State1_Property1 w) (State1_Property2 w) r21 r22)
     = (with_rows (fst (click_Calculate app w))
                  (State1_Property1 w) (State1_Property2 w) r21 r22, [])).
Proof.
  intros F.
  destruct (string_dec (fst (SP1 w)) (snd (SP1 w))) as [D1|N1].
  { rewrite (click_duplicate1 app w D1). cbn [fst snd].
    split; [now left|]. split; [reflexivity|]. split; [discriminate|].
    intros _ r21 r22. now rewrite click_duplicate1. }
  destruct (f1 w) as [[a b]|] eqn:F1.
  2:{ rewrite (click_invalid1 app w N1 F1). cbn [fst snd].
      split; [now left|]. split; [reflexivity|]. split; [discriminate|].
      intros _ r21 r22. now rewrite click_invalid1. }
  assert (R : exists o e, setState app (new_thermoState app) (fst (SP1 w)) (snd (SP1 w))
                                   a b (_rdo_SI w) = (o, Some e)).
  { destruct F as [D|[E|(a' & b' & o & e & E & S)]]; [contradiction|congruence|].
    rewrite F1 in E. inversion E; subst. now exists o, e. }
  destruct R as (o & e & S).
  destruct (string_dec (fst (SP2 w)) (snd (SP2 w))) as [D2|N2].
  { rewrite (click_duplicate2 app w N1 ltac:(congruence) D2). cbn [fst snd].
    split; [now left|]. split; [reflexivity|]. split; [discriminate|].
    intros [D|E]; [contradiction|discriminate]. }
  destruct (f2 w) as [[c d]|] eqn:F2.
  2:{ rewrite (click_invalid2 app w N1 ltac:(congruence) N2 F2). cbn [fst snd].
      split; [now left|]. split; [reflexivity|]. split; [discriminate|].
      intros [D|E]; [contradiction|discriminate]. }
  rewrite (click_checked app w a b c d N1 F1 N2 F2), S. cbn [fst snd].
  split; [right; now exists a, b|]. split; [reflexivity|].
  split; [apply report_not_empty|].
  intros [D|E]; [contradiction|discriminate].
Qed.

(** C5 (as amended). A request with a value that float() does not accept
    fails with the invalid-value error before any resolution is attempted
    (no thermoState is constructed, setState is not called, nothing of the
    form changes but the warning label), provided the duplicate checks that
    run before the value is read pass: that of State 1 for a value of
    State 1, those of both states for a value of State 2. *)
Theorem invalid_value_rejected (w : main_window) :
  fst (SP1 w) <> snd (SP1 w) ->
  f1 w = None \/ (fst (SP2 w) <> snd (SP2 w) /\ f2 w = None) ->
  click_Calculate app w = (with_lbl_Warning w invalid_value_error, []).
Proof.
  intros N1 H.
  destruct (f1 w) as [[a b]|] eqn:F1.
  - destruct H as [E|[N2 F2]]; [discriminate|].
    apply click_invalid2; [assumption|congruence|assumption|assumption].
  - now apply click_invalid1.
Qed.

End Requests.

(** ** What is displayed *)

Lemma append_assoc (a b c : string) : ((a ++ b) ++ c = a ++ (b ++ c))%string.
Proof. induction a as [|ch a IH]; cbn; [reflexivity|now rewrite IH]. Qed.

Lemma makeDeltaLabel_lines (w : main_window) (st1 st2 : thermoState) :
  makeDeltaLabel w st1 st2 =
  "Property change:"
  ++ delta_line "P2-P1" (p st2 - p st1) (" " ++ p_Units w)
  ++ delta_line "T2-T1" (t st2 - t st1) (" " ++ t_Units w)
  ++ delta_line "u2-u1" (u st2 - u st1) (" " ++ u_Units w)
  ++ delta_line "h2-h1" (h st2 - h st1) (" " ++ h_Units w)
  ++ delta_line "s2-s1" (s st2 - s st1) (" " ++ s_Units w)
  ++ delta_line "v2-v1" (v st2 - v st1) (" " ++ v_Units w)
  ++ delta_line "x2-x1" (x st2 - x st1) "".
Proof.
  unfold makeDeltaLabel, delta_line.
  repeat rewrite append_assoc.
  assert (E : forall a, (a ++ "")%string = a).
  { induction a as [|ch a IH]; cbn; [reflexivity|now rewrite IH]. }
  rewrite E. reflexivity.
Qed.

Section Displays.

Variable app : ThermoStateCalc_app.module.

Lemma resolved_Some w st1 st2 :
  resolved app w = Some (st1, st2) ->
  exists a b c d,
    fst (SP1 w) <> snd (SP1 w) /\ f1 w = Some (a, b) /\
    fst (SP2 w) <> snd (SP2 w) /\ f2 w = Some (c, d) /\
    setState app (new_thermoState app) (fst (SP1 w)) (snd (SP1 w)) a b (_rdo_SI w)
    = (st1, None) /\
    setState app (new_thermoState app) (fst (SP2 w)) (snd (SP2 w)) c d (_rdo_SI w)
    = (st2, None).
Proof.
  unfold resolved.
  destruct (String.eqb_spec (fst (SP1 w)) (snd (SP1 w))) as [|N1]; [discriminate|].
  destruct (f1 w) as [[a b]|]; [|discriminate].
  destruct (String.eqb_spec (fst (SP2 w)) (snd (SP2 w))) as [|N2]; [discriminate|].
  destruct (f2 w) as [[c d]|]; [|discriminate].
  destruct (setState app _ _ _ a b _) as [o1 [e1|]] eqn:S1; [discriminate|].
  destruct (setState app _ _ _ c d _) as [o2 [e2|]] eqn:S2; [discriminate|].
  intros E; inversion E; subst. exists a, b, c, d. auto 10.
Qed.

Lemma same_widgets_warning w msg : same_widgets w (with_lbl_Warning w msg).
Proof. repeat split. Qed.

(** C10. The three result displays are written only when both states
    resolve, and then the warning is cleared; in every other case the
    displays, and every widget but the warning label, stay as they were and
    a message is written to the warning label. *)
Theorem displays_change_only_on_success (w : main_window) :
  match resolved app w with
  | Some (st1, st2) =>
      displays (fst (click_Calculate app w))
      = (makeLabel w st1, makeLabel w st2, makeDeltaLabel w st1 st2) /\
      _lbl_Warning (fst (click_Calculate app w)) = ""
  | None =>
      displays (fst (click_Calculate app w)) = displays w /\
      same_widgets w (fst (click_Calculate app w)) /\
      _lbl_Warning (fst (click_Calculate app w)) <> ""
  end.
Proof.
  destruct (resolved app w) as [[st1 st2]|] eqn:R.
  - apply resolved_Some in R. destruct R as (a & b & c & d & N1 & F1 & N2 & F2 & S1 & S2).
    rewrite (click_checked app w a b c d N1 F1 N2 F2), S1, S2. cbn. auto.
  - unfold resolved in R.
    destruct (String.eqb_spec (fst (SP1 w)) (snd (SP1 w))) as [D1|N1].
    { rewrite (click_duplicate1 app w D1). cbn [fst].
      split; [reflexivity|]. split; [apply same_widgets_warning|discriminate]. }
    destruct (f1 w) as [[a b]|] eqn:F1.
    2:{ rewrite (click_invalid1 app w N1 F1). cbn [fst].
        split; [reflexivity|]. split; [apply same_widgets_warning|discriminate]. }
    destruct (String.eqb_spec (fst (SP2 w)) (snd (SP2 w))) as [D2|N2].
    { rewrite (click_duplicate2 app w N1 ltac:(congruence) D2). cbn [fst].
      split; [reflexivity|]. split; [apply same_widgets_warning|discriminate]. }
    destruct (f2 w) as [[c d]|] eqn:F2.
    2:{ rewrite (click_invalid2 app w N1 ltac:(congruence) N2 F2). cbn [fst].
        split; [reflexivity|]. split; [apply same_widgets_warning|discriminate]. }
    rewrite (click_checked app w a b c d N1 F1 N2 F2).
    destruct (setState app _ _ _ a b _) as [o1 [e1|]] eqn:S1.
    { cbn [fst]. split; [reflexivity|]. split; [repeat split|apply report_not_empty]. }
    destruct (setState app _ _ _ c d _) as [o2 [e2|]] eqn:S2; [|discriminate].
    cbn [fst]. split; [reflexivity|]. split; [repeat split|apply report_not_empty].
Qed.

(** C2. When both states resolve, each of the seven differences displayed
    is the field of state 2 minus the field of state 1, formatted with
    three decimals and nothing else; both states come from setState under
    the unit system selected on the form, whose unit names follow the
    differences. *)
Theorem deltas_are_differences (w : main_window) (st1 st2 : thermoState) :
  resolved app w = Some (st1, st2) ->
  (exists a b c d,
      setState app (new_thermoState app) (fst (SP1 w)) (snd (SP1 w)) a b (_rdo_SI w)
      = (st1, None) /\
      setState app (new_thermoState app) (fst (SP2 w)) (snd (SP2 w)) c d (_rdo_SI w)
      = (st2, None)) /\
  _lbl_StateChange_Properties (fst (click_Calculate app w)) =
  "Property change:"
  ++ delta_line "P2-P1" (p st2 - p st1) (" " ++ p_Units w)
  ++ delta_line "T2-T1" (t st2 - t st1) (" " ++ t_Units w)
  ++ delta_line "u2-u1" (u st2 - u st1) (" " ++ u_Units w)
  ++ delta_line "h2-h1" (h st2 - h st1) (" " ++ h_Units w)
  ++ delta_line "s2-s1" (s st2 - s st1) (" " ++ s_Units w)
  ++ delta_line "v2-v1" (v st2 - v st1) (" " ++ v_Units w)
  ++ delta_line "x2-x1" (x st2 - x st1) "".
Proof.
  intros R. apply resolved_Some in R.
  destruct R as (a & b & c & d & N1 & F1 & N2 & F2 & S1 & S2).
  split; [exists a, b, c, d; auto|].
  rewrite (click_checked app w a b c d N1 F1 N2 F2), S1, S2.
  cbn [fst]. rewrite <- makeDeltaLabel_lines. reflexivity.
Qed.

End Displays.

(** ** The identifiers *)

Lemma length_append (a b : string) :
  String.length (a ++ b) = (String.length a + String.length b)%nat.
Proof. induction a as [|ch a IH]; cbn; [reflexivity|now rewrite IH]. Qed.

Lemma substring_after (a : string) (c d : ascii) :
  substring (String.length a) 1 (a ++ String c (String d "")) = String c "".
Proof. induction a as [|ch a IH]; cbn; [reflexivity|exact IH]. Qed.

(** [text[-2:-1]] is the character before the last one. *)
Lemma slice_penultimate (a : string) (c d : ascii) :
  PyStr.slice (a ++ String c (String d "")) (-2) (-1) = String c "".
Proof.
  unfold PyStr.slice, PyStr.slice_index. rewrite length_append. cbn [String.length].
  set (n := String.length a).
  replace (Z.to_nat _) with n at 1.
  2:{ cbn [Z.ltb Z.compare]. lia. }
  replace (Z.to_nat _) with 1%nat.
  2:{ cbn [Z.ltb Z.compare]. lia. }
  apply substring_after.
Qed.

Lemma identifier_penultimate (a : string) (c d : ascii) :
  identifier (a ++ String c (String d "")) = String (PyStr.lower_char c) "".
Proof. unfold identifier. now rewrite slice_penultimate. Qed.

Section Identifiers.

Variable app : ThermoStateCalc_app.module.

Lemma calls_of_click w :
  forall cl, In cl (snd (click_Calculate app w)) ->
    cl = NewThermoState \/
    exists v1 v2,
      cl = SetState (fst (SP1 w)) (snd (SP1 w)) v1 v2 (_rdo_SI w) \/
      cl = SetState (fst (SP2 w)) (snd (SP2 w)) v1 v2 (_rdo_SI w).
Proof.
  intros cl.
  destruct (string_dec (fst (SP1 w)) (snd (SP1 w))) as [D1|N1].
  { rewrite (click_duplicate1 app w D1). intros []. }
  destruct (f1 w) as [[a b]|] eqn:F1.
  2:{ rewrite (click_invalid1 app w N1 F1). intros []. }
  destruct (string_dec (fst (SP2 w)) (snd (SP2 w))) as [D2|N2].
  { rewrite (click_duplicate2 app w N1 ltac:(congruence) D2). intros []. }
  destruct (f2 w) as [[c d]|] eqn:F2.
  2:{ rewrite (click_invalid2 app w N1 ltac:(congruence) N2 F2). intros []. }
  rewrite (click_checked app w a b c d N1 F1 N2 F2).
  destruct (setState app _ _ _ a b _) as [o1 [e1|]].
  { cbn. intros [E|[E|[]]]; subst; [now left|right; exists a, b; now left]. }
  destruct (setState app _ _ _ c d _) as [o2 [e2|]];
    cbn; intros [E|[E|[E|[E|[]]]]]; subst;
    try (now left); right;
    try (exists a, b; now left); exists c, d; now right.
Qed.

Lemma warning_of_distinct w :
  fst (SP1 w) <> snd (SP1 w) -> fst (SP2 w) <> snd (SP2 w) ->
  _lbl_Warning (fst (click_Calculate app w)) <> State1_duplicate_warning /\
  _lbl_Warning (fst (click_Calculate app w)) <> State2_duplicate_warning.
Proof.
  intros N1 N2.
  destruct (f1 w) as [[a b]|] eqn:F1.
  2:{ rewrite (click_invalid1 app w N1 F1). split; discriminate. }
  destruct (f2 w) as [[c d]|] eqn:F2.
  2:{ rewrite (click_invalid2 app w N1 ltac:(congruence) N2 F2). split; discriminate. }
  rewrite (click_checked app w a b c d N1 F1 N2 F2).
  destruct (setState app _ _ _ a b _) as [o1 [e1|]].
  { cbn [fst]. apply report_not_duplicate. }
  destruct (setState app _ _ _ c d _) as [o2 [e2|]].
  { cbn [fst]. apply report_not_duplicate. }
  split; discriminate.
Qed.

(** C8. The identifier of a selector is the lowercased character before
    the last one of its text; these identifiers are what setState receives;
    and the duplicate check compares them alone: two selectors of a state
    whose characters before the last coincide after lowercasing are the
    same property, whatever the rest of their texts, and no duplicate is
    reported when they differ in both states. *)
Theorem identifier_is_penultimate_character
        (w : main_window) (a1 a2 a3 a4 : string) (c1 c2 c3 c4 d1 d2 d3 d4 : ascii) :
  combo (State1_Property1 w) = a1 ++ String c1 (String d1 "") ->
  combo (State1_Property2 w) = a2 ++ String c2 (String d2 "") ->
  combo (State2_Property1 w) = a3 ++ String c3 (String d3 "") ->
  combo (State2_Property2 w) = a4 ++ String c4 (String d4 "") ->
  let id := fun c => String (PyStr.lower_char c) "" in
  SP1 w = (id c1, id c2) /\ SP2 w = (id c3, id c4) /\
  (forall cl, In cl (snd (click_Calculate app w)) ->
     cl = NewThermoState \/
     exists v1 v2, cl = SetState (id c1) (id c2) v1 v2 (_rdo_SI w) \/
                   cl = SetState (id c3) (id c4) v1 v2 (_rdo_SI w)) /\
  (PyStr.lower_char c1 = PyStr.lower_char c2 ->
   click_Calculate app w = (with_lbl_Warning w State1_duplicate_warning, [])) /\
  (PyStr.lower_char c1 <> PyStr.lower_char c2 -> f1 w <> None ->
   PyStr.lower_char c3 = PyStr.lower_char c4 ->
   click_Calculate app w = (with_lbl_Warning w State2_duplicate_warning, [])) /\
  (PyStr.lower_char c1 <> PyStr.lower_char c2 ->
   PyStr.lower_char c3 <> PyStr.lower_char c4 ->
   _lbl_Warning (fst (click_Calculate app w)) <> State1_duplicate_warning /\
   _lbl_Warning (fst (click_Calculate app w)) <> State2_duplicate_warning).
Proof.
  intros E1 E2 E3 E4 id.
  assert (S1 : SP1 w = (id c1, id c2)).
  { unfold SP1. rewrite E1, E2. now rewrite !identifier_penultimate. }
  assert (S2 : SP2 w = (id c3, id c4)).
  { unfold SP2. rewrite E3, E4. now rewrite !identifier_penultimate. }
  split; [exact S1|]. split; [exact S2|].
  split; [|split; [|split]].
  - intros cl I. apply calls_of_click in I. rewrite S1, S2 in I. exact I.
  - intros L. apply click_duplicate1. rewrite S1. cbn. unfold id. now rewrite L.
  - intros L F L2. apply click_duplicate2; [|exact F|].
    + rewrite S1. cbn. unfold id. congruence.
    + rewrite S2. cbn. unfold id. now rewrite L2.
  - intros L L2. apply warning_of_distinct.
    + rewrite S1. cbn. unfold id. congruence.
    + rewrite S2. cbn. unfold id. congruence.
Qed.

End Identifiers.

(** ** The three-decimal format *)

Lemma code_chr (n : Z) : 0 <= n < 256 -> PyStr.code (PyStr.chr n) = n.
Proof.
  intros H. unfold PyStr.code, PyStr.chr.
  rewrite nat_ascii_embedding; lia.
Qed.

Lemma digit_char_is_digit (d : Z) :
  0 <= d < 10 -> PyStr.is_digit (PyStr.digit_char d) = true.
Proof.
  intros H. unfold PyStr.is_digit, PyStr.digit_char.
  rewrite code_chr by lia. apply andb_true_iff. split; apply Z.leb_le; lia.
Qed.

Lemma digit_not_point (c : ascii) :
  PyStr.is_digit c = true -> negb (PyStr.code c =? 46) = true.
Proof.
  unfold PyStr.is_digit. intros H. apply andb_true_iff in H. destruct H as [H _].
  apply Z.leb_le in H. apply negb_true_iff, Z.eqb_neq. lia.
Qed.

Lemma digits_rev_digits (fuel : nat) (n : Z) :
  0 <= n -> Forall (fun c => PyStr.is_digit c = true) (PyStr.digits_rev fuel n).
Proof.
  revert n. induction fuel as [|fuel IH]; intros n H; cbn [PyStr.digits_rev].
  - constructor; [|constructor]. apply digit_char_is_digit. apply Z.mod_pos_bound; lia.
  - destruct (Z.ltb_spec n 10).
    + constructor; [|constructor]. apply digit_char_is_digit; lia.
    + constructor.
      * apply digit_char_is_digit. apply Z.mod_pos_bound; lia.
      * apply IH. apply Z.div_pos; lia.
Qed.

Lemma list_ascii_of_append (a b : string) :
  list_ascii_of_string (a ++ b) = (list_ascii_of_string a ++ list_ascii_of_string b)%list.
Proof. induction a as [|ch a IH]; cbn; [reflexivity|now rewrite IH]. Qed.

Lemma round_half_even_nonneg (num den : Z) :
  0 <= num -> 0 < den -> 0 <= PyFloat.round_half_even num den.
Proof.
  intros Hn Hd. unfold PyFloat.round_half_even.
  assert (0 <= num / den) by (apply Z.div_pos; lia).
  destruct (2 * (num mod den) ?= den); [destruct (Z.even (num / den))| |]; lia.
Qed.

Lemma thousandths_nonneg (m : positive) (e : Z) : 0 <= PyFloat.thousandths m e.
Proof.
  unfold PyFloat.thousandths. destruct (Z.leb_spec 0 e).
  - assert (0 < 2 ^ e) by (apply Z.pow_pos_nonneg; lia). nia.
  - apply round_half_even_nonneg; [lia|]. apply Z.pow_pos_nonneg; lia.
Qed.

(** A sign, an integer, a point and three digits. *)
Lemma fixed3_three_decimals (neg : bool) (q : Z) :
  0 <= q -> three_decimals (PyFloat.fixed3 neg q) = true.
Proof.
  intros H. unfold three_decimals, PyFloat.fixed3, PyStr.of_Z.
  rewrite !list_ascii_of_append, !list_ascii_of_string_of_list_ascii.
  rewrite !rev_app_distr. cbn [rev list_ascii_of_string app].
  rewrite !digit_char_is_digit by (apply Z.mod_pos_bound; lia).
  cbn [andb PyStr.code nat_of_ascii]. rewrite rev_involutive.
  change (PyStr.code "."%char =? 46) with true. cbn [andb].
  rewrite forallb_app. apply andb_true_iff. split.
  - apply forallb_forall. intros c I.
    assert (D := digits_rev_digits (Z.to_nat (Z.log2 (q / 1000))) (q / 1000)
                                   ltac:(apply Z.div_pos; lia)).
    rewrite Forall_forall in D. apply digit_not_point. now apply D.
  - destruct neg; reflexivity.
Qed.

Lemma format_3f_three_decimals (val : float) :
  PyFloat.is_finite val = true -> three_decimals (PyFloat.format_3f val) = true.
Proof.
  unfold PyFloat.is_finite, PyFloat.format_3f.
  destruct (Prim2SF val) as [neg|neg| |neg m e]; try discriminate; intros _;
    cbn [PyFloat.format_3f_SF]; apply fixed3_three_decimals;
    [lia|apply thousandths_nonneg].
Qed.

(** ** [updatePropertyUnits] and [setUnits] *)

Section Units.

Variable app : ThermoStateCalc_app.module.

(** The value written back, and the row it is written to. *)
Lemma updatePropertyUnits_text w row UnitChange SI :
  exists val,
    lineEdit (updatePropertyUnits app w row UnitChange SI) = PyFloat.format_3f val /\
    (UnitChange = false -> val = value_of (lineEdit row)).
Proof.
  unfold updatePropertyUnits. fold (value_of (lineEdit row)).
  repeat match goal with
         | |- context [if PyStr.contains ?a ?b then _ else _] =>
             destruct (PyStr.contains a b)
         end;
    (eexists; split; [cbn [lineEdit with_lineEdit]; reflexivity|];
     intros U; subst UnitChange; reflexivity).
Qed.

Lemma updatePropertyUnits_unparsed w row UnitChange SI :
  PyFloat.float_of_str (lineEdit row) = None ->
  updatePropertyUnits app w row UnitChange SI
  = updatePropertyUnits app w (with_lineEdit row "0.0") UnitChange SI.
Proof.
  intros E. unfold updatePropertyUnits. cbn [lineEdit combo with_lineEdit].
  rewrite E. change (PyFloat.float_of_str "0.0") with (Some 0%float).
  repeat match goal with
         | |- context [if PyStr.contains ?a ?b then _ else _] =>
             destruct (PyStr.contains a b)
         end; reflexivity.
Qed.

(** C9 (as amended). updatePropertyUnits always returns: a text that is not
    a float counts as 0.0, and the field is rewritten with the value in the
    format 0.3f, which is exactly three decimals whenever the value is
    finite. The value is the one read, unconverted, unless the unit system
    changed: when setUnits runs with the unit system already current, as
    after selecting another property, each of the four fields is the value
    it held, reformatted. *)
Theorem updatePropertyUnits_rewrites_field
        (w : main_window) (row : input_row) (UnitChange SI : bool) :
  (exists val,
      lineEdit (updatePropertyUnits app w row UnitChange SI) = PyFloat.format_3f val /\
      (PyFloat.is_finite val = true ->
       three_decimals (lineEdit (updatePropertyUnits app w row UnitChange SI)) = true) /\
      (UnitChange = false -> val = value_of (lineEdit row))) /\
  (PyFloat.float_of_str (lineEdit row) = None ->
   updatePropertyUnits app w row UnitChange SI
   = updatePropertyUnits app w (with_lineEdit row "0.0") UnitChange SI) /\
  (units_current w ->
   lineEdit (State1_Property1 (setUnits app w))
   = PyFloat.format_3f (value_of (lineEdit (State1_Property1 w))) /\
   lineEdit (State1_Property2 (setUnits app w))
   = PyFloat.format_3f (value_of (lineEdit (State1_Property2 w))) /\
   lineEdit (State2_Property1 (setUnits app w))
   = PyFloat.format_3f (value_of (lineEdit (State2_Property1 w))) /\
   lineEdit (State2_Property2 (setUnits app w))
   = PyFloat.format_3f (value_of (lineEdit (State2_Property2 w)))).
Proof.
  split; [|split].
  - destruct (updatePropertyUnits_text w row UnitChange SI) as (val & E & U).
    exists val. split; [exact E|]. split; [|exact U].
    intros F. rewrite E. now apply format_3f_three_decimals.
  - apply updatePropertyUnits_unparsed.
  - intros C. unfold setUnits. unfold units_current in C. rewrite C.
    assert (R : forall w' r,
               lineEdit (updatePropertyUnits app w' r false (_rdo_SI w))
               = PyFloat.format_3f (value_of (lineEdit r))).
    { intros w' r. destruct (updatePropertyUnits_text w' r false (_rdo_SI w))
        as (val & E & U). rewrite E, (U eq_refl). reflexivity. }
    destruct (_rdo_SI w); cbn [String.eqb Ascii.eqb Bool.eqb negb andb];
      cbn [State1_Property1 State1_Property2 State2_Property1 State2_Property2
           with_rows with_units];
      rewrite !R; auto.
Qed.

End Units.

(** ** The resolver of the specification *)

Section ResolverProperties.

Import StateResolver.

Variable converter : UnitConverter.
Variable backend : Backend.
Variable tolerance : float.

Lemma classify_pT_saturated (T tsat : float) :
  (abs (T - tsat) <=? tolerance)%float = true ->
  classify_pT tolerance T tsat = Saturated.
Proof. intros H. unfold classify_pT. now rewrite H. Qed.

Lemma resolve_pT_saturated (P T tsat : float) :
  saturation_temperature backend P = Some tsat ->
  (abs (T - tsat) <=? tolerance)%float = true ->
  resolve_pT backend tolerance P T =
  option_map (fun f => mk_ThermoState f Saturated) (properties_pT backend Saturated P T).
Proof.
  intros S H. unfold resolve_pT. rewrite S, (classify_pT_saturated T tsat H).
  destruct (properties_pT backend Saturated P T); reflexivity.
Qed.

(** C6. For a pressure and a temperature, given in either order, whose
    temperature is within the tolerance of the saturation temperature at
    that pressure, resolution either fails in the backend or yields a state
    whose region is saturated: a resolved state is never sub-cooled liquid
    or super-heated vapor. *)
Theorem saturation_temperature_is_saturated
        (vP vT : float) (us : UnitSystem) (tsat : float) :
  PyFloat.is_finite vP = true -> PyFloat.is_finite vT = true ->
  saturation_temperature backend (normalize converter us Pressure vP) = Some tsat ->
  (abs (normalize converter us Temperature vT - tsat) <=? tolerance)%float = true ->
  let found :=
    properties_pT backend Saturated (normalize converter us Pressure vP)
                  (normalize converter us Temperature vT) in
  resolve converter backend tolerance Pressure vP Temperature vT us
  = match found with
    | Some f => inr (mk_ThermoState (denormalize converter us f) Saturated)
    | None => inl (PropertyResolutionError Pressure vP Temperature vT)
    end /\
  resolve converter backend tolerance Temperature vT Pressure vP us
  = match found with
    | Some f => inr (mk_ThermoState (denormalize converter us f) Saturated)
    | None => inl (PropertyResolutionError Temperature vT Pressure vP)
    end /\
  forall st,
    resolve converter backend tolerance Pressure vP Temperature vT us = inr st \/
    resolve converter backend tolerance Temperature vT Pressure vP us = inr st ->
    region st = Saturated /\
    region st <> SubCooledLiquid /\ region st <> SuperHeatedVapor.
Proof.
  intros FP FT S H found.
  assert (E1 : resolve converter backend tolerance Pressure vP Temperature vT us
               = match found with
                 | Some f => inr (mk_ThermoState (denormalize converter us f) Saturated)
                 | None => inl (PropertyResolutionError Pressure vP Temperature vT)
                 end).
  { unfold resolve. cbn [PropertyIdentifier_eqb dispatch anchor_first].
    rewrite FP, FT. cbn [andb negb]. rewrite (resolve_pT_saturated _ _ tsat S H).
    fold found. destruct found; reflexivity. }
  assert (E2 : resolve converter backend tolerance Temperature vT Pressure vP us
               = match found with
                 | Some f => inr (mk_ThermoState (denormalize converter us f) Saturated)
                 | None => inl (PropertyResolutionError Temperature vT Pressure vP)
                 end).
  { unfold resolve. cbn [PropertyIdentifier_eqb dispatch anchor_first].
    rewrite FP, FT. cbn [andb negb]. rewrite (resolve_pT_saturated _ _ tsat S H).
    fold found. destruct found; reflexivity. }
  split; [exact E1|]. split; [exact E2|].
  intros st R. rewrite E1, E2 in R.
  destruct found as [f|].
  - assert (st = mk_ThermoState (denormalize converter us f) Saturated) as ->
        by (destruct R as [R|R]; now inversion R).
    cbn [region]. split; [reflexivity|]. split; discriminate.
  - destruct R as [R|R]; discriminate.
Qed.

(** C7. A pair of distinct identifiers that the dispatch does not
    implement, with finite values, is rejected with
    UnsupportedPropertyPairError naming the pair: no strategy is chosen and
    the backend is not consulted. The pairs not implemented are those
    without pressure and without temperature. *)
Theorem unsupported_pair_rejected
        (a b : PropertyIdentifier) (va vb : float) (us : UnitSystem) :
  a <> b ->
  PyFloat.is_finite va = true -> PyFloat.is_finite vb = true ->
  dispatch a b = None ->
  resolve converter backend tolerance a va b vb us
  = inl (UnsupportedPropertyPairError a b) /\
  a <> Pressure /\ a <> Temperature /\ b <> Pressure /\ b <> Temperature.
Proof.
  intros N FA FB D. split.
  - unfold resolve. rewrite FA, FB, D. cbn [andb negb].
    destruct a, b; try reflexivity; contradiction N; reflexivity.
  - destruct a, b; try discriminate D; try (contradiction N; reflexivity);
      repeat split; discriminate.
Qed.

End ResolverProperties.

(** ** The claims on concrete requests *)

Example float_of_str_examples :
  PyFloat.float_of_str " 1_000.5e-2 " = Some 10.005%float /\
  PyFloat.float_of_str "-Infinity" = Some neg_infinity /\
  PyFloat.float_of_str "1e400" = Some infinity /\
  PyFloat.float_of_str "nan" = Some nan /\
  PyFloat.float_of_str "1e" = None /\
  PyFloat.float_of_str "1_" = None /\
  PyFloat.float_of_str "" = None /\
  PyFloat.float_of_str "abc" = None.
Proof. vm_compute. repeat split. Qed.

Example format_3f_examples :
  PyFloat.format_3f 0.0625%float = "0.062" /\
  PyFloat.format_3f 0.1875%float = "0.188" /\
  PyFloat.format_3f (-0.0001)%float = "-0.000" /\
  PyFloat.format_3f 1234.5678%float = "1234.568" /\
  PyFloat.format_3f neg_infinity = "-inf" /\
  PyFloat.format_3f nan = "nan".
Proof. vm_compute. repeat split. Qed.

Example identifier_examples :
  identifier "Pressure (p)" = "p" /\ identifier "Temperature (T)" = "t" /\
  identifier "x" = "" /\ identifier "" = "".
Proof. vm_compute. repeat split. Qed.

(** A duplicate in State 2 is not reported when a value of State 1 is not a
    float: the request fails with the invalid-value error instead. *)
Lemma duplicate_State2_behind_invalid_State1 :
  fst (SP2 request_duplicate2_invalid1) = snd (SP2 request_duplicate2_invalid1) /\
  click_Calculate sample_module request_duplicate2_invalid1
  = (with_lbl_Warning request_duplicate2_invalid1 invalid_value_error, []) /\
  invalid_value_error <> State1_duplicate_warning /\
  invalid_value_error <> State2_duplicate_warning.
Proof.
  split; [reflexivity|]. split; [vm_compute; reflexivity|]. split; discriminate.
Qed.

Lemma duplicate_property_rejected_witness :
  (fst (SP1 request_duplicate1) = snd (SP1 request_duplicate1) \/
   fst (SP2 request_duplicate1) = snd (SP2 request_duplicate1)) /\
  exists msg,
    click_Calculate sample_module request_duplicate1
    = (with_lbl_Warning request_duplicate1 msg, []) /\
    (fst (SP1 request_duplicate1) = snd (SP1 request_duplicate1) ->
     msg = State1_duplicate_warning) /\
    (fst (SP1 request_duplicate1) <> snd (SP1 request_duplicate1) ->
     f1 request_duplicate1 <> None -> msg = State2_duplicate_warning).
Proof.
  split; [left; reflexivity|].
  apply (duplicate_property_rejected sample_module request_duplicate1).
  left; reflexivity.
Defined.

Lemma deltas_are_differences_witness :
  resolved sample_module request_ok
  = Some (mk_thermoState "saturated" 1 25 0 0 0 0 0,
          mk_thermoState "saturated" 1 1 0 0 0 0 0) /\
  _lbl_StateChange_Properties (fst (click_Calculate sample_module request_ok))
  = "Property change:"
    ++ delta_line "P2-P1" (1 - 1) " bar"
    ++ delta_line "T2-T1" (1 - 25) " C"
    ++ delta_line "u2-u1" (0 - 0) " kJ/kg"
    ++ delta_line "h2-h1" (0 - 0) " kJ/kg"
    ++ delta_line "s2-s1" (0 - 0) " kJ/kg*C"
    ++ delta_line "v2-v1" (0 - 0) " m^3/kg"
    ++ delta_line "x2-x1" (0 - 0) "".
Proof.
  split; [vm_compute; reflexivity|].
  exact (proj2 (deltas_are_differences sample_module request_ok
                  (mk_thermoState "saturated" 1 25 0 0 0 0 0)
                  (mk_thermoState "saturated" 1 1 0 0 0 0 0) eq_refl)).
Defined.

(** State 1 fails on a duplicate property; the inputs of State 2 are valid,
    and yet nothing is asked of the module for State 2. *)
Lemma State2_not_attempted_after_State1_fails :
  State1_fails sample_module request_duplicate1 /\
  fst (SP2 request_duplicate1) <> snd (SP2 request_duplicate1) /\
  f2 request_duplicate1 = Some (1%float, 1%float) /\
  snd (click_Calculate sample_module request_duplicate1) = [].
Proof.
  split; [left; reflexivity|]. split; [discriminate|].
  split; vm_compute; reflexivity.
Qed.

Lemma State1_fails_request_raise1 : State1_fails sample_module request_raise1.
Proof.
  right; right.
  exists (-1)%float, 25%float, blank_thermoState, (Py.Exception "no such state").
  split; vm_compute; reflexivity.
Defined.

Lemma State1_failure_ends_request_witness :
  State1_fails sample_module request_raise1 /\
  (snd (click_Calculate sample_module request_raise1) = [] \/
   exists a b, snd (click_Calculate sample_module request_raise1) =
               [NewThermoState;
                SetState (fst (SP1 request_raise1)) (snd (SP1 request_raise1)) a b
                         (_rdo_SI request_raise1)]) /\
  displays (fst (click_Calculate sample_module request_raise1)) = displays request_raise1 /\
  _lbl_Warning (fst (click_Calculate sample_module request_raise1)) <> "" /\
  (fst (SP1 request_raise1) = snd (SP1 request_raise1) \/ f1 request_raise1 = None ->
   forall r21 r22,
     click_Calculate sample_module
       (with_rows request_raise1 (State1_Property1 request_raise1)
                  (State1_Property2 request_raise1) r21 r22)
     = (with_rows (fst (click_Calculate sample_module request_raise1))
                  (State1_Property1 request_raise1) (State1_Property2 request_raise1)
                  r21 r22, [])).
Proof.
  split; [exact State1_fails_request_raise1|].
  exact (State1_failure_ends_request sample_module request_raise1
           State1_fails_request_raise1).
Defined.

(** The text inf is a float, an infinite one: the request is not refused,
    both states are sent to setState and the warning stays empty. *)
Lemma infinity_reaches_setState :
  PyFloat.float_of_str "inf" = Some infinity /\
  PyFloat.is_finite infinity = false /\
  snd (click_Calculate sample_module request_inf)
  = [NewThermoState; SetState "p" "t" infinity 25 true;
     NewThermoState; SetState "p" "x" 1 1 true] /\
  _lbl_Warning (fst (click_Calculate sample_module request_inf)) = "" /\
  invalid_value_error <> "".
Proof.
  split; [vm_compute; reflexivity|]. split; [vm_compute; reflexivity|].
  split; [vm_compute; reflexivity|]. split; [vm_compute; reflexivity|discriminate].
Qed.

Lemma SP1_request_invalid1 : fst (SP1 request_invalid1) <> snd (SP1 request_invalid1).
Proof. discriminate. Defined.

Lemma invalid_value_rejected_witness :
  fst (SP1 request_invalid1) <> snd (SP1 request_invalid1) /\
  (f1 request_invalid1 = None \/
   (fst (SP2 request_invalid1) <> snd (SP2 request_invalid1) /\ f2 request_invalid1 = None)) /\
  click_Calculate sample_module request_invalid1
  = (with_lbl_Warning request_invalid1 invalid_value_error, []).
Proof.
  split; [exact SP1_request_invalid1|]. split; [left; vm_compute; reflexivity|].
  apply (invalid_value_rejected sample_module request_invalid1 SP1_request_invalid1).
  left; vm_compute; reflexivity.
Defined.

Lemma identifier_is_penultimate_character_witness :
  combo (State1_Property1 request_ok) = "Pressure (" ++ String "p" (String ")" "") /\
  combo (State1_Property2 request_ok) = "Temperature (" ++ String "T" (String ")" "") /\
  combo (State2_Property1 request_ok) = "Pressure (" ++ String "p" (String ")" "") /\
  combo (State2_Property2 request_ok) = "Quality (" ++ String "x" (String ")" "") /\
  SP1 request_ok = ("p", "t") /\ SP2 request_ok = ("p", "x") /\
  (forall cl, In cl (snd (click_Calculate sample_module request_ok)) ->
     cl = NewThermoState \/
     exists v1 v2, cl = SetState "p" "t" v1 v2 (_rdo_SI request_ok) \/
                   cl = SetState "p" "x" v1 v2 (_rdo_SI request_ok)).
Proof.
  repeat (split; [reflexivity|]).
  exact (proj1 (proj2 (proj2
    (identifier_is_penultimate_character sample_module request_ok
       "Pressure (" "Temperature (" "Pressure (" "Quality ("
       "p" "T" "p" "x" ")" ")" ")" ")" eq_refl eq_refl eq_refl eq_refl)))).
Defined.

(** The text inf is a float, and the field is rewritten as inf: no decimals. *)
Lemma infinity_has_no_decimals :
  PyFloat.float_of_str "inf" = Some infinity /\
  lineEdit (updatePropertyUnits sample_module request_ok (x_row "inf") false true) = "inf" /\
  three_decimals "inf" = false /\
  lineEdit (updatePropertyUnits sample_module request_ok (p_row "1e308") true false) = "inf".
Proof. vm_compute. repeat split. Qed.

Lemma saturation_temperature_is_saturated_witness :
  PyFloat.is_finite 1 = true /\ PyFloat.is_finite 100 = true /\
  StateResolver.saturation_temperature sample_backend
    (StateResolver.normalize sample_converter StateResolver.SI StateResolver.Pressure 1)
  = Some 100%float /\
  (abs (StateResolver.normalize sample_converter StateResolver.SI
          StateResolver.Temperature 100 - 100) <=? 0)%float = true /\
  StateResolver.resolve sample_converter sample_backend 0
    StateResolver.Pressure 1 StateResolver.Temperature 100 StateResolver.SI
  = inr (StateResolver.mk_ThermoState (StateResolver.mk_Fields 1 100 0 0 0 0 0)
                                      StateResolver.Saturated).
Proof.
  repeat (split; [reflexivity|]).
  exact (proj1 (saturation_temperature_is_saturated sample_converter sample_backend 0
                  1 100 StateResolver.SI 100 eq_refl eq_refl eq_refl eq_refl)).
Defined.

Lemma Enthalpy_is_not_Entropy : StateResolver.Enthalpy <> StateResolver.Entropy.
Proof. discriminate. Defined.

Lemma unsupported_pair_rejected_witness :
  StateResolver.Enthalpy <> StateResolver.Entropy /\
  PyFloat.is_finite 2700 = true /\ PyFloat.is_finite 7 = true /\
  StateResolver.dispatch StateResolver.Enthalpy StateResolver.Entropy = None /\
  StateResolver.resolve sample_converter sample_backend 0
    StateResolver.Enthalpy 2700 StateResolver.Entropy 7 StateResolver.SI
  = inl (StateResolver.UnsupportedPropertyPairError
           StateResolver.Enthalpy StateResolver.Entropy).
Proof.
  split; [exact Enthalpy_is_not_Entropy|].
  repeat (split; [reflexivity|]).
  exact (proj1 (unsupported_pair_rejected sample_converter sample_backend 0
                  StateResolver.Enthalpy StateResolver.Entropy 2700 7 StateResolver.SI
                  Enthalpy_is_not_Entropy eq_refl eq_refl eq_refl)).
Defined.

Lemma updatePropertyUnits_rewrites_field_witness :
  units_current request_ok /\
  lineEdit (State1_Property1 (setUnits sample_module request_ok)) = "1.000" /\
  lineEdit (State1_Property2 (setUnits sample_module request_ok)) = "25.000" /\
  PyFloat.float_of_str (lineEdit (p_row "abc")) = None /\
  updatePropertyUnits sample_module request_ok (p_row "abc") true false
  = updatePropertyUnits sample_module request_ok (with_lineEdit (p_row "abc") "0.0") true false.
Proof.
  split; [reflexivity|].
  destruct (updatePropertyUnits_rewrites_field sample_module request_ok (p_row "abc") true false)
    as (_ & Z & U).
  destruct (U eq_refl) as (E1 & E2 & _).
  split; [exact E1|]. split; [exact E2|].
  split; [reflexivity|]. exact (Z eq_refl).
Defined.

(** * Further properties of the form *)

(** ** [setUnits] *)

Section MoreUnits.

Variable app : ThermoStateCalc_app.module.

Lemma updatePropertyUnits_combo w row UnitChange SI :
  combo (updatePropertyUnits app w row UnitChange SI) = combo row.
Proof.
  unfold updatePropertyUnits.
  repeat match goal with
         | |- context [if PyStr.contains ?a ?b then _ else _] =>
             destruct (PyStr.contains a b)
         end; reflexivity.
Qed.

(** The label [updatePropertyUnits] leaves, from the unit attributes of the
    form. *)
Lemma updatePropertyUnits_label w row UnitChange SI :
  units_consistent w -> SI = _rdo_SI w ->
  label (updatePropertyUnits app w row UnitChange SI)
  = match unit_name SI (combo row) with
    | Some name => name
    | None => label row
    end.
Proof.
  intros (_ & _ & E1 & E2) ->. unfold updatePropertyUnits, unit_name.
  assert (P : p_Units w = if _rdo_SI w then "bar" else "psi")
    by (destruct (_rdo_SI w); congruence).
  assert (T : t_Units w = if _rdo_SI w then "C" else "F")
    by (destruct (_rdo_SI w); congruence).
  assert (U : u_Units w = if _rdo_SI w then "kJ/kg" else "btu/lb")
    by (destruct (_rdo_SI w); congruence).
  assert (H : h_Units w = if _rdo_SI w then "kJ/kg" else "btu/lb")
    by (destruct (_rdo_SI w); congruence).
  assert (S : s_Units w = if _rdo_SI w then "kJ/kg*C" else "btu/lb*F")
    by (destruct (_rdo_SI w); congruence).
  assert (V : v_Units w = if _rdo_SI w then "m^3/kg" else "ft^3/lb")
    by (destruct (_rdo_SI w); congruence).
  repeat match goal with
         | |- context [if PyStr.contains ?a ?b then _ else _] =>
             destruct (PyStr.contains a b)
         end; cbn [label with_lineEdit with_label]; auto.
Qed.

Lemma with_units_consistent w :
  units_consistent
    (if _rdo_SI w then
       with_units w XSteam.UNIT_SYSTEM_MKS "SI" "bar" "C" "kJ/kg" "kJ/kg" "kJ/kg*C" "m^3/kg"
     else
       with_units w XSteam.UNIT_SYSTEM_FLS "EN" "psi" "F" "btu/lb" "btu/lb" "btu/lb*F" "ft^3/lb").
Proof. destruct (_rdo_SI w) eqn:E; unfold units_consistent, units_current; cbn; rewrite E; auto. Qed.

Lemma setUnits_unfold w :
  setUnits app w =
  let SI := _rdo_SI w in
  let UnitChange := negb (currentUnits w =? (if SI then "SI" else "EN"))%string in
  let w1 := if SI then
              with_units w XSteam.UNIT_SYSTEM_MKS "SI" "bar" "C" "kJ/kg" "kJ/kg" "kJ/kg*C" "m^3/kg"
            else
              with_units w XSteam.UNIT_SYSTEM_FLS "EN" "psi" "F" "btu/lb" "btu/lb" "btu/lb*F"
                         "ft^3/lb" in
  with_rows w1
    (updatePropertyUnits app w1 (State1_Property1 w) UnitChange SI)
    (updatePropertyUnits app w1 (State1_Property2 w) UnitChange SI)
    (updatePropertyUnits app w1 (State2_Property1 w) UnitChange SI)
    (updatePropertyUnits app w1 (State2_Property2 w) UnitChange SI).
Proof. unfold setUnits. destruct (_rdo_SI w); reflexivity. Qed.

Lemma setUnits_consistent w :
  units_consistent (setUnits app w) /\ _rdo_SI (setUnits app w) = _rdo_SI w.
Proof.
  rewrite setUnits_unfold. cbv zeta.
  pose proof (with_units_consistent w) as C.
  destruct (_rdo_SI w) eqn:E; unfold units_consistent, units_current in *; cbn in *; auto.
Qed.

(** X1. Whatever the form held, after setUnits the recorded unit system,
    the steam table and the six unit names are those of the radio button,
    which setUnits does not move: a mismatch between them cannot survive a
    run of setUnits. *)
Theorem setUnits_units_consistent (w : main_window) :
  units_consistent (setUnits app w) /\ _rdo_SI (setUnits app w) = _rdo_SI w.
Proof.
  rewrite setUnits_unfold. cbv zeta.
  destruct (_rdo_SI w) eqn:E; unfold units_consistent, units_current;
    cbn; rewrite E; repeat split.
Qed.

(** X2. After setUnits the units label of each input is the unit name, in
    the system now selected, of the first quantity the selector's text
    names (pressure, temperature, energy, enthalpy, entropy, volume, quality
    in this order, quality having the empty name); a selector that names
    none keeps the label it had. *)
Theorem setUnits_labels (w : main_window) (i : input) :
  label (row_of (setUnits app w) i)
  = match unit_name (_rdo_SI w) (combo (row_of w i)) with
    | Some name => name
    | None => label (row_of w i)
    end.
Proof.
  rewrite setUnits_unfold. cbv zeta.
  pose proof (with_units_consistent w) as C.
  assert (R : _rdo_SI w =
              _rdo_SI (if _rdo_SI w then
                         with_units w XSteam.UNIT_SYSTEM_MKS "SI" "bar" "C" "kJ/kg" "kJ/kg"
                                    "kJ/kg*C" "m^3/kg"
                       else
                         with_units w XSteam.UNIT_SYSTEM_FLS "EN" "psi" "F" "btu/lb" "btu/lb"
                                    "btu/lb*F" "ft^3/lb"))
    by (destruct (_rdo_SI w) eqn:E; cbn [_rdo_SI with_units]; congruence).
  destruct i; cbn [row_of State1_Property1 State1_Property2 State2_Property1
                   State2_Property2 with_rows];
    apply updatePropertyUnits_label; assumption.
Qed.

(** X3. setUnits changes nothing but the unit attributes, the units labels
    and the value fields: the selectors, the radio button, the three result
    displays, the warning and the stored states stay as they were. *)
Theorem setUnits_keeps_results (w : main_window) :
  (forall i, combo (row_of (setUnits app w) i) = combo (row_of w i)) /\
  _rdo_SI (setUnits app w) = _rdo_SI w /\
  displays (setUnits app w) = displays w /\
  _lbl_Warning (setUnits app w) = _lbl_Warning w /\
  state1 (setUnits app w) = state1 w /\
  state2 (setUnits app w) = state2 w.
Proof.
  rewrite setUnits_unfold. cbv zeta. split.
  - intros i. destruct i, (_rdo_SI w);
      cbn [row_of State1_Property1 State1_Property2 State2_Property1
           State2_Property2 with_rows];
      apply updatePropertyUnits_combo.
  - destruct (_rdo_SI w) eqn:E; cbn; rewrite ?E; repeat split.
Qed.

End MoreUnits.

(** ** What [format] writes, [float] reads *)

Section FormatRead.

Local Open Scope list_scope.

Lemma digit_code (c : ascii) :
  PyStr.is_digit c = true -> 48 <= PyStr.code c <= 57.
Proof.
  unfold PyStr.is_digit. intros H. apply andb_true_iff in H.
  destruct H as [A B]. apply Z.leb_le in A. apply Z.leb_le in B. lia.
Qed.

Lemma digit_not_underscore (c : ascii) :
  PyStr.is_digit c = true -> PyFloat.is_underscore c = false.
Proof. intros H. apply digit_code in H. unfold PyFloat.is_underscore. apply Z.eqb_neq. lia. Qed.

Lemma digit_not_space (c : ascii) :
  PyStr.is_digit c = true -> PyFloat.is_space c = false.
Proof.
  intros H. apply digit_code in H. unfold PyFloat.is_space. cbv zeta.
  repeat (apply orb_false_iff; split); try (apply Z.eqb_neq; lia).
  apply andb_false_iff. right. apply Z.leb_gt. lia.
Qed.

Lemma drop_underscores_none (l : list ascii) :
  Forall (fun c => PyFloat.is_underscore c = false) l ->
  forall prev,
    match prev with Some p => PyFloat.is_underscore p = false | None => True end ->
    PyFloat.drop_underscores prev l = Some l.
Proof.
  induction 1 as [|c l Hc Hl IH]; intros prev Hp; cbn [PyFloat.drop_underscores].
  - destruct prev as [p|]; [now rewrite Hp|reflexivity].
  - rewrite Hc.
    assert (E : (match prev with Some p => PyFloat.is_underscore p | None => false end) = false)
      by (destruct prev; auto).
    rewrite E. cbn [andb]. now rewrite (IH (Some c) Hc).
Qed.

Lemma read_digits_run (ds rest : list ascii) :
  Forall (fun c => PyStr.is_digit c = true) ds ->
  match rest with [] => True | c :: _ => PyStr.is_digit c = false end ->
  forall acc n, exists m,
    PyFloat.read_digits acc n (ds ++ rest) = (m, n + Z.of_nat (List.length ds), rest).
Proof.
  intros Hd Hr. induction Hd as [|c ds Hc Hds IH]; intros acc n.
  - exists acc. cbn [app List.length Z.of_nat]. rewrite Z.add_0_r.
    destruct rest as [|c r]; cbn [PyFloat.read_digits]; [reflexivity|now rewrite Hr].
  - cbn [app PyFloat.read_digits]. rewrite Hc.
    destruct (IH (10 * acc + (PyStr.code c - 48)) (n + 1)) as (m & E).
    exists m. rewrite E. f_equal. f_equal. cbn [List.length]. lia.
Qed.

Lemma digit_lower (c : ascii) :
  PyStr.is_digit c = true -> PyStr.lower_char c = c.
Proof.
  intros H. apply digit_code in H. unfold PyStr.lower_char. cbv zeta.
  replace (PyStr.code c <=? 90) with true by (symmetry; apply Z.leb_le; lia).
  replace (65 <=? PyStr.code c) with false by (symmetry; apply Z.leb_gt; lia).
  replace (192 <=? PyStr.code c) with false by (symmetry; apply Z.leb_gt; lia).
  reflexivity.
Qed.

(** A text that starts with a digit is neither inf, infinity nor nan. *)
Lemma digit_first_no_word (c : ascii) (l : list ascii) (word : string) :
  PyStr.is_digit c = true ->
  word = "inf" \/ word = "infinity" \/ word = "nan" ->
  PyFloat.matches_nocase word (c :: l) = false.
Proof.
  intros H W. unfold PyFloat.matches_nocase. cbn [string_of_list_ascii PyStr.lower].
  rewrite (digit_lower c H).
  destruct W as [ -> | [ -> | -> ] ]; cbn [String.eqb];
    match goal with
    | |- context [Ascii.eqb c ?a] =>
        destruct (Ascii.eqb_spec c a) as [ -> | ]; [discriminate H|reflexivity]
    end.
Qed.

(** A run of digits, a point and a run of digits is a number. *)
Lemma read_number_fixed (neg : bool) (ds fs : list ascii) :
  ds <> [] ->
  Forall (fun c => PyStr.is_digit c = true) ds ->
  Forall (fun c => PyStr.is_digit c = true) fs ->
  exists x, PyFloat.read_number neg (ds ++ "."%char :: fs) = Some x.
Proof.
  intros N Hd Hf. unfold PyFloat.read_number.
  destruct (read_digits_run ds ("."%char :: fs) Hd eq_refl 0 0) as (ip & E). rewrite E.
  change (PyStr.code "."%char =? 46) with true. cbv iota.
  destruct (read_digits_run fs [] Hf I ip 0) as (m & F). rewrite app_nil_r in F. rewrite F.
  replace (0 <? 0 + Z.of_nat (List.length ds) + (0 + Z.of_nat (List.length fs))) with true.
  - cbn [PyFloat.read_exponent]. eauto.
  - symmetry. apply Z.ltb_lt. destruct ds; [contradiction|cbn [List.length]; lia].
Qed.

Lemma lstrip_head (c : ascii) (l : list ascii) :
  PyFloat.is_space c = false -> PyFloat.lstrip (c :: l) = c :: l.
Proof. intros H. cbn [PyFloat.lstrip]. now rewrite H. Qed.

Lemma digits_rev_not_nil (fuel : nat) (n : Z) : PyStr.digits_rev fuel n <> [].
Proof. destruct fuel; cbn [PyStr.digits_rev]; [|destruct (n <? 10)]; discriminate. Qed.

Lemma strip_ends (c d : ascii) (mid : list ascii) :
  PyFloat.is_space c = false -> PyFloat.is_space d = false ->
  PyFloat.strip (c :: mid ++ [d]) = c :: mid ++ [d].
Proof.
  intros Hc Hd. unfold PyFloat.strip. rewrite (lstrip_head c _ Hc).
  change (c :: mid ++ [d]) with ((c :: mid) ++ [d]).
  rewrite rev_app_distr. cbn [rev app]. rewrite (lstrip_head d _ Hd).
  change (d :: rev mid ++ [c]) with ([d] ++ rev (c :: mid)).
  rewrite rev_app_distr, rev_involutive. reflexivity.
Qed.

(** An optional minus sign, digits, a point and three digits. *)
Lemma parse_signed_fixed (text : string) (neg : bool) (ds : list ascii) (a b c : ascii) :
  list_ascii_of_string text
  = (if neg then ["-"%char] else []) ++ ds ++ "."%char :: [a; b; c] ->
  ds <> [] ->
  Forall (fun c => PyStr.is_digit c = true) ds ->
  PyStr.is_digit a = true -> PyStr.is_digit b = true -> PyStr.is_digit c = true ->
  exists x, PyFloat.parse text = Some x.
Proof.
  intros E Nd Hd Ha Hb Hc. unfold PyFloat.parse. rewrite E.
  assert (Hf : Forall (fun c => PyStr.is_digit c = true) [a; b; c])
    by (repeat constructor; assumption).
  assert (Hnum : Forall (fun c => PyFloat.is_underscore c = false)
                        (ds ++ "."%char :: [a; b; c])).
  { apply Forall_app. split; [|constructor; [reflexivity|]];
      (eapply Forall_impl; [|eassumption]); apply digit_not_underscore. }
  destruct ds as [|d0 ds']; [contradiction|].
  assert (H0 : PyStr.is_digit d0 = true) by now inversion Hd.
  destruct neg; cbn [app].
  - rewrite drop_underscores_none; [|constructor; [reflexivity|exact Hnum]|exact I].
    replace ("-"%char :: d0 :: ds' ++ ["."%char; a; b; c])
      with ("-"%char :: (d0 :: ds' ++ ["."%char; a; b]) ++ [c])
      by (cbn [app]; rewrite <- app_assoc; reflexivity).
    rewrite strip_ends by (reflexivity || now apply digit_not_space).
    replace ((d0 :: ds' ++ ["."%char; a; b]) ++ [c])
      with (d0 :: ds' ++ ["."%char; a; b; c])
      by (cbn [app]; rewrite <- app_assoc; reflexivity).
    change (PyFloat.read_sign ("-"%char :: d0 :: ds' ++ ["."%char; a; b; c]))
      with (true, d0 :: ds' ++ ["."%char; a; b; c]).
    cbv beta iota. rewrite !digit_first_no_word by auto. cbn [orb].
    apply (read_number_fixed true (d0 :: ds') [a; b; c] Nd Hd Hf).
  - rewrite drop_underscores_none; [|exact Hnum|exact I].
    replace (d0 :: ds' ++ ["."%char; a; b; c])
      with (d0 :: (ds' ++ ["."%char; a; b]) ++ [c])
      by (rewrite <- app_assoc; reflexivity).
    rewrite strip_ends by now apply digit_not_space.
    replace (d0 :: (ds' ++ ["."%char; a; b]) ++ [c])
      with (d0 :: ds' ++ ["."%char; a; b; c])
      by (rewrite <- app_assoc; reflexivity).
    assert (S : PyFloat.read_sign (d0 :: ds' ++ ["."%char; a; b; c])
                = (false, d0 :: ds' ++ ["."%char; a; b; c])).
    { apply digit_code in H0. unfold PyFloat.read_sign.
      replace (PyStr.code d0 =? 45) with false by (symmetry; apply Z.eqb_neq; lia).
      replace (PyStr.code d0 =? 43) with false by (symmetry; apply Z.eqb_neq; lia).
      reflexivity. }
    rewrite S. cbv beta iota. rewrite !digit_first_no_word by auto. cbn [orb].
    apply (read_number_fixed false (d0 :: ds') [a; b; c] Nd Hd Hf).
Qed.

Lemma parse_fixed3 (neg : bool) (q : Z) :
  0 <= q -> exists x, PyFloat.parse (PyFloat.fixed3 neg q) = Some x.
Proof.
  intros Hq.
  apply (parse_signed_fixed _ neg
           (rev (PyStr.digits_rev (Z.to_nat (Z.log2 (q / 1000))) (q / 1000)))
           (PyStr.digit_char (q / 100 mod 10)) (PyStr.digit_char (q / 10 mod 10))
           (PyStr.digit_char (q mod 10))).
  - unfold PyFloat.fixed3, PyStr.of_Z.
    rewrite !list_ascii_of_append, !list_ascii_of_string_of_list_ascii.
    destruct neg; reflexivity.
  - intros E. apply (f_equal (@rev ascii)) in E. rewrite rev_involutive in E.
    now apply digits_rev_not_nil in E.
  - apply Forall_rev. apply digits_rev_digits. apply Z.div_pos; lia.
  - apply digit_char_is_digit, Z.mod_pos_bound; lia.
  - apply digit_char_is_digit, Z.mod_pos_bound; lia.
  - apply digit_char_is_digit, Z.mod_pos_bound; lia.
Qed.

Lemma float_of_format_3f (val : float) :
  exists f, PyFloat.float_of_str (PyFloat.format_3f val) = Some f.
Proof.
  unfold PyFloat.float_of_str, PyFloat.format_3f.
  destruct (Prim2SF val) as [neg|neg| |neg m e]; cbn [PyFloat.format_3f_SF].
  - destruct (parse_fixed3 neg 0 ltac:(lia)) as (x & E). rewrite E. cbn. eauto.
  - destruct neg; vm_compute; eauto.
  - vm_compute; eauto.
  - destruct (parse_fixed3 neg _ (thousandths_nonneg m e)) as (x & E). rewrite E. cbn. eauto.
Qed.

End FormatRead.

(** ** [setUnits] again, and [calculateProperties] after it *)

Section UnitsCompose.

Variable app : ThermoStateCalc_app.module.

Lemma setUnits_row w i :
  row_of (setUnits app w) i
  = updatePropertyUnits app
      (if _rdo_SI w then
         with_units w XSteam.UNIT_SYSTEM_MKS "SI" "bar" "C" "kJ/kg" "kJ/kg" "kJ/kg*C" "m^3/kg"
       else
         with_units w XSteam.UNIT_SYSTEM_FLS "EN" "psi" "F" "btu/lb" "btu/lb" "btu/lb*F"
                    "ft^3/lb")
      (row_of w i)
      (negb (currentUnits w =? (if _rdo_SI w then "SI" else "EN"))%string)
      (_rdo_SI w).
Proof. rewrite setUnits_unfold. cbv zeta. destruct i; reflexivity. Qed.

Lemma setUnits_rows w :
  setUnits app w
  = with_rows (setUnits app w)
      (row_of (setUnits app w) Input11) (row_of (setUnits app w) Input12)
      (row_of (setUnits app w) Input21) (row_of (setUnits app w) Input22).
Proof. rewrite setUnits_unfold. cbv zeta. destruct (_rdo_SI w); reflexivity. Qed.

Lemma with_units_same w :
  units_consistent w ->
  (if _rdo_SI w then
     with_units w XSteam.UNIT_SYSTEM_MKS "SI" "bar" "C" "kJ/kg" "kJ/kg" "kJ/kg*C" "m^3/kg"
   else
     with_units w XSteam.UNIT_SYSTEM_FLS "EN" "psi" "F" "btu/lb" "btu/lb" "btu/lb*F" "ft^3/lb")
  = w.
Proof.
  destruct w. unfold units_consistent, units_current. cbn.
  intros (C & T & E1 & E2). destruct _rdo_SI0; inversion E1; inversion E2; subst; reflexivity.
Qed.

Lemma updatePropertyUnits_same w row SI :
  label row = match unit_name SI (combo row) with Some name => name | None => label row end ->
  units_consistent w -> SI = _rdo_SI w ->
  updatePropertyUnits app w row false SI = reformatted row.
Proof.
  intros L C E.
  pose proof (updatePropertyUnits_label app w row false SI C E) as L'.
  rewrite <- L in L'.
  pose proof (updatePropertyUnits_combo app w row false SI) as K.
  destruct (updatePropertyUnits_text app w row false SI) as (val & T & V).
  rewrite (V eq_refl) in T.
  destruct (updatePropertyUnits app w row false SI) as [c l u]. cbn in *. subst.
  destruct row; reflexivity.
Qed.

Lemma setUnits_label_settled w i :
  label (row_of (setUnits app w) i)
  = match unit_name (_rdo_SI w) (combo (row_of (setUnits app w) i)) with
    | Some name => name
    | None => label (row_of (setUnits app w) i)
    end.
Proof.
  rewrite setUnits_row at 2. rewrite updatePropertyUnits_combo.
  rewrite setUnits_row at 1.
  rewrite updatePropertyUnits_label;
    [|apply with_units_consistent|destruct (_rdo_SI w) eqn:E; cbn; congruence].
  destruct (unit_name (_rdo_SI w) (combo (row_of w i))) eqn:U; [reflexivity|].
  rewrite setUnits_row.
  rewrite updatePropertyUnits_label;
    [|apply with_units_consistent|destruct (_rdo_SI w) eqn:E; cbn; congruence].
  now rewrite U.
Qed.

(** X4. setUnits run a second time converts nothing: the form it leaves is
    the form after the first run with each value field read and written
    back, whatever unit system was recorded before the first run. *)
Theorem setUnits_again_converts_nothing (w : main_window) :
  setUnits app (setUnits app w)
  = with_rows (setUnits app w)
      (reformatted (State1_Property1 (setUnits app w)))
      (reformatted (State1_Property2 (setUnits app w)))
      (reformatted (State2_Property1 (setUnits app w)))
      (reformatted (State2_Property2 (setUnits app w))).
Proof.
  destruct (setUnits_consistent app w) as (C & R).
  assert (L : forall i,
             label (row_of (setUnits app w) i)
             = match unit_name (_rdo_SI (setUnits app w))
                               (combo (row_of (setUnits app w) i)) with
               | Some name => name
               | None => label (row_of (setUnits app w) i)
               end).
  { intros i. rewrite R. apply setUnits_label_settled. }
  set (w1 := setUnits app w) in *.
  rewrite (setUnits_unfold app w1). cbv zeta.
  rewrite (with_units_same w1 C).
  destruct C as (U & _). unfold units_current in U. rewrite U.
  replace (negb ((if _rdo_SI w1 then "SI" else "EN") =? (if _rdo_SI w1 then "SI" else "EN"))%string)
    with false by (symmetry; apply negb_false_iff, String.eqb_refl).
  destruct (setUnits_consistent app w) as (C & _). fold w1 in C.
  rewrite !updatePropertyUnits_same; auto.
  - apply (L Input22).
  - apply (L Input21).
  - apply (L Input12).
  - apply (L Input11).
Qed.

(** X5. A selector whose text names none of the seven quantities is left
    with the label it had, and its value is never converted, also when the
    unit system changes: the field is only read and written back. *)
Theorem updatePropertyUnits_unknown_property
        (w : main_window) (row : input_row) (UnitChange SI : bool) :
  unit_name SI (combo row) = None ->
  updatePropertyUnits app w row UnitChange SI = reformatted row.
Proof.
  unfold unit_name, updatePropertyUnits, reformatted. fold (value_of (lineEdit row)).
  repeat match goal with
         | |- context [if PyStr.contains ?a ?b then _ else _] =>
             destruct (PyStr.contains a b)
         end; intros E; try discriminate E; reflexivity.
Qed.

(** X6. Every value field that setUnits has written is a text float()
    accepts, whatever the field held before (an empty or invalid text
    included). *)
Theorem setUnits_fields_are_floats (w : main_window) :
  (exists a b, f1 (setUnits app w) = Some (a, b)) /\
  (exists c d, f2 (setUnits app w) = Some (c, d)).
Proof.
  assert (F : forall i, exists f,
               PyFloat.float_of_str (lineEdit (row_of (setUnits app w) i)) = Some f).
  { intros i. rewrite setUnits_row.
    match goal with
    | |- context [updatePropertyUnits app ?w' ?r ?u ?s] =>
        destruct (updatePropertyUnits_text app w' r u s) as (val & E & _)
    end.
    rewrite E. apply float_of_format_3f. }
  destruct (F Input11) as (a & A), (F Input12) as (b & B),
           (F Input21) as (c & C), (F Input22) as (d & D).
  cbn [row_of] in *. unfold f1, f2, floats. rewrite A, B, C, D.
  split; [exists a, b|exists c, d]; reflexivity.
Qed.

(** X7. Right after setUnits, a click on Calculate with distinct
    identifiers in both states always reaches the resolver: a thermoState is
    constructed and setState is called for State 1 with the identifiers of
    the form and the unit system the radio button shows. *)
Theorem click_after_setUnits_reaches_setState (w : main_window) :
  fst (SP1 w) <> snd (SP1 w) -> fst (SP2 w) <> snd (SP2 w) ->
  exists a b rest,
    snd (click_Calculate app (setUnits app w))
    = NewThermoState :: SetState (fst (SP1 w)) (snd (SP1 w)) a b (_rdo_SI w) :: rest.
Proof.
  intros N1 N2.
  assert (K : forall i, combo (row_of (setUnits app w) i) = combo (row_of w i)).
  { intros i. rewrite setUnits_row. apply updatePropertyUnits_combo. }
  assert (S1 : SP1 (setUnits app w) = SP1 w).
  { unfold SP1. pose proof (K Input11) as K1. pose proof (K Input12) as K2.
    cbn [row_of] in K1, K2. now rewrite K1, K2. }
  assert (S2 : SP2 (setUnits app w) = SP2 w).
  { unfold SP2. pose proof (K Input21) as K1. pose proof (K Input22) as K2.
    cbn [row_of] in K1, K2. now rewrite K1, K2. }
  destruct (setUnits_consistent app w) as (_ & R).
  assert (F : forall i, exists f,
               PyFloat.float_of_str (lineEdit (row_of (setUnits app w) i)) = Some f).
  { intros i. rewrite setUnits_row.
    match goal with
    | |- context [updatePropertyUnits app ?w' ?r ?u ?s] =>
        destruct (updatePropertyUnits_text app w' r u s) as (val & E & _)
    end.
    rewrite E. apply float_of_format_3f. }
  destruct (F Input11) as (a & A), (F Input12) as (b & B),
           (F Input21) as (c & C), (F Input22) as (d & D).
  cbn [row_of] in *.
  rewrite (click_checked app (setUnits app w) a b c d).
  - rewrite S1, S2, R.
    destruct (setState app _ _ _ a b _) as [o1 [e1|]]; cbn [snd].
    + now exists a, b, [].
    + destruct (setState app _ _ _ c d _) as [o2 [e2|]]; cbn [snd]; eauto.
  - now rewrite S1.
  - unfold f1, floats. now rewrite A, B.
  - now rewrite S2.
  - unfold f2, floats. now rewrite C, D.
Qed.

End UnitsCompose.

(** ** More on [calculateProperties] *)

Section MoreClicks.

Variable app : ThermoStateCalc_app.module.

(** The outcome of a click, in one of its seven cases. *)
Lemma click_cases (w : main_window) :
  (fst (SP1 w) = snd (SP1 w) /\
   click_Calculate app w = (with_lbl_Warning w State1_duplicate_warning, [])) \/
  (fst (SP1 w) <> snd (SP1 w) /\ f1 w = None /\
   click_Calculate app w = (with_lbl_Warning w invalid_value_error, [])) \/
  (exists a b,
      fst (SP1 w) <> snd (SP1 w) /\ f1 w = Some (a, b) /\
      ((fst (SP2 w) = snd (SP2 w) /\
        click_Calculate app w = (with_lbl_Warning w State2_duplicate_warning, [])) \/
       (fst (SP2 w) <> snd (SP2 w) /\ f2 w = None /\
        click_Calculate app w = (with_lbl_Warning w invalid_value_error, [])) \/
       (exists c d,
           fst (SP2 w) <> snd (SP2 w) /\ f2 w = Some (c, d) /\
           click_Calculate app w =
           match setState app (new_thermoState app) (fst (SP1 w)) (snd (SP1 w)) a b
                          (_rdo_SI w) with
           | (o1, Some e) =>
               (with_lbl_Warning (with_state1 w o1) (report e),
                [NewThermoState; SetState (fst (SP1 w)) (snd (SP1 w)) a b (_rdo_SI w)])
           | (st1, None) =>
               let cs := [NewThermoState;
                          SetState (fst (SP1 w)) (snd (SP1 w)) a b (_rdo_SI w);
                          NewThermoState;
                          SetState (fst (SP2 w)) (snd (SP2 w)) c d (_rdo_SI w)] in
               match setState app (new_thermoState app) (fst (SP2 w)) (snd (SP2 w)) c d
                              (_rdo_SI w) with
               | (o2, Some e) =>
                   (with_lbl_Warning (with_state2 (with_state1 w st1) o2) (report e), cs)
               | (st2, None) =>
                   (with_lbl_Warning
                      (with_lbl_StateChange_Properties
                         (with_lbl_State2_Properties
                            (with_lbl_State1_Properties
                               (with_state2 (with_state1 w st1) st2) (makeLabel w st1))
                            (makeLabel w st2))
                         (makeDeltaLabel w st1 st2)) "", cs)
               end
           end))).
Proof.
  destruct (string_dec (fst (SP1 w)) (snd (SP1 w))) as [D1|N1].
  { left. split; [assumption|]. now apply click_duplicate1. }
  right. destruct (f1 w) as [[a b]|] eqn:F1.
  2:{ left. repeat split; try assumption. now apply click_invalid1. }
  right. exists a, b. split; [assumption|]. split; [reflexivity|].
  destruct (string_dec (fst (SP2 w)) (snd (SP2 w))) as [D2|N2].
  { left. split; [assumption|]. apply click_duplicate2; congruence. }
  right. destruct (f2 w) as [[c d]|] eqn:F2.
  2:{ left. repeat split; try assumption. apply click_invalid2; congruence. }
  right. exists c, d. split; [assumption|]. split; [reflexivity|].
  now apply click_checked.
Qed.

(** X8. A click on Calculate never changes an input or a unit: the four
    inputs (selector, value field and units label), the radio button, the
    recorded unit system, the steam table and the six unit names are after
    the click what they were before, whether the click succeeds or fails. *)
Theorem click_keeps_inputs (w : main_window) :
  (forall i, row_of (fst (click_Calculate app w)) i = row_of w i) /\
  _rdo_SI (fst (click_Calculate app w)) = _rdo_SI w /\
  currentUnits (fst (click_Calculate app w)) = currentUnits w /\
  steamTable (fst (click_Calculate app w)) = steamTable w /\
  (p_Units (fst (click_Calculate app w)), t_Units (fst (click_Calculate app w)),
   u_Units (fst (click_Calculate app w))) = (p_Units w, t_Units w, u_Units w) /\
  (h_Units (fst (click_Calculate app w)), s_Units (fst (click_Calculate app w)),
   v_Units (fst (click_Calculate app w))) = (h_Units w, s_Units w, v_Units w).
Proof.
  destruct (click_cases w)
    as [(_ & E)|[(_ & _ & E)|(a & b & _ & _ &
         [(_ & E)|[(_ & _ & E)|(c & d & _ & _ & E)]])]];
    rewrite E; clear E;
    try (destruct (setState app _ _ _ a b _) as [o1 [e1|]];
         [|destruct (setState app _ _ _ c d _) as [o2 [e2|]]]);
    (split; [intros i; destruct i; reflexivity|repeat split]).
Qed.

(** X9. The calls a click makes are a prefix of: construct, setState for
    State 1, construct, setState for State 2. The values passed are the
    floats read from the value fields, in the order of the inputs, and the
    unit flag is that of the radio button; every setState is preceded by the
    construction of a new thermoState: no object is resolved twice. *)
Theorem click_calls_shape (w : main_window) :
  snd (click_Calculate app w) = [] \/
  (exists a b,
      f1 w = Some (a, b) /\
      (snd (click_Calculate app w)
       = [NewThermoState; SetState (fst (SP1 w)) (snd (SP1 w)) a b (_rdo_SI w)] \/
       exists c d,
         f2 w = Some (c, d) /\
         snd (click_Calculate app w)
         = [NewThermoState; SetState (fst (SP1 w)) (snd (SP1 w)) a b (_rdo_SI w);
            NewThermoState; SetState (fst (SP2 w)) (snd (SP2 w)) c d (_rdo_SI w)])).
Proof.
  destruct (click_cases w)
    as [(_ & E)|[(_ & _ & E)|(a & b & _ & F1 &
         [(_ & E)|[(_ & _ & E)|(c & d & _ & F2 & E)]])]];
    rewrite E; clear E; try (left; reflexivity).
  right. exists a, b. split; [assumption|].
  destruct (setState app _ _ _ a b _) as [o1 [e1|]]; [left; reflexivity|].
  right. exists c, d. split; [assumption|].
  destruct (setState app _ _ _ c d _) as [o2 [e2|]]; reflexivity.
Qed.

(** X10. A click never leaves an old warning in place: its outcome is the
    same whatever the warning label held before. *)
Theorem click_overwrites_warning (w : main_window) (old : string) :
  click_Calculate app (with_lbl_Warning w old) = click_Calculate app w.
Proof.
  destruct (click_cases w)
    as [(D1 & E)|[(N1 & F1 & E)|(a & b & N1 & F1 &
         [(D2 & E)|[(N2 & F2 & E)|(c & d & N2 & F2 & E)]])]];
    rewrite E; clear E.
  - now rewrite click_duplicate1.
  - now rewrite click_invalid1.
  - rewrite click_duplicate2; [reflexivity|assumption| |assumption].
    change (f1 (with_lbl_Warning w old)) with (f1 w). congruence.
  - rewrite click_invalid2; [reflexivity|assumption| |assumption|assumption].
    change (f1 (with_lbl_Warning w old)) with (f1 w). congruence.
  - rewrite (click_checked app (with_lbl_Warning w old) a b c d N1 F1 N2 F2).
    change (SP1 (with_lbl_Warning w old)) with (SP1 w).
    change (SP2 (with_lbl_Warning w old)) with (SP2 w).
    change (_rdo_SI (with_lbl_Warning w old)) with (_rdo_SI w).
    destruct (setState app _ _ _ a b _) as [o1 [e1|]]; [reflexivity|].
    destruct (setState app _ _ _ c d _) as [o2 [e2|]]; reflexivity.
Qed.

(** X11. A second click with nothing changed in between gives the form of
    the first click and makes the same calls: clicking is idempotent. *)
Theorem click_twice (w : main_window) :
  click_Calculate app (fst (click_Calculate app w)) = click_Calculate app w.
Proof.
  destruct (click_cases w)
    as [(D1 & E)|[(N1 & F1 & E)|(a & b & N1 & F1 &
         [(D2 & E)|[(N2 & F2 & E)|(c & d & N2 & F2 & E)]])]];
    rewrite E.
  - cbn [fst]. now rewrite click_duplicate1.
  - cbn [fst]. now rewrite click_invalid1.
  - cbn [fst]. rewrite click_duplicate2; [reflexivity|assumption| |assumption].
    change (f1 (with_lbl_Warning w State2_duplicate_warning)) with (f1 w). congruence.
  - cbn [fst]. rewrite click_invalid2; [reflexivity|assumption| |assumption|assumption].
    change (f1 (with_lbl_Warning w invalid_value_error)) with (f1 w). congruence.
  - clear E.
    destruct (setState app _ _ _ a b _) as [o1 [e1|]] eqn:S1;
      [|destruct (setState app _ _ _ c d _) as [o2 [e2|]] eqn:S2];
      cbn [fst];
      match goal with
      | |- click_Calculate app ?W = _ =>
          rewrite (click_checked app W a b c d N1 F1 N2 F2);
          change (SP1 W) with (SP1 w); change (SP2 W) with (SP2 w);
          change (_rdo_SI W) with (_rdo_SI w)
      end;
      rewrite ?S1, ?S2; reflexivity.
Qed.

End MoreClicks.

(** ** Failures of [setState] and selectors without a property *)

Section MoreFailures.

Variable app : ThermoStateCalc_app.module.

(** X12. When State 1 resolves and setState raises on State 2, the form
    keeps the results it displayed before while its attribute state1 already
    holds the new State 1 (and state2 the object setState failed on): what
    is stored and what is displayed differ after such a click. *)
Theorem State2_failure_stores_State1
        (w : main_window) (a b c d : float) (st1 o2 : thermoState) (e : Py.exn) :
  fst (SP1 w) <> snd (SP1 w) -> f1 w = Some (a, b) ->
  fst (SP2 w) <> snd (SP2 w) -> f2 w = Some (c, d) ->
  setState app (new_thermoState app) (fst (SP1 w)) (snd (SP1 w)) a b (_rdo_SI w)
  = (st1, None) ->
  setState app (new_thermoState app) (fst (SP2 w)) (snd (SP2 w)) c d (_rdo_SI w)
  = (o2, Some e) ->
  state1 (fst (click_Calculate app w)) = Some st1 /\
  state2 (fst (click_Calculate app w)) = Some o2 /\
  displays (fst (click_Calculate app w)) = displays w /\
  _lbl_Warning (fst (click_Calculate app w)) = report e.
Proof.
  intros N1 F1 N2 F2 S1 S2.
  rewrite (click_checked app w a b c d N1 F1 N2 F2), S1, S2. repeat split.
Qed.

(** X13. A ValueError raised by setState is caught by the handler meant for
    float(): with four values that are floats and a resolution that was
    attempted, the form still asks for valid numerical values. *)
Theorem setState_ValueError_reported_as_invalid_value
        (w : main_window) (a b c d : float) (o1 : thermoState) (msg : string) :
  fst (SP1 w) <> snd (SP1 w) -> f1 w = Some (a, b) ->
  fst (SP2 w) <> snd (SP2 w) -> f2 w = Some (c, d) ->
  setState app (new_thermoState app) (fst (SP1 w)) (snd (SP1 w)) a b (_rdo_SI w)
  = (o1, Some (Py.ValueError msg)) ->
  click_Calculate app w
  = (with_lbl_Warning (with_state1 w o1) invalid_value_error,
     [NewThermoState; SetState (fst (SP1 w)) (snd (SP1 w)) a b (_rdo_SI w)]).
Proof.
  intros N1 F1 N2 F2 S1.
  rewrite (click_checked app w a b c d N1 F1 N2 F2), S1. reflexivity.
Qed.

Lemma identifier_short (text : string) :
  (String.length text < 2)%nat -> identifier text = "".
Proof.
  destruct text as [|c [|d r]]; cbn [String.length]; intros H; [reflexivity|reflexivity|lia].
Qed.

(** X14. A selector whose text has fewer than two characters (an empty
    selector, for one) has the empty identifier, so two such selectors in
    State 1 are reported as the same property, whatever the values. *)
Theorem short_selectors_are_duplicates (w : main_window) :
  (String.length (combo (State1_Property1 w)) < 2)%nat ->
  (String.length (combo (State1_Property2 w)) < 2)%nat ->
  SP1 w = ("", "") /\
  click_Calculate app w = (with_lbl_Warning w State1_duplicate_warning, []).
Proof.
  intros H1 H2.
  assert (E : SP1 w = ("", "")).
  { unfold SP1. now rewrite !identifier_short. }
  split; [exact E|]. apply click_duplicate1. now rewrite E.
Qed.

End MoreFailures.

(** ** The differences of a state with itself *)

Lemma sub_self_text (val : float) :
  PyFloat.format_3f (val - val) = zero_or_nan val.
Proof.
  unfold PyFloat.format_3f, zero_or_nan, PyFloat.is_finite. rewrite sub_spec.
  destruct (Prim2SF val) as [neg|neg| |neg m e].
  - destruct neg; reflexivity.
  - destruct neg; reflexivity.
  - reflexivity.
  - unfold SF64sub, SFsub. rewrite Z.sub_diag. reflexivity.
Qed.

(** X15. The display of the differences between a state and itself shows
    0.000 for every finite field, and nan for a field that is infinite or
    NaN (never a signed zero or an inf). *)
Theorem makeDeltaLabel_same_state (w : main_window) (st : thermoState) :
  makeDeltaLabel w st st =
  "Property change:"
  ++ zero_line "P2-P1" (p st) (" " ++ p_Units w)
  ++ zero_line "T2-T1" (t st) (" " ++ t_Units w)
  ++ zero_line "u2-u1" (u st) (" " ++ u_Units w)
  ++ zero_line "h2-h1" (h st) (" " ++ h_Units w)
  ++ zero_line "s2-s1" (s st) (" " ++ s_Units w)
  ++ zero_line "v2-v1" (v st) (" " ++ v_Units w)
  ++ zero_line "x2-x1" (x st) "".
Proof.
  rewrite makeDeltaLabel_lines. unfold delta_line, zero_line.
  now rewrite !sub_self_text.
Qed.

(** ** The form over its life *)

Section Events.

Variable app : ThermoStateCalc_app.module.

Lemma click_keeps_units (w : main_window) :
  units_consistent w -> units_consistent (fst (click_Calculate app w)).
Proof.
  intros C.
  destruct (click_cases app w)
    as [(_ & E)|[(_ & _ & E)|(a & b & _ & _ &
         [(_ & E)|[(_ & _ & E)|(c & d & _ & _ & E)]])]];
    rewrite E; clear E;
    try (destruct (setState app _ _ _ a b _) as [o1 [e1|]];
         [|destruct (setState app _ _ _ c d _) as [o2 [e2|]]]);
    exact C.
Qed.

Lemma on_event_consistent (w : main_window) (ev : user_event) :
  units_consistent w -> units_consistent (on_event app w ev).
Proof.
  intros C. destruct ev as [checked|i text|i text|]; cbn [on_event].
  - apply setUnits_consistent.
  - apply setUnits_consistent.
  - destruct i; exact C.
  - now apply click_keeps_units.
Qed.

(** X16. From the construction of the form on, after any sequence of
    clicks on the radio buttons, selections of a property, edits of a value
    field and clicks on Calculate, the recorded unit system, the steam table
    and the six unit names are those of the radio button. *)
Theorem units_consistent_after_events (ui : main_window) (evs : list user_event) :
  units_consistent (run_events app (__init__ app ui) evs).
Proof.
  unfold run_events.
  assert (G : forall w, units_consistent w ->
                        units_consistent (fold_left (on_event app) evs w)).
  { induction evs as [|ev evs IH]; intros w C; cbn [fold_left]; [exact C|].
    apply IH. now apply on_event_consistent. }
  apply G. unfold __init__. apply setUnits_consistent.
Qed.

Lemma updatePropertyUnits_pressure w row SI :
  PyStr.contains "Pressure" (combo row) = true ->
  lineEdit (updatePropertyUnits app w row true SI)
  = PyFloat.format_3f
      (if SI then value_of (lineEdit row) * psi_to_bar (uc app)
       else value_of (lineEdit row) * bar_to_psi (uc app)).
Proof.
  intros H. unfold updatePropertyUnits. fold (value_of (lineEdit row)). rewrite H.
  reflexivity.
Qed.

(** X17. Switching a form in SI to English units and back does not restore
    a pressure from the value it had: the second conversion starts from the
    text the first one wrote, a number rounded to three decimals. *)
Theorem pressure_there_and_back (w : main_window) (i : input) :
  units_consistent w -> _rdo_SI w = true ->
  PyStr.contains "Pressure" (combo (row_of w i)) = true ->
  lineEdit (row_of (run_events app w [rdo_clicked false; rdo_clicked true]) i)
  = PyFloat.format_3f
      (value_of (PyFloat.format_3f (value_of (lineEdit (row_of w i)) * bar_to_psi (uc app)))
       * psi_to_bar (uc app)).
Proof.
  intros (U & _) R P. unfold units_current in U. rewrite R in U.
  unfold run_events. cbn [fold_left on_event].
  set (w1 := setUnits app (with_rdo_SI w false)).
  assert (C1 : currentUnits w1 = "EN").
  { destruct (setUnits_consistent app (with_rdo_SI w false)) as ((U1 & _) & R1).
    unfold units_current in U1. fold w1 in U1, R1. now rewrite R1 in U1. }
  assert (E1 : row_of w1 i
               = updatePropertyUnits app
                   (with_units (with_rdo_SI w false) XSteam.UNIT_SYSTEM_FLS "EN" "psi" "F"
                               "btu/lb" "btu/lb" "btu/lb*F" "ft^3/lb")
                   (row_of w i) true false).
  { unfold w1. rewrite setUnits_row.
    change (_rdo_SI (with_rdo_SI w false)) with false.
    change (currentUnits (with_rdo_SI w false)) with (currentUnits w). rewrite U.
    destruct i; reflexivity. }
  rewrite setUnits_row.
  change (_rdo_SI (with_rdo_SI w1 true)) with true.
  change (currentUnits (with_rdo_SI w1 true)) with (currentUnits w1). rewrite C1.
  replace (row_of (with_rdo_SI w1 true) i) with (row_of w1 i) by (destruct i; reflexivity).
  change (negb ("EN" =? "SI")%string) with true.
  rewrite updatePropertyUnits_pressure.
  - rewrite E1, updatePropertyUnits_pressure by exact P. reflexivity.
  - rewrite E1, updatePropertyUnits_combo. exact P.
Qed.

End Events.

(** ** The further properties on concrete forms *)

Lemma updatePropertyUnits_unknown_property_witness :
  unit_name false (combo request_unknown_property) = None /\
  updatePropertyUnits sample_module request_ok request_unknown_property true false
  = reformatted request_unknown_property.
Proof.
  split; [reflexivity|].
  exact (updatePropertyUnits_unknown_property sample_module request_ok
           request_unknown_property true false eq_refl).
Defined.

Lemma SP1_request_ok : fst (SP1 request_ok) <> snd (SP1 request_ok).
Proof. discriminate. Defined.

Lemma SP2_request_ok : fst (SP2 request_ok) <> snd (SP2 request_ok).
Proof. discriminate. Defined.

Lemma click_after_setUnits_reaches_setState_witness :
  fst (SP1 request_ok) <> snd (SP1 request_ok) /\
  fst (SP2 request_ok) <> snd (SP2 request_ok) /\
  exists a b rest,
    snd (click_Calculate sample_module (setUnits sample_module request_ok))
    = NewThermoState
        :: SetState (fst (SP1 request_ok)) (snd (SP1 request_ok)) a b (_rdo_SI request_ok)
        :: rest.
Proof.
  split; [exact SP1_request_ok|]. split; [exact SP2_request_ok|].
  exact (click_after_setUnits_reaches_setState sample_module request_ok
           SP1_request_ok SP2_request_ok).
Defined.

Lemma SP1_request_raise2 : fst (SP1 request_raise2) <> snd (SP1 request_raise2).
Proof. discriminate. Defined.

Lemma SP2_request_raise2 : fst (SP2 request_raise2) <> snd (SP2 request_raise2).
Proof. discriminate. Defined.

Lemma State2_failure_stores_State1_witness :
  fst (SP1 request_raise2) <> snd (SP1 request_raise2) /\
  f1 request_raise2 = Some (1%float, 25%float) /\
  fst (SP2 request_raise2) <> snd (SP2 request_raise2) /\
  f2 request_raise2 = Some ((-1)%float, 1%float) /\
  state1 (fst (click_Calculate sample_module request_raise2))
  = Some (mk_thermoState "saturated" 1 25 0 0 0 0 0) /\
  state2 (fst (click_Calculate sample_module request_raise2)) = Some blank_thermoState /\
  displays (fst (click_Calculate sample_module request_raise2)) = displays request_raise2 /\
  _lbl_Warning (fst (click_Calculate sample_module request_raise2))
  = report (Py.Exception "no such state").
Proof.
  split; [exact SP1_request_raise2|]. split; [reflexivity|].
  split; [exact SP2_request_raise2|]. split; [reflexivity|].
  exact (State2_failure_stores_State1 sample_module request_raise2
           1 25 (-1) 1 (mk_thermoState "saturated" 1 25 0 0 0 0 0) blank_thermoState
           (Py.Exception "no such state")
           SP1_request_raise2 eq_refl SP2_request_raise2 eq_refl eq_refl eq_refl).
Defined.

Lemma SP1_request_raise1 : fst (SP1 request_raise1) <> snd (SP1 request_raise1).
Proof. discriminate. Defined.

Lemma SP2_request_raise1 : fst (SP2 request_raise1) <> snd (SP2 request_raise1).
Proof. discriminate. Defined.

Lemma setState_ValueError_reported_as_invalid_value_witness :
  fst (SP1 request_raise1) <> snd (SP1 request_raise1) /\
  f1 request_raise1 = Some ((-1)%float, 25%float) /\
  fst (SP2 request_raise1) <> snd (SP2 request_raise1) /\
  f2 request_raise1 = Some (1%float, 1%float) /\
  click_Calculate sample_module_ValueError request_raise1
  = (with_lbl_Warning (with_state1 request_raise1 blank_thermoState) invalid_value_error,
     [NewThermoState;
      SetState (fst (SP1 request_raise1)) (snd (SP1 request_raise1)) (-1) 25
               (_rdo_SI request_raise1)]).
Proof.
  split; [exact SP1_request_raise1|]. split; [reflexivity|].
  split; [exact SP2_request_raise1|]. split; [reflexivity|].
  exact (setState_ValueError_reported_as_invalid_value sample_module_ValueError
           request_raise1 (-1) 25 1 1 blank_thermoState "math domain error"
           SP1_request_raise1 eq_refl SP2_request_raise1 eq_refl eq_refl).
Defined.

Lemma short_selectors_are_duplicates_witness :
  (String.length (combo (State1_Property1 request_empty_selectors)) < 2)%nat /\
  (String.length (combo (State1_Property2 request_empty_selectors)) < 2)%nat /\
  SP1 request_empty_selectors = ("", "") /\
  click_Calculate sample_module request_empty_selectors
  = (with_lbl_Warning request_empty_selectors State1_duplicate_warning, []).
Proof.
  assert (H1 : (String.length (combo (State1_Property1 request_empty_selectors)) < 2)%nat)
    by (cbn; lia).
  assert (H2 : (String.length (combo (State1_Property2 request_empty_selectors)) < 2)%nat)
    by (cbn; lia).
  split; [exact H1|]. split; [exact H2|].
  exact (short_selectors_are_duplicates sample_module request_empty_selectors H1 H2).
Defined.

Lemma units_consistent_request_ok : units_consistent request_ok.
Proof. repeat split. Defined.

Lemma pressure_there_and_back_witness :
  units_consistent request_ok /\ _rdo_SI request_ok = true /\
  PyStr.contains "Pressure" (combo (row_of request_ok Input11)) = true /\
  lineEdit (row_of (run_events sample_module request_ok
                               [rdo_clicked false; rdo_clicked true]) Input11)
  = PyFloat.format_3f
      (value_of (PyFloat.format_3f (value_of (lineEdit (row_of request_ok Input11))
                                    * bar_to_psi (uc sample_module)))
       * psi_to_bar (uc sample_module)).
Proof.
  split; [exact units_consistent_request_ok|]. split; [reflexivity|]. split; [reflexivity|].
  exact (pressure_there_and_back sample_module request_ok Input11
           units_consistent_request_ok eq_refl eq_refl).
Defined.

(** ** Rounding to the binary64 format, on integers *)

Lemma digits2_pos_bounds (m : positive) :
  2 ^ (Zpos (digits2_pos m) - 1) <= Zpos m < 2 ^ Zpos (digits2_pos m).
Proof.
  induction m as [m IH|m IH|]; cbn [digits2_pos].
  - rewrite Pos2Z.inj_succ. set (d := Zpos (digits2_pos m)) in *.
    assert (D : 1 <= d) by (unfold d; lia). clearbody d.
    assert (E : 2 ^ d = 2 * 2 ^ (d - 1)).
    { replace d with (Z.succ (d - 1)) at 1 by lia. apply Z.pow_succ_r. lia. }
    replace (Z.succ d - 1) with d by lia.
    rewrite Z.pow_succ_r by lia. rewrite (Pos2Z.inj_xI m). rewrite E in *.
    generalize dependent (2 ^ (d - 1)). intros; lia.
  - rewrite Pos2Z.inj_succ. set (d := Zpos (digits2_pos m)) in *.
    assert (D : 1 <= d) by (unfold d; lia). clearbody d.
    assert (E : 2 ^ d = 2 * 2 ^ (d - 1)).
    { replace d with (Z.succ (d - 1)) at 1 by lia. apply Z.pow_succ_r. lia. }
    replace (Z.succ d - 1) with d by lia.
    rewrite Z.pow_succ_r by lia. rewrite (Pos2Z.inj_xO m). rewrite E in *.
    generalize dependent (2 ^ (d - 1)). intros; lia.
  - cbn. lia.
Qed.

Lemma Zdigits2_bounds (m : Z) :
  0 < m -> 2 ^ (Zdigits2 m - 1) <= m < 2 ^ Zdigits2 m.
Proof. destruct m as [|p|p]; try lia. intros _. apply digits2_pos_bounds. Qed.

Lemma Zdigits2_nonneg (m : Z) : 0 <= Zdigits2 m.
Proof. destruct m; cbn; lia. Qed.

Lemma Zdigits2_le (m k : Z) : 0 <= m -> 0 <= k -> m < 2 ^ k -> Zdigits2 m <= k.
Proof.
  intros Hm Hk H. destruct (Z.eq_dec m 0) as [->|N]; [cbn; lia|].
  destruct (Zdigits2_bounds m ltac:(lia)) as [L _].
  destruct (Z_le_gt_dec (Zdigits2 m) k) as [|G]; [assumption|].
  assert (2 ^ k <= 2 ^ (Zdigits2 m - 1)) by (apply Z.pow_le_mono_r; lia). lia.
Qed.

Lemma Zdigits2_ge (m k : Z) : 0 <= k -> 2 ^ k <= m -> k + 1 <= Zdigits2 m.
Proof.
  intros Hk H. assert (0 < 2 ^ k) by (apply Z.pow_pos_nonneg; lia).
  destruct (Zdigits2_bounds m ltac:(lia)) as [_ U].
  destruct (Z_le_gt_dec (k + 1) (Zdigits2 m)) as [|G]; [assumption|].
  pose proof (Zdigits2_nonneg m).
  assert (2 ^ Zdigits2 m <= 2 ^ k) by (apply Z.pow_le_mono_r; lia). lia.
Qed.

Lemma shr_1_m (mrs : shr_record) :
  0 <= shr_m mrs -> shr_m (shr_1 mrs) = shr_m mrs / 2.
Proof.
  destruct mrs as [m r s]. cbn [shr_m]. intros H. rewrite <- Z.div2_div.
  destruct m as [|[p|p|]|p]; try reflexivity. lia.
Qed.

Lemma iter_shr_1_m (p : positive) :
  forall mrs, 0 <= shr_m mrs ->
    shr_m (iter_pos shr_1 p mrs) = shr_m mrs / 2 ^ Zpos p.
Proof.
  induction p as [p IH|p IH|]; intros mrs H; cbn [iter_pos].
  - assert (H1 : 0 <= shr_m (shr_1 mrs)).
    { rewrite shr_1_m by assumption. apply Z.div_pos; lia. }
    assert (H2 : 0 <= shr_m (iter_pos shr_1 p (shr_1 mrs))).
    { rewrite IH by assumption. apply Z.div_pos; [assumption|]. apply Z.pow_pos_nonneg; lia. }
    rewrite IH, IH, shr_1_m by assumption.
    assert (P : 0 < 2 ^ Zpos p) by (apply Z.pow_pos_nonneg; lia).
    rewrite !Z.div_div by lia.
    f_equal. replace (Zpos p~1) with (1 + Zpos p + Zpos p) by lia.
    rewrite !Z.pow_add_r by lia. change (2 ^ 1) with 2. ring.
  - assert (H2 : 0 <= shr_m (iter_pos shr_1 p mrs)).
    { rewrite IH by assumption. apply Z.div_pos; [assumption|]. apply Z.pow_pos_nonneg; lia. }
    rewrite IH, IH by assumption.
    assert (P : 0 < 2 ^ Zpos p) by (apply Z.pow_pos_nonneg; lia).
    rewrite !Z.div_div by lia.
    f_equal. replace (Zpos p~0) with (Zpos p + Zpos p) by lia.
    rewrite Z.pow_add_r by lia. reflexivity.
  - rewrite shr_1_m by assumption. reflexivity.
Qed.

Lemma round_nearest_even_cases (m : Z) (l : location) :
  round_nearest_even m l = m \/ round_nearest_even m l = m + 1.
Proof.
  destruct l as [|[| |]]; cbn; auto. destruct (Z.even m); auto.
Qed.

Lemma loc_of_record_of_loc (m : Z) (l : location) :
  loc_of_shr_record (shr_record_of_loc m l) = l /\ shr_m (shr_record_of_loc m l) = m.
Proof. destruct l as [|[| |]]; split; reflexivity. Qed.

(** The first pass of [binary_round_aux]: the mantissa moved to the exponent
    [Z.max e (fexp (digits m + e))]. *)
Lemma shr_fexp_m (m e : Z) (l : location) :
  0 <= m ->
  let f := fexp prec emax (Zdigits2 m + e) in
  let '(mrs, e') := shr_fexp prec emax m e l in
  e' = Z.max e f /\ shr_m mrs = m / 2 ^ (Z.max e f - e) /\
  (f <= e -> loc_of_shr_record mrs = l).
Proof.
  intros Hm f. unfold shr_fexp, shr. fold f.
  destruct (loc_of_record_of_loc m l) as [L M].
  destruct (f - e) as [|p|p] eqn:E.
  - replace (Z.max e f) with e by lia. rewrite Z.sub_diag, Z.pow_0_r, Z.div_1_r. auto.
  - replace (Z.max e f) with (e + Zpos p) by lia.
    replace (e + Zpos p - e) with (Zpos p) by lia.
    split; [reflexivity|]. split; [|intros; lia].
    rewrite iter_shr_1_m by (rewrite M; assumption). now rewrite M.
  - replace (Z.max e f) with e by lia. rewrite Z.sub_diag, Z.pow_0_r, Z.div_1_r. auto.
Qed.

Lemma fexp_eq (x : Z) : fexp prec emax x = Z.max (x - 53) (-1074).
Proof. reflexivity. Qed.

(** [binary_round_aux] keeps the quotient of the mantissa by the power of two
    that brings it to the exponent of the format, or the next integer; an
    exact mantissa that needs no shift is kept. *)
Lemma binary_round_aux_shape (sx : bool) (mx ex : Z) (lx : location) :
  0 <= mx ->
  round_exponent mx ex <= 970 ->
  exists m3 E3 : Z,
    0 <= m3 /\ round_exponent mx ex <= E3 /\
    (m3 * 2 ^ (E3 - round_exponent mx ex) = mx / 2 ^ (round_exponent mx ex - ex) \/
     m3 * 2 ^ (E3 - round_exponent mx ex) = mx / 2 ^ (round_exponent mx ex - ex) + 1) /\
    (lx = loc_Exact -> fexp prec emax (Zdigits2 mx + ex) <= ex ->
     m3 * 2 ^ (E3 - round_exponent mx ex) = mx) /\
    binary_round_aux prec emax sx mx ex lx = SFmake sx m3 E3.
Proof.
  intros Hm. unfold round_exponent.
  set (E := Z.max ex (fexp prec emax (Zdigits2 mx + ex))). intros HE.
  set (Q := mx / 2 ^ (E - ex)).
  assert (P : 0 < 2 ^ (E - ex)) by (apply Z.pow_pos_nonneg; unfold E; lia).
  assert (Q0 : 0 <= Q) by (apply Z.div_pos; lia).
  assert (Q1 : Q < 2 ^ 53).
  { destruct (Z.eq_dec mx 0) as [->|N]; [reflexivity|].
    apply Z.div_lt_upper_bound; [assumption|].
    destruct (Zdigits2_bounds mx ltac:(lia)) as [_ U].
    rewrite <- Z.pow_add_r by (unfold E; lia).
    eapply Z.lt_le_trans; [exact U|]. apply Z.pow_le_mono_r; [lia|].
    unfold E. rewrite fexp_eq. lia. }
  unfold binary_round_aux.
  pose proof (shr_fexp_m mx ex lx Hm) as S1. cbv zeta in S1.
  destruct (shr_fexp prec emax mx ex lx) as [mrs e'].
  destruct S1 as (-> & M1 & L1). fold E in M1 |- *. fold Q in M1.
  set (m2 := round_nearest_even (shr_m mrs) (loc_of_shr_record mrs)).
  assert (C : m2 = Q \/ m2 = Q + 1).
  { unfold m2. rewrite <- M1. apply round_nearest_even_cases. }
  assert (X : lx = loc_Exact -> fexp prec emax (Zdigits2 mx + ex) <= ex -> m2 = mx).
  { intros -> F. unfold m2. rewrite (L1 F). cbn [round_nearest_even]. rewrite M1.
    unfold Q. replace (E - ex) with 0 by (unfold E; lia).
    now rewrite Z.pow_0_r, Z.div_1_r. }
  assert (M2 : 0 <= m2) by lia.
  pose proof (shr_fexp_m m2 E loc_Exact M2) as S2. cbv zeta in S2.
  destruct (shr_fexp prec emax m2 E loc_Exact) as [mrs2 e2].
  destruct S2 as (-> & M3 & _).
  assert (EL : -1074 <= E) by (unfold E; rewrite fexp_eq; lia).
  destruct (Z_lt_le_dec m2 (2 ^ 53)) as [L|G].
  - assert (D : Zdigits2 m2 <= 53) by (apply Zdigits2_le; lia).
    assert (F : Z.max E (fexp prec emax (Zdigits2 m2 + E)) = E)
      by (rewrite fexp_eq; lia).
    rewrite F in *. rewrite Z.sub_diag, Z.pow_0_r, Z.div_1_r in M3.
    exists m2, E. split; [assumption|]. split; [lia|].
    rewrite Z.sub_diag, Z.pow_0_r, Z.mul_1_r.
    split; [assumption|]. split; [assumption|].
    rewrite M3. destruct m2 as [|p|p]; [reflexivity| |lia].
    cbn [SFmake]. replace (E <=? emax - prec) with true; [reflexivity|].
    symmetry. apply Z.leb_le. change (emax - prec) with 971. lia.
  - assert (T : m2 = 2 ^ 53) by lia.
    assert (Q = 2 ^ 53 - 1) by lia.
    clearbody m2. subst m2.
    change (Zdigits2 (2 ^ 53)) with 54 in *.
    assert (F : Z.max E (fexp prec emax (54 + E)) = E + 1)
      by (rewrite fexp_eq; lia).
    rewrite F in *. replace (E + 1 - E) with 1 in * by lia.
    change (2 ^ 53 / 2 ^ 1) with (2 ^ 52) in M3.
    exists (2 ^ 52), (E + 1). split; [lia|]. split; [lia|].
    replace (E + 1 - E) with 1 by lia.
    split; [right; lia|]. split; [intros A B; rewrite <- (X A B); reflexivity|].
    rewrite M3. change (2 ^ 52) with 4503599627370496. cbn [SFmake].
    replace (E + 1 <=? emax - prec) with true; [reflexivity|].
    symmetry. apply Z.leb_le. change (emax - prec) with 971. lia.
Qed.

(** ** The rounding error of the float operations *)

Section RoundingErrors.

Local Open Scope R_scope.

(** *** Powers of two, and the error of one rounding *)

Lemma pow2_pos (e : Z) : 0 < powerRZ 2 e.
Proof. apply powerRZ_lt. lra. Qed.

Lemma pow2_add (a b : Z) : powerRZ 2 (a + b) = powerRZ 2 a * powerRZ 2 b.
Proof. apply powerRZ_add. lra. Qed.

Lemma IZR_pow2 (k : Z) : (0 <= k)%Z -> IZR (2 ^ k) = powerRZ 2 k.
Proof.
  intros H. rewrite <- (Z2Nat.id k H). rewrite <- pow_IZR. now rewrite pow_powerRZ.
Qed.

Lemma pow2_le (a b : Z) : (a <= b)%Z -> powerRZ 2 a <= powerRZ 2 b.
Proof.
  intros H. replace b with (a + (b - a))%Z by lia. rewrite pow2_add.
  rewrite <- (IZR_pow2 (b - a)) by lia.
  assert (1 <= IZR (2 ^ (b - a))).
  { apply IZR_le. assert (0 < 2 ^ (b - a))%Z by (apply Z.pow_pos_nonneg; lia). lia. }
  pose proof (pow2_pos a).
  rewrite <- (Rmult_1_r (powerRZ 2 a)) at 1. apply Rmult_le_compat_l; lra.
Qed.

Lemma pow2_le_inv (a b : Z) : powerRZ 2 a <= powerRZ 2 b -> (a <= b)%Z.
Proof.
  intros H. destruct (Z_le_gt_dec a b) as [|G]; [assumption|]. exfalso.
  assert (L : powerRZ 2 (b + 1) <= powerRZ 2 a) by (apply pow2_le; lia).
  rewrite pow2_add in L. change (powerRZ 2 1) with (2 * 1) in L.
  pose proof (pow2_pos b). lra.
Qed.

Lemma sign_cases (s : bool) : sign s = 1 \/ sign s = -1.
Proof. destruct s; cbn; auto. Qed.

Lemma SF2R_SFmake (s : bool) (m e : Z) :
  (0 <= m)%Z ->
  SFfinite (SFmake s m e) = true /\
  SF2R (SFmake s m e) = sign s * (IZR m * powerRZ 2 e).
Proof.
  destruct m as [|p|p]; intros H; try lia; cbn; split; try reflexivity. ring.
Qed.

Lemma IZR_digits_bounds (m : positive) :
  powerRZ 2 (Zpos (digits2_pos m) - 1) <= IZR (Zpos m) < powerRZ 2 (Zpos (digits2_pos m)).
Proof.
  destruct (digits2_pos_bounds m) as [L U].
  rewrite <- !IZR_pow2 by lia. split; [apply IZR_le|apply IZR_lt]; assumption.
Qed.

(** The error of [binary_round_aux]: the mantissa is exact, or it is the
    integer part of a longer one, cut at the exponent of the format or
    before. *)
Lemma binary_round_aux_error (sx : bool) (mx ex : Z) (lx : location) (v : R) :
  (0 <= mx)%Z ->
  (round_exponent mx ex <= 970)%Z ->
  (lx = loc_Exact /\ v = IZR mx * powerRZ 2 ex) \/
  ((ex <= fexp prec emax (Zdigits2 mx + ex))%Z /\
   IZR mx * powerRZ 2 ex <= v <= IZR (mx + 1) * powerRZ 2 ex) ->
  exists a : R,
    SFfinite (binary_round_aux prec emax sx mx ex lx) = true /\
    SF2R (binary_round_aux prec emax sx mx ex lx) = sign sx * a /\
    Rabs (a - v) <= powerRZ 2 (-52) * v + powerRZ 2 (-1074).
Proof.
  intros Hm HE H.
  destruct (binary_round_aux_shape sx mx ex lx Hm HE) as (m3 & E3 & M3 & EE & C & X & ->).
  destruct (SF2R_SFmake sx m3 E3 M3) as [F V].
  exists (IZR m3 * powerRZ 2 E3). split; [assumption|]. split; [assumption|].
  set (E := round_exponent mx ex) in *.
  set (n := (m3 * 2 ^ (E3 - E))%Z) in *.
  assert (A : IZR m3 * powerRZ 2 E3 = IZR n * powerRZ 2 E).
  { unfold n. rewrite mult_IZR, IZR_pow2 by lia.
    replace E3 with ((E3 - E) + E)%Z at 1 by lia. rewrite pow2_add. ring. }
  rewrite A. clear A V F.
  pose proof (pow2_pos ex) as Pex. pose proof (pow2_pos E) as PE.
  assert (V0 : 0 <= v).
  { assert (0 <= IZR mx) by (apply IZR_le; assumption).
    assert (0 <= IZR mx * powerRZ 2 ex) by (apply Rmult_le_pos; lra).
    destruct H as [[_ ->]|[_ [L _]]]; lra. }
  pose proof (pow2_pos (-52)) as P52. pose proof (pow2_pos (-1074)) as Pmin.
  assert (EV : 0 <= powerRZ 2 (-52) * v) by (apply Rmult_le_pos; lra).
  assert (main : (ex <= fexp prec emax (Zdigits2 mx + ex))%Z ->
                 IZR mx * powerRZ 2 ex <= v <= IZR (mx + 1) * powerRZ 2 ex ->
                 Rabs (IZR n * powerRZ 2 E - v) <= powerRZ 2 (-52) * v + powerRZ 2 (-1074)).
  { intros LE [B1 B2].
    assert (Ef : E = fexp prec emax (Zdigits2 mx + ex))
      by (unfold E, round_exponent; lia).
    set (k := (E - ex)%Z) in *. assert (K : (0 <= k)%Z) by (unfold k; lia).
    set (Q := (mx / 2 ^ k)%Z) in *.
    assert (P : (0 < 2 ^ k)%Z) by (apply Z.pow_pos_nonneg; lia).
    pose proof (Z.mul_div_le mx (2 ^ k) P) as D1.
    pose proof (Z.mul_succ_div_gt mx (2 ^ k) P) as D2. fold Q in D1, D2.
    assert (S : powerRZ 2 E = IZR (2 ^ k) * powerRZ 2 ex).
    { rewrite IZR_pow2 by assumption. rewrite <- pow2_add. f_equal. unfold k. lia. }
    assert (L1 : IZR Q * powerRZ 2 E <= v).
    { rewrite S. rewrite <- Rmult_assoc, <- mult_IZR.
      eapply Rle_trans; [|exact B1]. apply Rmult_le_compat_r; [lra|].
      apply IZR_le. lia. }
    assert (L2 : v <= (IZR Q + 1) * powerRZ 2 E).
    { rewrite S. rewrite <- Rmult_assoc. change 1 with (IZR 1).
      rewrite <- plus_IZR, <- mult_IZR.
      eapply Rle_trans; [exact B2|]. apply Rmult_le_compat_r; [lra|].
      apply IZR_le. lia. }
    assert (W : Rabs (IZR n * powerRZ 2 E - v) <= powerRZ 2 E).
    { apply Rabs_le. destruct C as [-> | ->]; [|rewrite plus_IZR]; lra. }
    eapply Rle_trans; [exact W|]. clear W.
    destruct (Z.eq_dec E (-1074)) as [Em|Em]; [rewrite Em; lra|].
    assert (Ed : E = (Zdigits2 mx + ex - 53)%Z) by (rewrite fexp_eq in Ef; lia).
    destruct mx as [|p|p]; [cbn in Ed; lia| |lia].
    cbn [Zdigits2] in Ed. destruct (IZR_digits_bounds p) as [G _].
    assert (G2 : powerRZ 2 (E + 52) <= v).
    { eapply Rle_trans; [|exact B1].
      replace (E + 52)%Z with ((Zpos (digits2_pos p) - 1) + ex)%Z by lia.
      rewrite pow2_add. apply Rmult_le_compat_r; lra. }
    assert (G3 : powerRZ 2 E = powerRZ 2 (-52) * powerRZ 2 (E + 52)).
    { rewrite <- pow2_add. f_equal. lia. }
    rewrite G3. assert (powerRZ 2 (-52) * powerRZ 2 (E + 52) <= powerRZ 2 (-52) * v)
      by (apply Rmult_le_compat_l; lra). lra. }
  destruct (Z_le_gt_dec (fexp prec emax (Zdigits2 mx + ex)) ex) as [NS|SH].
  - assert (Eex : E = ex) by (unfold E, round_exponent; lia).
    destruct H as [[-> ->]|[LE B]].
    + rewrite (X eq_refl NS), Eex. replace (_ - _) with 0 by ring.
      rewrite Rabs_R0. lra.
    + apply main; assumption.
  - apply main; [lia|]. destruct H as [[_ ->]|[_ B]]; [|assumption].
    split; [lra|]. apply Rmult_le_compat_r; [lra|]. apply IZR_le. lia.
Qed.

(** *** Product, quotient, sum and difference of two representations *)

Lemma valid_finite (s : bool) (m : positive) (e : Z) :
  valid_binary (S754_finite s m e) = true ->
  (-1074 <= e <= 971)%Z /\ (Zpos (digits2_pos m) <= 53)%Z /\
  (e = (-1074)%Z \/ Zpos (digits2_pos m) = 53%Z).
Proof.
  unfold valid_binary. cbn [SpecFloat.valid_binary]. unfold bounded, canonical_mantissa. intros H.
  apply andb_true_iff in H. destruct H as [C B].
  apply Z.eqb_eq in C. apply Z.leb_le in B. rewrite fexp_eq in C.
  change (emax - prec)%Z with 971%Z in B. lia.
Qed.

Lemma sign_xorb (a b : bool) : sign (xorb a b) = sign a * sign b.
Proof. destruct a, b; cbn; ring. Qed.

Lemma Rabs_sign (s : bool) (v : R) : 0 <= v -> Rabs (sign s * v) = v.
Proof.
  intros H. destruct s; cbn.
  - replace (-1 * v) with (- v) by ring. rewrite Rabs_Ropp. now apply Rabs_pos_eq.
  - rewrite Rmult_1_l. now apply Rabs_pos_eq.
Qed.

Lemma round_signed (s : bool) (r a v : R) :
  r = sign s * a -> 0 <= v ->
  Rabs (a - v) <= powerRZ 2 (-52) * v + powerRZ 2 (-1074) ->
  Rabs (r - sign s * v) <= powerRZ 2 (-52) * Rabs (sign s * v) + powerRZ 2 (-1074).
Proof.
  intros -> V H. rewrite (Rabs_sign s v V).
  replace (sign s * a - sign s * v) with (sign s * (a - v)) by ring.
  rewrite Rabs_mult. destruct (sign_cases s) as [-> | ->].
  - rewrite Rabs_R1. lra.
  - replace (-1) with (- (1)) by ring. rewrite Rabs_Ropp, Rabs_R1. lra.
Qed.

Lemma finite_value_pos (m : positive) (e : Z) : 0 < IZR (Zpos m) * powerRZ 2 e.
Proof.
  apply Rmult_lt_0_compat; [apply IZR_lt; lia|apply pow2_pos].
Qed.

(** From a bound on the value of a mantissa and an exponent to a bound on
    their sizes. *)
Lemma digits_of_bound (m : positive) (e k : Z) :
  IZR (Zpos m) * powerRZ 2 e <= powerRZ 2 k ->
  (Zpos (digits2_pos m) + e <= k + 1)%Z.
Proof.
  intros H. destruct (IZR_digits_bounds m) as [L _].
  assert (powerRZ 2 (Zpos (digits2_pos m) - 1 + e) <= powerRZ 2 k).
  { rewrite pow2_add. eapply Rle_trans; [|exact H].
    apply Rmult_le_compat_r; [pose proof (pow2_pos e); lra|assumption]. }
  apply pow2_le_inv in H0. lia.
Qed.

Lemma SFmul_error (x y : spec_float) :
  valid_binary x = true -> valid_binary y = true ->
  SFfinite x = true -> SFfinite y = true ->
  Rabs (SF2R x * SF2R y) <= powerRZ 2 1000 ->
  SFfinite (SFmul prec emax x y) = true /\
  Rabs (SF2R (SFmul prec emax x y) - SF2R x * SF2R y)
  <= powerRZ 2 (-52) * Rabs (SF2R x * SF2R y) + powerRZ 2 (-1074) /\
  (SF2R x * SF2R y = 0 -> SF2R (SFmul prec emax x y) = 0).
Proof.
  intros Vx Vy Fx Fy B.
  pose proof (pow2_pos (-52)) as P52. pose proof (pow2_pos (-1074)) as Pmin.
  destruct x as [sx|sx| |sx mx ex]; try discriminate;
    destruct y as [sy|sy| |sy my ey]; try discriminate; cbn [SFmul SF2R SFfinite];
    try (rewrite ?Rmult_0_l, ?Rmult_0_r, ?Rminus_0_r, ?Rabs_R0;
         split; [reflexivity|]; split; [lra|reflexivity]).
  cbn [SF2R] in B.
  destruct (valid_finite _ _ _ Vx) as (Ex & Dx & Cx).
  destruct (valid_finite _ _ _ Vy) as (Ey & Dy & Cy).
  set (v := IZR (Zpos (mx * my)) * powerRZ 2 (ex + ey)).
  assert (Ev : sign sx * (IZR (Zpos mx) * powerRZ 2 ex)
               * (sign sy * (IZR (Zpos my) * powerRZ 2 ey))
               = sign (xorb sx sy) * v).
  { unfold v. rewrite sign_xorb, Pos2Z.inj_mul, mult_IZR, pow2_add. ring. }
  rewrite Ev in *.
  assert (V0 : 0 < v) by apply finite_value_pos.
  rewrite Rabs_sign in B by lra.
  pose proof (digits_of_bound _ _ _ B) as DB.
  assert (HE : (round_exponent (Zpos (mx * my)) (ex + ey) <= 970)%Z).
  { unfold round_exponent. rewrite fexp_eq. cbn [Zdigits2].
    assert ((ex + ey <= 970)%Z); [|lia].
    destruct Cx as [Cx|Cx]; [lia|]. destruct Cy as [Cy|Cy]; [lia|].
    destruct (digits2_pos_bounds mx) as [Lx _]. destruct (digits2_pos_bounds my) as [Ly _].
    rewrite Cx in Lx. rewrite Cy in Ly.
    assert (105 <= Zdigits2 (Zpos (mx * my)))%Z.
    { apply (Zdigits2_ge _ 104); [lia|]. rewrite Pos2Z.inj_mul.
      change (2 ^ 104)%Z with (2 ^ 52 * 2 ^ 52)%Z.
      apply Z.mul_le_mono_nonneg; lia. }
    cbn [Zdigits2] in H. lia. }
  destruct (binary_round_aux_error (xorb sx sy) (Zpos (mx * my)) (ex + ey) loc_Exact v
              ltac:(lia) HE (or_introl (conj eq_refl eq_refl))) as (a & F & V & A).
  split; [assumption|]. split.
  - apply (round_signed _ _ a); [assumption|lra|assumption].
  - intros N0. destruct (sign_cases (xorb sx sy)) as [S|S]; rewrite S in N0; lra.
Qed.

Lemma div_lower (a b c : R) : 0 < c -> a * c <= b -> a <= b / c.
Proof.
  intros C H. assert (0 < / c) by now apply Rinv_0_lt_compat.
  replace a with (a * c * / c) by (field; lra). unfold Rdiv.
  apply Rmult_le_compat_r; lra.
Qed.

Lemma div_upper (a b c : R) : 0 < c -> b <= a * c -> b / c <= a.
Proof.
  intros C H. assert (0 < / c) by now apply Rinv_0_lt_compat.
  replace a with (a * c * / c) by (field; lra). unfold Rdiv.
  apply Rmult_le_compat_r; lra.
Qed.

(** The quotient of [SFdiv_core_binary]: the integer part of the exact
    quotient at an exponent that leaves it 53 bits or more, unless the
    exponent is already the least one. *)
Lemma SFdiv_core_binary_spec (m1 m2 : positive) (e1 e2 : Z) :
  exists (q e' : Z) (l : location),
    SFdiv_core_binary prec emax (Zpos m1) e1 (Zpos m2) e2 = (q, e', l) /\
    (0 <= q)%Z /\
    (e' <= fexp prec emax (Zdigits2 q + e'))%Z /\
    IZR q * powerRZ 2 e'
    <= (IZR (Zpos m1) * powerRZ 2 e1) / (IZR (Zpos m2) * powerRZ 2 e2)
    <= IZR (q + 1) * powerRZ 2 e'.
Proof.
  unfold SFdiv_core_binary.
  set (d1 := Zdigits2 (Zpos m1)). set (d2 := Zdigits2 (Zpos m2)).
  set (e' := Z.min (fexp prec emax (d1 + e1 - (d2 + e2))) (e1 - e2)).
  set (s := (e1 - e2 - e')%Z).
  assert (S0 : (0 <= s)%Z) by (unfold s, e'; lia).
  set (m' := match s with
             | 0%Z => Zpos m1
             | Zpos _ => Z.shiftl (Zpos m1) s
             | Zneg _ => 0%Z
             end).
  assert (M' : m' = (Zpos m1 * 2 ^ s)%Z).
  { unfold m'. destruct s as [|p|p] eqn:Es; [cbn; lia| |lia].
    apply Z.shiftl_mul_pow2. lia. }
  pose proof (Z_div_mod m' (Zpos m2) ltac:(lia)) as DM.
  destruct (Z.div_eucl m' (Zpos m2)) as [q r]. destruct DM as [DM R].
  exists q, e', (new_location (Zpos m2) r). split; [reflexivity|].
  assert (P : (0 < 2 ^ s)%Z) by (apply Z.pow_pos_nonneg; lia).
  assert (M0 : (0 < m')%Z) by (rewrite M'; lia).
  assert (Q0 : (0 <= q)%Z) by nia.
  split; [assumption|].
  destruct (digits2_pos_bounds m1) as [L1 U1]. destruct (digits2_pos_bounds m2) as [L2 U2].
  fold (Zdigits2 (Zpos m1)) in L1, U1. fold (Zdigits2 (Zpos m2)) in L2, U2.
  fold d1 in L1, U1. fold d2 in L2, U2.
  assert (D1 : (1 <= d1)%Z) by (unfold d1; cbn; lia).
  assert (D2 : (1 <= d2)%Z) by (unfold d2; cbn; lia).
  split.
  - assert (DQ : (d1 + s - d2 <= Zdigits2 q)%Z).
    { pose proof (Zdigits2_nonneg q).
      destruct (Z_le_gt_dec (d1 + s - d2) 0) as [|G]; [lia|].
      assert (d1 + s - d2 - 1 + 1 <= Zdigits2 q)%Z; [|lia].
      apply Zdigits2_ge; [lia|].
      assert (T : (2 ^ (d1 + s - d2 - 1) * 2 ^ d2 = 2 ^ (d1 - 1) * 2 ^ s)%Z).
      { rewrite <- !Z.pow_add_r by lia. f_equal. lia. }
      assert (A : (0 < 2 ^ (d1 + s - d2 - 1))%Z) by (apply Z.pow_pos_nonneg; lia).
      assert (B : (2 ^ (d1 + s - d2 - 1) * Zpos m2 < m')%Z).
      { rewrite M'. eapply Z.lt_le_trans.
        - apply Z.mul_lt_mono_pos_l; [exact A|exact U2].
        - rewrite T. apply Z.mul_le_mono_nonneg_r; lia. }
      destruct (Z_le_gt_dec (2 ^ (d1 + s - d2 - 1)) q) as [|C]; [assumption|].
      exfalso. assert ((q + 1) * Zpos m2 <= 2 ^ (d1 + s - d2 - 1) * Zpos m2)%Z
        by (apply Z.mul_le_mono_nonneg_r; lia). lia. }
    unfold e' at 1. rewrite !fexp_eq. unfold s in DQ. lia.
  - assert (N2 : 0 < IZR (Zpos m2) * powerRZ 2 e2) by apply finite_value_pos.
    assert (E1 : powerRZ 2 e1 = powerRZ 2 s * powerRZ 2 e' * powerRZ 2 e2).
    { rewrite <- !pow2_add. f_equal. unfold s. lia. }
    assert (M'' : IZR (Zpos m1) * powerRZ 2 s = IZR (Zpos m2) * IZR q + IZR r).
    { rewrite <- IZR_pow2, <- !mult_IZR, <- plus_IZR by assumption. f_equal. lia. }
    pose proof (pow2_pos e') as Pe. pose proof (pow2_pos e2) as Pe2.
    assert (R1 : 0 <= IZR r) by (apply IZR_le; lia).
    assert (R2 : IZR r <= IZR (Zpos m2)) by (apply IZR_le; lia).
    assert (PP : 0 < powerRZ 2 e' * powerRZ 2 e2) by (apply Rmult_lt_0_compat; lra).
    assert (EQ : IZR (Zpos m1) * powerRZ 2 e1
                 = (IZR (Zpos m2) * IZR q + IZR r) * (powerRZ 2 e' * powerRZ 2 e2)).
    { rewrite <- M'', E1. ring. }
    rewrite EQ. split.
    + apply div_lower; [assumption|].
      replace (IZR q * powerRZ 2 e' * (IZR (Zpos m2) * powerRZ 2 e2))
        with ((IZR (Zpos m2) * IZR q) * (powerRZ 2 e' * powerRZ 2 e2)) by ring.
      apply Rmult_le_compat_r; lra.
    + apply div_upper; [assumption|]. rewrite plus_IZR.
      replace ((IZR q + 1) * powerRZ 2 e' * (IZR (Zpos m2) * powerRZ 2 e2))
        with ((IZR (Zpos m2) * IZR q + IZR (Zpos m2)) * (powerRZ 2 e' * powerRZ 2 e2)) by ring.
      apply Rmult_le_compat_r; lra.
Qed.

Lemma sign_div (a b : bool) (u w : R) :
  w <> 0 -> (sign a * u) / (sign b * w) = sign (xorb a b) * (u / w).
Proof. intros W. destruct a, b; cbn; field; assumption. Qed.

Lemma SFdiv_error (x y : spec_float) :
  valid_binary x = true -> valid_binary y = true ->
  SFfinite x = true -> SFfinite y = true -> SF2R y <> 0 ->
  Rabs (SF2R x / SF2R y) <= powerRZ 2 1000 ->
  SFfinite (SFdiv prec emax x y) = true /\
  Rabs (SF2R (SFdiv prec emax x y) - SF2R x / SF2R y)
  <= powerRZ 2 (-52) * Rabs (SF2R x / SF2R y) + powerRZ 2 (-1074) /\
  (SF2R x / SF2R y = 0 -> SF2R (SFdiv prec emax x y) = 0).
Proof.
  intros Vx Vy Fx Fy N B.
  pose proof (pow2_pos (-52)) as P52. pose proof (pow2_pos (-1074)) as Pmin.
  destruct y as [sy|sy| |sy my ey]; try discriminate; [now contradiction N|].
  destruct x as [sx|sx| |sx mx ex]; try discriminate; cbn [SFdiv].
  { cbn [SF2R SFfinite]. unfold Rdiv. rewrite Rmult_0_l, Rminus_0_r, Rabs_R0.
    split; [reflexivity|]. split; [lra|reflexivity]. }
  cbn [SF2R] in *.
  pose proof (finite_value_pos my ey) as Py. pose proof (finite_value_pos mx ex) as Px.
  rewrite sign_div in * by lra.
  set (v := IZR (Zpos mx) * powerRZ 2 ex / (IZR (Zpos my) * powerRZ 2 ey)) in *.
  assert (V0 : 0 < v) by (apply Rdiv_lt_0_compat; assumption).
  rewrite Rabs_sign in B by lra.
  destruct (SFdiv_core_binary_spec mx my ex ey) as (q & e' & l & -> & Q0 & LE & B1 & B2).
  fold v in B1, B2.
  assert (HE : (round_exponent q e' <= 970)%Z).
  { unfold round_exponent. destruct q as [|p|p]; [|  |lia].
    - cbn [Zdigits2] in *. rewrite fexp_eq in *. lia.
    - assert (IZR (Zpos p) * powerRZ 2 e' <= powerRZ 2 1000) by lra.
      pose proof (digits_of_bound _ _ _ H). cbn [Zdigits2] in *.
      rewrite fexp_eq in *. lia. }
  destruct (binary_round_aux_error (xorb sx sy) q e' l v Q0 HE
              (or_intror (conj LE (conj B1 B2)))) as (a & F & V & A).
  split; [assumption|]. split.
  - apply (round_signed _ _ a); [assumption|lra|assumption].
  - intros N0. destruct (sign_cases (xorb sx sy)) as [S|S]; rewrite S in N0; lra.
Qed.

Lemma iter_xO (m d : positive) : Zpos (Pos.iter xO m d) = (Zpos m * 2 ^ Zpos d)%Z.
Proof.
  induction d as [|d IH] using Pos.peano_ind.
  - cbn. lia.
  - rewrite Pos.iter_succ, Pos2Z.inj_xO, IH, Pos2Z.inj_succ, Z.pow_succ_r by lia. ring.
Qed.

(** [shl_align] lowers the exponent and keeps the value. *)
Lemma shl_align_spec (mx : positive) (ex ex' : Z) :
  snd (shl_align mx ex ex') = Z.min ex ex' /\
  IZR (Zpos (fst (shl_align mx ex ex'))) * powerRZ 2 (snd (shl_align mx ex ex'))
  = IZR (Zpos mx) * powerRZ 2 ex.
Proof.
  unfold shl_align. destruct (ex' - ex)%Z as [|d|d] eqn:E; cbn [fst snd].
  - split; [lia|reflexivity].
  - split; [lia|reflexivity].
  - split; [lia|]. rewrite iter_xO, mult_IZR, IZR_pow2 by lia.
    rewrite Rmult_assoc, <- pow2_add. do 2 f_equal. lia.
Qed.

Lemma binary_round_error (sx : bool) (mx : positive) (ex : Z) :
  IZR (Zpos mx) * powerRZ 2 ex <= powerRZ 2 1000 ->
  exists a : R,
    SFfinite (binary_round prec emax sx mx ex) = true /\
    SF2R (binary_round prec emax sx mx ex) = sign sx * a /\
    Rabs (a - IZR (Zpos mx) * powerRZ 2 ex)
    <= powerRZ 2 (-52) * (IZR (Zpos mx) * powerRZ 2 ex) + powerRZ 2 (-1074).
Proof.
  intros B. unfold binary_round.
  destruct (shl_align_spec mx ex (fexp prec emax (Zpos (digits2_pos mx) + ex))) as [E V].
  destruct (shl_align mx ex (fexp prec emax (Zpos (digits2_pos mx) + ex))) as [mz ez].
  cbn [fst snd] in E, V. rewrite <- V in B |- *.
  pose proof (digits_of_bound _ _ _ B) as D1.
  rewrite V in B. pose proof (digits_of_bound _ _ _ B) as D2.
  apply binary_round_aux_error; [lia| |left; split; reflexivity].
  unfold round_exponent. cbn [Zdigits2]. rewrite fexp_eq in *. lia.
Qed.

Lemma binary_normalize_error (m e : Z) :
  Rabs (IZR m * powerRZ 2 e) <= powerRZ 2 1000 ->
  SFfinite (binary_normalize prec emax m e false) = true /\
  Rabs (SF2R (binary_normalize prec emax m e false) - IZR m * powerRZ 2 e)
  <= powerRZ 2 (-52) * Rabs (IZR m * powerRZ 2 e) + powerRZ 2 (-1074).
Proof.
  intros B.
  pose proof (pow2_pos (-52)) as P52. pose proof (pow2_pos (-1074)) as Pmin.
  destruct m as [|p|p]; cbn [binary_normalize].
  - cbn [SF2R SFfinite]. rewrite Rmult_0_l, Rminus_0_r, Rabs_R0. split; [reflexivity|lra].
  - pose proof (finite_value_pos p e) as V0.
    replace (IZR (Zpos p) * powerRZ 2 e) with (sign false * (IZR (Zpos p) * powerRZ 2 e)) in B |- *
      by (cbn; ring).
    rewrite Rabs_sign in B by lra.
    destruct (binary_round_error false p e B) as (a & F & V & A).
    split; [assumption|]. apply (round_signed _ _ a); [assumption|lra|assumption].
  - pose proof (finite_value_pos p e) as V0.
    replace (IZR (Zneg p) * powerRZ 2 e) with (sign true * (IZR (Zpos p) * powerRZ 2 e)) in B |- *
      by (change (Zneg p) with (- Zpos p)%Z; rewrite opp_IZR; cbn; ring).
    rewrite Rabs_sign in B by lra.
    destruct (binary_round_error true p e B) as (a & F & V & A).
    split; [assumption|]. apply (round_signed _ _ a); [assumption|lra|assumption].
Qed.

Lemma IZR_cond_Zopp (s : bool) (z : Z) : IZR (cond_Zopp s z) = sign s * IZR z.
Proof. destruct s; cbn [cond_Zopp sign]; [rewrite opp_IZR|]; ring. Qed.

(** The two mantissas of a sum, at the lesser exponent. *)
Lemma aligned_value (s : bool) (m : positive) (e e' : Z) :
  (e' <= e)%Z ->
  IZR (cond_Zopp s (Zpos (fst (shl_align m e e')))) * powerRZ 2 e'
  = sign s * (IZR (Zpos m) * powerRZ 2 e).
Proof.
  intros H. destruct (shl_align_spec m e e') as [E V].
  rewrite IZR_cond_Zopp, Rmult_assoc. f_equal. rewrite <- V. do 2 f_equal. lia.
Qed.

Lemma SFadd_error (x y : spec_float) :
  SFfinite x = true -> SFfinite y = true ->
  Rabs (SF2R x + SF2R y) <= powerRZ 2 1000 ->
  SFfinite (SFadd prec emax x y) = true /\
  Rabs (SF2R (SFadd prec emax x y) - (SF2R x + SF2R y))
  <= powerRZ 2 (-52) * Rabs (SF2R x + SF2R y) + powerRZ 2 (-1074).
Proof.
  intros Fx Fy B.
  pose proof (pow2_pos (-52)) as P52. pose proof (pow2_pos (-1074)) as Pmin.
  assert (same : forall r r', r = r' ->
            Rabs (r - r') <= powerRZ 2 (-52) * Rabs r' + powerRZ 2 (-1074)).
  { intros r r' ->. replace (r' - r') with 0 by ring. rewrite Rabs_R0.
    pose proof (Rabs_pos r').
    assert (0 <= powerRZ 2 (-52) * Rabs r') by (apply Rmult_le_pos; lra). lra. }
  destruct x as [sx|sx| |sx mx ex]; try discriminate;
    destruct y as [sy|sy| |sy my ey]; try discriminate; cbn [SFadd].
  - split; [now destruct sx, sy|]. apply same. destruct sx, sy; cbn; ring.
  - split; [reflexivity|]. apply same. cbn [SF2R]. ring.
  - split; [reflexivity|]. apply same. cbn [SF2R]. ring.
  - cbv zeta. cbn [SF2R] in *.
    rewrite <- (aligned_value sx mx ex (Z.min ex ey)) in * by lia.
    rewrite <- (aligned_value sy my ey (Z.min ex ey)) in * by lia.
    rewrite <- Rmult_plus_distr_r, <- plus_IZR in *.
    now apply binary_normalize_error.
Qed.

Lemma SFsub_error (x y : spec_float) :
  SFfinite x = true -> SFfinite y = true ->
  Rabs (SF2R x - SF2R y) <= powerRZ 2 1000 ->
  SFfinite (SFsub prec emax x y) = true /\
  Rabs (SF2R (SFsub prec emax x y) - (SF2R x - SF2R y))
  <= powerRZ 2 (-52) * Rabs (SF2R x - SF2R y) + powerRZ 2 (-1074).
Proof.
  intros Fx Fy B.
  pose proof (pow2_pos (-52)) as P52. pose proof (pow2_pos (-1074)) as Pmin.
  assert (same : forall r r', r = r' ->
            Rabs (r - r') <= powerRZ 2 (-52) * Rabs r' + powerRZ 2 (-1074)).
  { intros r r' ->. replace (r' - r') with 0 by ring. rewrite Rabs_R0.
    pose proof (Rabs_pos r').
    assert (0 <= powerRZ 2 (-52) * Rabs r') by (apply Rmult_le_pos; lra). lra. }
  destruct x as [sx|sx| |sx mx ex]; try discriminate;
    destruct y as [sy|sy| |sy my ey]; try discriminate; cbn [SFsub].
  - split; [now destruct sx, sy|]. apply same. destruct sx, sy; cbn; ring.
  - split; [reflexivity|]. apply same. cbn [SF2R]. destruct sy; cbn; ring.
  - split; [reflexivity|]. apply same. cbn [SF2R]. ring.
  - cbv zeta. cbn [SF2R] in *.
    rewrite <- (aligned_value sx mx ex (Z.min ex ey)) in * by lia.
    rewrite <- (aligned_value sy my ey (Z.min ex ey)) in * by lia.
    rewrite <- Rmult_minus_distr_r, <- minus_IZR in *.
    now apply binary_normalize_error.
Qed.

(** *** The four operations of the floats, with decimal bounds *)

(** The unit roundoff and the least positive number, and what is far from
    overflow, in decimal. *)
Lemma pow10 (n : nat) : 10 ^ n = IZR (10 ^ Z.of_nat n).
Proof. now rewrite <- pow_IZR. Qed.

Lemma unit_roundoff : powerRZ 2 (-52) <= 1 / 10 ^ 15.
Proof.
  change (-52)%Z with (- (52))%Z. rewrite powerRZ_neg', <- IZR_pow2 by lia.
  rewrite (pow10 15).
  unfold Rdiv. rewrite Rmult_1_l. apply Rinv_le_contravar.
  - apply IZR_lt. vm_compute. reflexivity.
  - apply IZR_le. vm_compute. discriminate.
Qed.

Lemma least_positive : powerRZ 2 (-1074) <= 1 / 10 ^ 200.
Proof.
  change (-1074)%Z with (- (1074))%Z. rewrite powerRZ_neg', <- IZR_pow2 by lia.
  rewrite (pow10 200).
  unfold Rdiv. rewrite Rmult_1_l. apply Rinv_le_contravar.
  - apply IZR_lt. vm_compute. reflexivity.
  - apply IZR_le. vm_compute. discriminate.
Qed.

Lemma far_from_overflow : 10 ^ 100 <= powerRZ 2 1000.
Proof.
  rewrite <- IZR_pow2 by lia.
  rewrite (pow10 100).
  apply IZR_le. vm_compute. discriminate.
Qed.

Lemma decimal_error (r v : R) :
  Rabs (r - v) <= powerRZ 2 (-52) * Rabs v + powerRZ 2 (-1074) ->
  Rabs (r - v) <= 1 / 10 ^ 15 * Rabs v + 1 / 10 ^ 200.
Proof.
  intros H. pose proof (Rabs_pos v) as P.
  pose proof (Rmult_le_compat_r _ _ _ P unit_roundoff).
  pose proof least_positive. lra.
Qed.

Lemma is_finite_SFfinite (x : float) : PyFloat.is_finite x = SFfinite (Prim2SF x).
Proof. reflexivity. Qed.

Section Operations.

Variables x y : float.
Hypothesis Fx : PyFloat.is_finite x = true.
Hypothesis Fy : PyFloat.is_finite y = true.

Lemma mul_error :
  Rabs (value x * value y) <= 10 ^ 100 ->
  PyFloat.is_finite (x * y) = true /\
  Rabs (value (x * y) - value x * value y)
  <= 1 / 10 ^ 15 * Rabs (value x * value y) + 1 / 10 ^ 200 /\
  (value x * value y = 0 -> value (x * y) = 0).
Proof.
  intros B. rewrite is_finite_SFfinite in *. unfold value in *. rewrite mul_spec.
  destruct (SFmul_error (Prim2SF x) (Prim2SF y) (Prim2SF_valid x) (Prim2SF_valid y) Fx Fy)
    as (F & E & N0); [pose proof far_from_overflow; lra|].
  split; [exact F|]. split; [now apply decimal_error|exact N0].
Qed.

Lemma div_error :
  value y <> 0 ->
  Rabs (value x / value y) <= 10 ^ 100 ->
  PyFloat.is_finite (x / y) = true /\
  Rabs (value (x / y) - value x / value y)
  <= 1 / 10 ^ 15 * Rabs (value x / value y) + 1 / 10 ^ 200 /\
  (value x / value y = 0 -> value (x / y) = 0).
Proof.
  intros N B. rewrite is_finite_SFfinite in *. unfold value in *. rewrite div_spec.
  destruct (SFdiv_error (Prim2SF x) (Prim2SF y) (Prim2SF_valid x) (Prim2SF_valid y) Fx Fy N)
    as (F & E & N0); [pose proof far_from_overflow; lra|].
  split; [exact F|]. split; [now apply decimal_error|exact N0].
Qed.

Lemma add_error :
  Rabs (value x + value y) <= 10 ^ 100 ->
  PyFloat.is_finite (x + y) = true /\
  Rabs (value (x + y) - (value x + value y))
  <= 1 / 10 ^ 15 * Rabs (value x + value y) + 1 / 10 ^ 200.
Proof.
  intros B. rewrite is_finite_SFfinite in *. unfold value in *. rewrite add_spec.
  destruct (SFadd_error (Prim2SF x) (Prim2SF y) Fx Fy)
    as (F & E); [pose proof far_from_overflow; lra|].
  split; [exact F|]. now apply decimal_error.
Qed.

Lemma sub_error :
  Rabs (value x - value y) <= 10 ^ 100 ->
  PyFloat.is_finite (x - y) = true /\
  Rabs (value (x - y) - (value x - value y))
  <= 1 / 10 ^ 15 * Rabs (value x - value y) + 1 / 10 ^ 200.
Proof.
  intros B. rewrite is_finite_SFfinite in *. unfold value in *. rewrite sub_spec.
  destruct (SFsub_error (Prim2SF x) (Prim2SF y) Fx Fy)
    as (F & E); [pose proof far_from_overflow; lra|].
  split; [exact F|]. now apply decimal_error.
Qed.

End Operations.

Lemma value_9 : PyFloat.is_finite 9 = true /\ value 9 = 9.
Proof.
  split; [reflexivity|]. unfold value.
  change (Prim2SF 9) with (S754_finite false 5066549580791808 (-49)).
  cbn [SF2R sign]. change (-49)%Z with (- (49))%Z.
  rewrite powerRZ_neg', <- IZR_pow2 by lia.
  change (2 ^ 49)%Z with 562949953421312%Z. lra.
Qed.

Lemma value_5 : PyFloat.is_finite 5 = true /\ value 5 = 5.
Proof.
  split; [reflexivity|]. unfold value.
  change (Prim2SF 5) with (S754_finite false 5629499534213120 (-50)).
  cbn [SF2R sign]. change (-50)%Z with (- (50))%Z.
  rewrite powerRZ_neg', <- IZR_pow2 by lia.
  change (2 ^ 50)%Z with 1125899906842624%Z. lra.
Qed.

Lemma value_32 : PyFloat.is_finite 32 = true /\ value 32 = 32.
Proof.
  split; [reflexivity|]. unfold value.
  change (Prim2SF 32) with (S754_finite false 4503599627370496 (-47)).
  cbn [SF2R sign]. change (-47)%Z with (- (47))%Z.
  rewrite powerRZ_neg', <- IZR_pow2 by lia.
  change (2 ^ 47)%Z with 140737488355328%Z. lra.
Qed.

(** *** There and back: scale factors, and the temperature scales *)

Lemma Rabs_interval (a b : R) : Rabs a <= b -> - b <= a <= b.
Proof. unfold Rabs. destruct (Rcase_abs a); lra. Qed.

(** Undoing a scaling: the error of the product, seen from the factor. *)
Lemma scale_back (X K K' Y : R) :
  K * K' = 1 -> Rabs K' <= 10 ^ 31 ->
  Rabs (Y - X * K) <= 1 / 10 ^ 15 * Rabs (X * K) + 1 / 10 ^ 200 ->
  Rabs (Y * K' - X) <= 1 / 10 ^ 15 * Rabs X + 1 / 10 ^ 200 * 10 ^ 31.
Proof.
  intros I B H.
  replace (Y * K' - X) with ((Y - X * K) * K') by (rewrite <- (Rmult_1_r X) at 2; rewrite <- I; ring).
  rewrite Rabs_mult in *.
  assert (I' : Rabs K * Rabs K' = 1) by (rewrite <- Rabs_mult, I; apply Rabs_R1).
  pose proof (Rabs_pos K') as P. pose proof (Rabs_pos X) as PX.
  pose proof (Rmult_le_compat_r _ _ _ P H) as H'.
  replace ((1 / 10 ^ 15 * (Rabs X * Rabs K) + 1 / 10 ^ 200) * Rabs K')
    with (1 / 10 ^ 15 * Rabs X * (Rabs K * Rabs K') + 1 / 10 ^ 200 * Rabs K') in H' by ring.
  rewrite I' in H'. lra.
Qed.

Lemma product_bound (a b : R) : Rabs a <= 10 ^ 31 -> Rabs b <= 10 ^ 31 -> Rabs (a * b) <= 10 ^ 62.
Proof.
  intros A B. rewrite Rabs_mult.
  pose proof (Rmult_le_compat _ _ _ _ (Rabs_pos a) (Rabs_pos b) A B). lra.
Qed.

Section Linear.

Variables x c : float.
Hypothesis Fx : PyFloat.is_finite x = true.
Hypothesis Fc : PyFloat.is_finite c = true.
Hypothesis X0 : value x = 0 \/ 1 / 10 ^ 31 <= Rabs (value x).
Hypothesis X1 : Rabs (value x) <= 10 ^ 31.
Hypothesis C0 : 1 / 10 ^ 31 <= Rabs (value c).
Hypothesis C1 : Rabs (value c) <= 10 ^ 31.

Lemma factor_nonzero : value c <> 0.
Proof. intros E. rewrite E, Rabs_R0 in C0. lra. Qed.

Lemma factor_inverse : Rabs (/ value c) <= 10 ^ 31.
Proof.
  rewrite Rabs_inv. replace (10 ^ 31) with (/ (1 / 10 ^ 31)) by (field; lra).
  apply Rinv_le_contravar; lra.
Qed.

Lemma multiply_then_divide :
  PyFloat.is_finite (x * c / c) = true /\
  Rabs (value (x * c / c) - value x) <= 1 / 10 ^ 13 * Rabs (value x).
Proof.
  pose proof factor_nonzero as N. pose proof factor_inverse as I.
  pose proof (Rabs_pos (value x)) as PX.
  destruct (mul_error x c Fx Fc) as (F1 & E1 & Z1).
  { pose proof (product_bound _ _ X1 C1). lra. }
  destruct X0 as [N0|L].
  - assert (V1 : value (x * c) = 0) by (apply Z1; rewrite N0; ring).
    destruct (div_error (x * c) c F1 Fc N) as (F2 & _ & Z2).
    { rewrite V1. unfold Rdiv. rewrite Rmult_0_l, Rabs_R0. lra. }
    split; [exact F2|]. rewrite Z2 by (rewrite V1; unfold Rdiv; ring).
    rewrite N0, Rminus_0_r, Rabs_R0. lra.
  - pose proof (scale_back _ _ (/ value c) _ (Rinv_r _ N) I E1) as W.
    fold (Rdiv (value (x * c)) (value c)) in W.
    pose proof (Rabs_interval _ _ W) as W'.
    pose proof (Rabs_interval _ _ (Rle_refl (Rabs (value x)))) as X'.
    assert (M : Rabs (value (x * c) / value c) <= 2 * Rabs (value x))
      by (apply Rabs_le; lra).
    destruct (div_error (x * c) c F1 Fc N) as (F2 & E2 & _); [lra|].
    split; [exact F2|]. apply Rabs_interval in E2. apply Rabs_le. lra.
Qed.

Lemma divide_then_multiply :
  PyFloat.is_finite (x / c * c) = true /\
  Rabs (value (x / c * c) - value x) <= 1 / 10 ^ 13 * Rabs (value x).
Proof.
  pose proof factor_nonzero as N. pose proof factor_inverse as I.
  pose proof (Rabs_pos (value x)) as PX.
  destruct (div_error x c Fx Fc N) as (F1 & E1 & Z1).
  { pose proof (product_bound _ _ X1 I). unfold Rdiv. lra. }
  destruct X0 as [N0|L].
  - assert (V1 : value (x / c) = 0) by (apply Z1; rewrite N0; unfold Rdiv; ring).
    destruct (mul_error (x / c) c F1 Fc) as (F2 & _ & Z2).
    { rewrite V1, Rmult_0_l, Rabs_R0. lra. }
    split; [exact F2|]. rewrite Z2 by (rewrite V1; ring).
    rewrite N0, Rminus_0_r, Rabs_R0. lra.
  - unfold Rdiv in E1.
    pose proof (scale_back _ _ (value c) _ (Rinv_l _ N) C1 E1) as W.
    pose proof (Rabs_interval _ _ W) as W'.
    pose proof (Rabs_interval _ _ (Rle_refl (Rabs (value x)))) as X'.
    assert (M : Rabs (value (x / c) * value c) <= 2 * Rabs (value x))
      by (apply Rabs_le; lra).
    destruct (mul_error (x / c) c F1 Fc) as (F2 & E2 & _); [lra|].
    split; [exact F2|]. apply Rabs_interval in E2. apply Rabs_le. lra.
Qed.

End Linear.

Section Affine.

Variable x : float.
Hypothesis Fx : PyFloat.is_finite x = true.
Hypothesis X1 : Rabs (value x) <= 10 ^ 31.

Lemma Celsius_there_and_back :
  PyFloat.is_finite ((x * 9 / 5 + 32 - 32) * 5 / 9) = true /\
  Rabs (value ((x * 9 / 5 + 32 - 32) * 5 / 9) - value x)
  <= 1 / 10 ^ 13 * (Rabs (value x) + 32).
Proof.
  destruct value_9 as [F9 V9]. destruct value_5 as [F5 V5]. destruct value_32 as [F32 V32].
  pose proof (Rabs_pos (value x)) as PX.
  pose proof (Rabs_interval _ _ (Rle_refl (Rabs (value x)))) as X'.
  set (A := Rabs (value x)) in *.
  (* x * 9 *)
  destruct (mul_error x 9 Fx F9) as (F1 & E1 & _); rewrite ?V9.
  { apply Rabs_le. lra. }
  rewrite V9 in E1.
  assert (M1 : Rabs (value x * 9) <= 9 * A) by (apply Rabs_le; lra).
  apply Rabs_interval in E1. set (t1 := (x * 9)%float) in *.
  assert (B1 : Rabs (value t1 - 9 * value x) <= 1 / 10 ^ 14 * (A + 32))
    by (apply Rabs_le; lra).
  clear E1 M1. apply Rabs_interval in B1.
  (* / 5 *)
  destruct (div_error t1 5 F1 F5) as (F2 & E2 & _); rewrite ?V5; [lra| |].
  { apply Rabs_le. lra. }
  rewrite V5 in E2.
  assert (M2 : Rabs (value t1 / 5) <= 2 * A + 1) by (apply Rabs_le; lra).
  apply Rabs_interval in E2. set (t2 := (t1 / 5)%float) in *.
  assert (B2 : Rabs (value t2 - 9 * value x / 5) <= 1 / 10 ^ 14 * (A + 32))
    by (apply Rabs_le; lra).
  clear E2 M2 B1. apply Rabs_interval in B2.
  (* + 32 *)
  destruct (add_error t2 32 F2 F32) as (F3 & E3); rewrite ?V32.
  { apply Rabs_le. lra. }
  rewrite V32 in E3.
  assert (M3 : Rabs (value t2 + 32) <= 2 * A + 33) by (apply Rabs_le; lra).
  apply Rabs_interval in E3. set (t3 := (t2 + 32)%float) in *.
  assert (B3 : Rabs (value t3 - (9 * value x / 5 + 32)) <= 2 / 10 ^ 14 * (A + 32))
    by (apply Rabs_le; lra).
  clear E3 M3 B2. apply Rabs_interval in B3.
  (* - 32 *)
  destruct (sub_error t3 32 F3 F32) as (F4 & E4); rewrite ?V32.
  { apply Rabs_le. lra. }
  rewrite V32 in E4.
  assert (M4 : Rabs (value t3 - 32) <= 2 * A + 1) by (apply Rabs_le; lra).
  apply Rabs_interval in E4. set (t4 := (t3 - 32)%float) in *.
  assert (B4 : Rabs (value t4 - 9 * value x / 5) <= 3 / 10 ^ 14 * (A + 32))
    by (apply Rabs_le; lra).
  clear E4 M4 B3. apply Rabs_interval in B4.
  (* * 5 *)
  destruct (mul_error t4 5 F4 F5) as (F5' & E5 & _); rewrite ?V5.
  { apply Rabs_le. lra. }
  rewrite V5 in E5.
  assert (M5 : Rabs (value t4 * 5) <= 10 * A + 1) by (apply Rabs_le; lra).
  apply Rabs_interval in E5. set (t5 := (t4 * 5)%float) in *.
  assert (B5 : Rabs (value t5 - 9 * value x) <= 2 / 10 ^ 13 * (A + 32))
    by (apply Rabs_le; lra).
  clear E5 M5 B4. apply Rabs_interval in B5.
  (* / 9 *)
  destruct (div_error t5 9 F5' F9) as (F6 & E6 & _); rewrite ?V9; [lra| |].
  { apply Rabs_le. lra. }
  rewrite V9 in E6.
  assert (M6 : Rabs (value t5 / 9) <= 2 * A + 1) by (apply Rabs_le; lra).
  apply Rabs_interval in E6.
  split; [exact F6|]. apply Rabs_le. lra.
Qed.

Lemma Fahrenheit_there_and_back :
  PyFloat.is_finite ((x - 32) * 5 / 9 * 9 / 5 + 32) = true /\
  Rabs (value ((x - 32) * 5 / 9 * 9 / 5 + 32) - value x)
  <= 1 / 10 ^ 13 * (Rabs (value x) + 32).
Proof.
  destruct value_9 as [F9 V9]. destruct value_5 as [F5 V5]. destruct value_32 as [F32 V32].
  pose proof (Rabs_pos (value x)) as PX.
  pose proof (Rabs_interval _ _ (Rle_refl (Rabs (value x)))) as X'.
  set (A := Rabs (value x)) in *.
  (* x - 32 *)
  destruct (sub_error x 32 Fx F32) as (F1 & E1); rewrite ?V32.
  { apply Rabs_le. lra. }
  rewrite V32 in E1.
  assert (M1 : Rabs (value x - 32) <= A + 32) by (apply Rabs_le; lra).
  apply Rabs_interval in E1. set (t1 := (x - 32)%float) in *.
  assert (B1 : Rabs (value t1 - (value x - 32)) <= 1 / 10 ^ 14 * (A + 32))
    by (apply Rabs_le; lra).
  clear E1 M1. apply Rabs_interval in B1.
  (* * 5 *)
  destruct (mul_error t1 5 F1 F5) as (F2 & E2 & _); rewrite ?V5.
  { apply Rabs_le. lra. }
  rewrite V5 in E2.
  assert (M2 : Rabs (value t1 * 5) <= 6 * (A + 32)) by (apply Rabs_le; lra).
  apply Rabs_interval in E2. set (t2 := (t1 * 5)%float) in *.
  assert (B2 : Rabs (value t2 - 5 * (value x - 32)) <= 6 / 10 ^ 14 * (A + 32))
    by (apply Rabs_le; lra).
  clear E2 M2 B1. apply Rabs_interval in B2.
  (* / 9 *)
  destruct (div_error t2 9 F2 F9) as (F3 & E3 & _); rewrite ?V9; [lra| |].
  { apply Rabs_le. lra. }
  rewrite V9 in E3.
  assert (M3 : Rabs (value t2 / 9) <= A + 32) by (apply Rabs_le; lra).
  apply Rabs_interval in E3. set (t3 := (t2 / 9)%float) in *.
  assert (B3 : Rabs (value t3 - 5 * (value x - 32) / 9) <= 1 / 10 ^ 14 * (A + 32))
    by (apply Rabs_le; lra).
  clear E3 M3 B2. apply Rabs_interval in B3.
  (* * 9 *)
  destruct (mul_error t3 9 F3 F9) as (F4 & E4 & _); rewrite ?V9.
  { apply Rabs_le. lra. }
  rewrite V9 in E4.
  assert (M4 : Rabs (value t3 * 9) <= 6 * (A + 32)) by (apply Rabs_le; lra).
  apply Rabs_interval in E4. set (t4 := (t3 * 9)%float) in *.
  assert (B4 : Rabs (value t4 - 5 * (value x - 32)) <= 1 / 10 ^ 13 * (A + 32))
    by (apply Rabs_le; lra).
  clear E4 M4 B3. apply Rabs_interval in B4.
  (* / 5 *)
  destruct (div_error t4 5 F4 F5) as (F5' & E5 & _); rewrite ?V5; [lra| |].
  { apply Rabs_le. lra. }
  rewrite V5 in E5.
  assert (M5 : Rabs (value t4 / 5) <= 2 * (A + 32)) by (apply Rabs_le; lra).
  apply Rabs_interval in E5. set (t5 := (t4 / 5)%float) in *.
  assert (B5 : Rabs (value t5 - (value x - 32)) <= 3 / 10 ^ 14 * (A + 32))
    by (apply Rabs_le; lra).
  clear E5 M5 B4. apply Rabs_interval in B5.
  (* + 32 *)
  destruct (add_error t5 32 F5' F32) as (F6 & E6); rewrite ?V32.
  { apply Rabs_le. lra. }
  rewrite V32 in E6.
  assert (M6 : Rabs (value t5 + 32) <= 2 * (A + 32)) by (apply Rabs_le; lra).
  apply Rabs_interval in E6.
  split; [exact F6|]. apply Rabs_le. lra.
Qed.

End Affine.

Lemma moderate_bounds (x : float) :
  moderate x = true ->
  PyFloat.is_finite x = true /\
  1 / 10 ^ 31 <= Rabs (value x) /\ Rabs (value x) <= 10 ^ 31.
Proof.
  unfold moderate, PyFloat.is_finite, value.
  destruct (Prim2SF x) as [s|s| |s m e]; try discriminate.
  intros H. apply andb_true_iff in H. destruct H as [L U].
  apply Z.leb_le in L. apply Z.leb_le in U.
  split; [reflexivity|]. cbn [SF2R].
  pose proof (finite_value_pos m e) as P. rewrite Rabs_sign by lra.
  destruct (IZR_digits_bounds m) as [D1 D2]. pose proof (pow2_pos e) as Pe.
  split.
  - apply Rle_trans with (powerRZ 2 (-101)).
    + change (-101)%Z with (- (101))%Z. rewrite powerRZ_neg', <- IZR_pow2 by lia.
      rewrite (pow10 31). unfold Rdiv. rewrite Rmult_1_l. apply Rinv_le_contravar.
      * apply IZR_lt. vm_compute. reflexivity.
      * apply IZR_le. vm_compute. discriminate.
    + apply Rle_trans with (powerRZ 2 (Zpos (digits2_pos m) - 1 + e)).
      * apply pow2_le. lia.
      * rewrite pow2_add. apply Rmult_le_compat_r; lra.
  - apply Rle_trans with (powerRZ 2 100).
    + apply Rle_trans with (powerRZ 2 (Zpos (digits2_pos m) + e)).
      * rewrite pow2_add. apply Rmult_le_compat_r; lra.
      * apply pow2_le. lia.
    + rewrite <- IZR_pow2 by lia. rewrite (pow10 31). apply IZR_le. vm_compute. discriminate.
Qed.

Lemma zero_or_moderate_bounds (x : float) :
  zero_or_moderate x = true ->
  PyFloat.is_finite x = true /\
  (value x = 0 \/ 1 / 10 ^ 31 <= Rabs (value x)) /\ Rabs (value x) <= 10 ^ 31.
Proof.
  unfold zero_or_moderate. intros H.
  destruct (Prim2SF x) as [s|s| |s m e] eqn:E;
    try (destruct (moderate_bounds x H) as (F & L & U); split; [exact F|]; split; [right; exact L|exact U]).
  unfold PyFloat.is_finite, value. rewrite E. cbn [SF2R].
  split; [reflexivity|]. split; [left; reflexivity|]. rewrite Rabs_R0. lra.
Qed.

(** The round trips of a quantity with a scale factor. *)
Lemma factor_round_trips (c x : float) :
  moderate c = true -> zero_or_moderate x = true ->
  PyFloat.is_finite (x * c / c) = true /\
  PyFloat.is_finite (x / c * c) = true /\
  Rabs (value (x * c / c) - value x) <= 1 / 10 ^ 13 * (Rabs (value x) + 0) /\
  Rabs (value (x / c * c) - value x) <= 1 / 10 ^ 13 * (Rabs (value x) + 0).
Proof.
  intros C X. destruct (moderate_bounds c C) as (Fc & C0 & C1).
  destruct (zero_or_moderate_bounds x X) as (Fx & X0 & X1).
  destruct (multiply_then_divide x c Fx Fc X0 X1 C0 C1) as [F1 E1].
  destruct (divide_then_multiply x c Fx Fc X0 X1 C0 C1) as [F2 E2].
  rewrite Rplus_0_r. auto.
Qed.

(** C4 (as amended). For a converter whose four scale factors are of a
    magnitude between 2^-101 and 2^100, and a value that is zero or of such
    a magnitude, converting to English units and back to SI, or to SI and
    back to English units, gives a finite value within 1e-13 of the
    magnitude of the value plus the offset of the scale: 32 for the
    temperature, 0 for the quantities with a scale factor (a quality is left
    as it is). The round trip is therefore within the relative tolerance
    1e-9 for every such value of a quantity with a scale factor, and for a
    temperature of magnitude 0.01 or more; nearer to zero the error of a
    temperature is bounded by the offset, not by the value. *)
Theorem unit_round_trip
        (converter : StateResolver.UnitConverter)
        (q : StateResolver.PropertyIdentifier) (x : float) :
  moderate_factors converter = true -> zero_or_moderate x = true ->
  PyFloat.is_finite
    (StateResolver.toSI converter q (StateResolver.toEnglish converter q x)) = true /\
  PyFloat.is_finite
    (StateResolver.toEnglish converter q (StateResolver.toSI converter q x)) = true /\
  Rabs (value (StateResolver.toSI converter q (StateResolver.toEnglish converter q x))
        - value x)
  <= 1 / 10 ^ 13 * (Rabs (value x) + offset q) /\
  Rabs (value (StateResolver.toEnglish converter q (StateResolver.toSI converter q x))
        - value x)
  <= 1 / 10 ^ 13 * (Rabs (value x) + offset q) /\
  ((q = StateResolver.Temperature -> 1 / 100 <= Rabs (value x)) ->
   Rabs (value (StateResolver.toSI converter q (StateResolver.toEnglish converter q x))
         - value x)
   <= 1 / 10 ^ 9 * Rabs (value x) /\
   Rabs (value (StateResolver.toEnglish converter q (StateResolver.toSI converter q x))
         - value x)
   <= 1 / 10 ^ 9 * Rabs (value x)).
Proof.
  intros C X.
  assert (main :
    PyFloat.is_finite
      (StateResolver.toSI converter q (StateResolver.toEnglish converter q x)) = true /\
    PyFloat.is_finite
      (StateResolver.toEnglish converter q (StateResolver.toSI converter q x)) = true /\
    Rabs (value (StateResolver.toSI converter q (StateResolver.toEnglish converter q x))
          - value x)
    <= 1 / 10 ^ 13 * (Rabs (value x) + offset q) /\
    Rabs (value (StateResolver.toEnglish converter q (StateResolver.toSI converter q x))
          - value x)
    <= 1 / 10 ^ 13 * (Rabs (value x) + offset q)).
  { unfold moderate_factors in C.
    apply andb_true_iff in C. destruct C as [C C4].
    apply andb_true_iff in C. destruct C as [C C3].
    apply andb_true_iff in C. destruct C as [C1 C2].
    destruct q; cbn [StateResolver.toSI StateResolver.toEnglish offset];
      try (apply factor_round_trips; assumption).
    - destruct (zero_or_moderate_bounds x X) as (Fx & _ & X1).
      destruct (Celsius_there_and_back x Fx X1) as [F1 E1].
      destruct (Fahrenheit_there_and_back x Fx X1) as [F2 E2]. auto.
    - destruct (zero_or_moderate_bounds x X) as (Fx & _ & _).
      replace (value x - value x) with 0 by ring. rewrite Rabs_R0, Rplus_0_r.
      pose proof (Rabs_pos (value x)). repeat split; try assumption; lra. }
  destruct main as (F1 & F2 & E1 & E2).
  split; [exact F1|]. split; [exact F2|]. split; [exact E1|]. split; [exact E2|].
  intros T. pose proof (Rabs_pos (value x)) as P.
  destruct q; cbn [offset] in E1, E2; try (split; lra).
  specialize (T eq_refl). split; lra.
Qed.

Lemma unit_round_trip_witness :
  moderate_factors sample_converter = true /\
  zero_or_moderate Celsius_near_zero = true /\
  Rabs (value (StateResolver.toSI sample_converter StateResolver.Temperature
                 (StateResolver.toEnglish sample_converter StateResolver.Temperature
                    Celsius_near_zero))
        - value Celsius_near_zero)
  <= 1 / 10 ^ 13 * (Rabs (value Celsius_near_zero) + 32).
Proof.
  split; [reflexivity|]. split; [reflexivity|].
  exact (proj1 (proj2 (proj2
           (unit_round_trip sample_converter StateResolver.Temperature Celsius_near_zero
              eq_refl eq_refl)))).
Defined.

(** A ten-millionth of a degree Celsius, converted to Fahrenheit and back,
    is off by more than 3.7e-9 of its value: the sum with 32 keeps 53 bits
    of a number near 32, not of the value. *)
Lemma Celsius_near_zero_is_off :
  PyFloat.is_finite Celsius_near_zero = true /\
  Prim2SF Celsius_near_zero = S754_finite false 7555786372591432 (-76) /\
  Prim2SF (StateResolver.toEnglish sample_converter StateResolver.Temperature
             Celsius_near_zero)
  = S754_finite false 4503599652703244 (-47) /\
  Prim2SF (StateResolver.toSI sample_converter StateResolver.Temperature
             (StateResolver.toEnglish sample_converter StateResolver.Temperature
                Celsius_near_zero))
  = S754_finite false 7555786401236764 (-76) /\
  1 / 10 ^ 9 * Rabs (value Celsius_near_zero)
  < Rabs (value (StateResolver.toSI sample_converter StateResolver.Temperature
                   (StateResolver.toEnglish sample_converter StateResolver.Temperature
                      Celsius_near_zero))
          - value Celsius_near_zero).
Proof.
  split; [reflexivity|]. split; [reflexivity|]. split; [reflexivity|].
  split; [reflexivity|]. unfold value.
  change (Prim2SF (StateResolver.toSI _ _ _))
    with (S754_finite false 7555786401236764 (-76)).
  change (Prim2SF Celsius_near_zero) with (S754_finite false 7555786372591432 (-76)).
  cbn [SF2R sign]. pose proof (pow2_pos (-76)) as P.
  rewrite !Rmult_1_l. rewrite <- Rmult_minus_distr_r, <- minus_IZR.
  rewrite !Rabs_pos_eq.
  - change (7555786401236764 - 7555786372591432)%Z with 28645332%Z.
    rewrite <- Rmult_assoc. apply Rmult_lt_compat_r; [exact P|]. lra.
  - apply Rmult_le_pos; [apply IZR_le; vm_compute; discriminate|lra].
  - apply Rmult_le_pos; [apply IZR_le; vm_compute; discriminate|lra].
Qed.

End RoundingErrors.
